(** * Onboarding Template Maker (OTM v1.1): the core behind the window

    A shallow embedding of [src/v1.1/OTM_v1.1.py]: the derived user name,
    the mail formatter, the markup encoder, the configuration loader, the
    CSV record store and the CF_HTML clipboard container, with the
    properties the specification states about them.

    Conventions.
    - A Python [str] handled by the store, the formatter and the encoder is
      a [string] over the 8-bit alphabet (a character is its code point,
      U+0000..U+00FF), with the white space, the line breaks and the case
      mapping of that range.
    - In the clipboard part, where the encoding itself is the subject, a
      [str] is a sequence of Unicode code points and [bytes] is a [string].
    - A call that can raise returns a [res]: [Ok v] or [Raise e].
    - A Python [dict] whose keys are field names is a [gmap]. *)

From Stdlib Require Import ZArith Ascii String List Bool Lia.
From stdpp Require Import base option list gmap strings.

Local Open Scope Z_scope.

Arguments String.append : simpl nomatch.

(* ===================================================================== *)
(** * Exceptions *)
(* ===================================================================== *)

(** The two failures of [csv.reader] in its default, non-strict dialect,
    both raised as [_csv.Error]. *)
Inductive csv_failure :=
  | FieldLargerThanLimit
  | NewlineInUnquotedField.

Inductive exn :=
  | AttributeError
  | TypeError
  | ValueError
  | UnicodeEncodeError
  | RuntimeError
  | OSError
  | ImportError
  | PywintypesError
  | TclError
  | CsvError (why : csv_failure).

Inductive res (A : Type) :=
  | Ok (a : A)
  | Raise (e : exn).
Arguments Ok {A} a.
Arguments Raise {A} e.

Global Instance res_ret : MRet res := fun A a => Ok a.

Global Instance res_bind : MBind res := fun A B k m =>
  match m with
  | Ok a => k a
  | Raise e => Raise e
  end.

Global Instance res_fmap : FMap res := fun A B f m =>
  match m with
  | Ok a => Ok (f a)
  | Raise e => Raise e
  end.

(* ===================================================================== *)
(** * Text *)
(* ===================================================================== *)

Module Text.

Definition code (c : ascii) : Z := Z.of_N (N_of_ascii c).
Definition chr (z : Z) : ascii := ascii_of_N (Z.to_N z).

(** [str.isspace] for one character: the white space of the range. *)
Definition isspace (c : ascii) : bool :=
  let n := code c in
  ((9 <=? n) && (n <=? 13)) || ((28 <=? n) && (n <=? 32))
  || (n =? 133) || (n =? 160).

(** The upper case of a character: the letters [a]..[z] and the small
    letters of U+00E0..U+00FE (U+00F7, the division sign, is none).  Three
    characters of the range have their upper case outside of it (U+00B5,
    U+00DF, U+00FF) and are left as they are. *)
Definition upper (c : ascii) : ascii :=
  let n := code c in
  if (97 <=? n) && (n <=? 122) then chr (n - 32)
  else if (224 <=? n) && (n <=? 254) && negb (n =? 247) then chr (n - 32)
  else c.

(** The lower case of a character: the letters [A]..[Z] and the capital
    letters of U+00C0..U+00DE (U+00D7, the multiplication sign, is
    none). *)
Definition lower (c : ascii) : ascii :=
  let n := code c in
  if (65 <=? n) && (n <=? 90) then chr (n + 32)
  else if (192 <=? n) && (n <=? 222) && negb (n =? 215) then chr (n + 32)
  else c.

Fixpoint map_chars (f : ascii -> ascii) (s : string) : string :=
  match s with
  | EmptyString => EmptyString
  | String c s' => String (f c) (map_chars f s')
  end.

(** [s.capitalize()]: the first character upper-cased, the others
    lower-cased. *)
Definition capitalize (s : string) : string :=
  match s with
  | EmptyString => EmptyString
  | String c s' => String (upper c) (map_chars lower s')
  end.

Definition is_empty (s : string) : bool :=
  match s with EmptyString => true | _ => false end.

(** Truth value of a [str]: non-empty. *)
Definition truthy (s : string) : bool := negb (is_empty s).

Fixpoint lstrip (s : string) : string :=
  match s with
  | EmptyString => EmptyString
  | String c s' => if isspace c then lstrip s' else s
  end.

Fixpoint rstrip (s : string) : string :=
  match s with
  | EmptyString => EmptyString
  | String c s' =>
      let r := rstrip s' in
      if is_empty r && isspace c then EmptyString else String c r
  end.

(** [s.strip()] *)
Definition strip (s : string) : string := rstrip (lstrip s).

(** [s.rstrip("\n")] *)
Fixpoint rstrip_nl (s : string) : string :=
  match s with
  | EmptyString => EmptyString
  | String c s' =>
      let r := rstrip_nl s' in
      if is_empty r && Ascii.eqb c "010" then EmptyString else String c r
  end.

(** [s.split()]: the maximal runs of characters that are not white
    space.  [cur] is the run being read. *)
Fixpoint split_from (cur : string) (s : string) : list string :=
  match s with
  | EmptyString => if is_empty cur then [] else [cur]
  | String c s' =>
      if isspace c
      then (if is_empty cur then split_from EmptyString s'
            else cur :: split_from EmptyString s')
      else split_from (cur +:+ String c EmptyString) s'
  end.

Definition split (s : string) : list string := split_from EmptyString s.

(** [sep.join(parts)] *)
Definition join (sep : string) (parts : list string) : string :=
  String.concat sep parts.

(** [s.startswith(p)] *)
Definition startswith (s p : string) : bool := String.prefix p s.

Fixpoint all_chars (p : ascii -> bool) (s : string) : bool :=
  match s with
  | EmptyString => true
  | String c s' => p c && all_chars p s'
  end.

Fixpoint filter_chars (p : ascii -> bool) (s : string) : string :=
  match s with
  | EmptyString => EmptyString
  | String c s' => if p c then String c (filter_chars p s') else filter_chars p s'
  end.

Definition nonspace (c : ascii) : bool := negb (isspace c).

(** A token: a non-empty run of characters none of which is white space. *)
Definition is_token (t : string) : bool := truthy t && all_chars nonspace t.

Fixpoint concat_all (l : list string) : string :=
  match l with
  | [] => EmptyString
  | s :: l' => s +:+ concat_all l'
  end.

End Text.

(* ===================================================================== *)
(** * The derived user name *)
(* ===================================================================== *)

(** [make_username], lines 69-73. *)
Definition make_username (full_name : string) : string :=
  let parts := filter Text.truthy (Text.split (Text.strip full_name)) in
  match parts with
  | [] => ""
  | _ => Text.join "." (map Text.capitalize parts)
  end.

(** [make_display_username], lines 75-77. *)
Definition make_display_username (full_name : string) : string :=
  make_username full_name.

(* ===================================================================== *)
(** * Records as the program holds them: Python dicts *)
(* ===================================================================== *)

(** A value of a record dict: a [str], or [None] (what [csv.DictReader]
    stores for a field its row does not reach). *)
Inductive pyval :=
  | PyNone
  | PyStr (s : string).

Global Instance pyval_eq_dec : EqDecision pyval.
Proof. solve_decision. Defined.

(** A record dict.  [named] holds the entries under [str] keys; [extra] is
    the entry under the key [None], where [csv.DictReader] puts the fields
    of a row beyond the header ([restkey]). *)
Record pydict := PyDict {
  named : gmap string pyval;
  extra : option (list string)
}.

Global Instance pydict_eq_dec : EqDecision pydict.
Proof. solve_decision. Defined.

(** [dict(pairs)]: a later pair replaces an earlier one with its key. *)
Definition dict_of_pairs (pairs : list (string * pyval)) : gmap string pyval :=
  fold_left (fun m kv => <[kv.1 := kv.2]> m) pairs ∅.

(** A dict display [{k1: v1, ...}] whose values are [str]. *)
Definition text_dict (pairs : list (string * string)) : pydict :=
  PyDict (dict_of_pairs (map (fun kv => (kv.1, PyStr kv.2)) pairs)) None.

(** [d.get(k, default)] *)
Definition dict_get (d : pydict) (k : string) (default : pyval) : pyval :=
  match named d !! k with
  | Some v => v
  | None => default
  end.

(** Truth value of a dict value. *)
Definition value_truthy (v : pyval) : bool :=
  match v with
  | PyNone => false
  | PyStr s => Text.truthy s
  end.

(** What an f-string field [{v}] renders: [str(v)]. *)
Definition render (v : pyval) : string :=
  match v with
  | PyNone => "None"
  | PyStr s => s
  end.

(** The field [k] of a record read as text: its [str] value, the empty
    string when the key is absent. *)
Definition field (d : pydict) (k : string) : string :=
  render (dict_get d k (PyStr "")).

(** The key [k] of [d] does not hold [None]. *)
Definition holds_text (d : pydict) (k : string) : bool :=
  match named d !! k with
  | Some PyNone => false
  | _ => true
  end.

(* ===================================================================== *)
(** * Formatter *)
(* ===================================================================== *)

Definition nl : string := String "010" EmptyString.

(** [format_email_text], lines 359-382.  The user name is worked out
    first: [rec.get('username') or make_username(rec.get('full_name',''))];
    [make_username(None)] raises [AttributeError]. *)
Definition format_email_text (rec : pydict) : res string :=
  username ←
    (let stored := dict_get rec "username" PyNone in
     if value_truthy stored then Ok stored
     else match dict_get rec "full_name" (PyStr "") with
          | PyStr full => Ok (PyStr (make_username full))
          | PyNone => Raise AttributeError
          end);
  let display_user := render username in
  Ok (Text.concat_all [
    "Hi,"; nl;
    nl;
    "Please see below for "; render (dict_get rec "full_name" (PyStr ""));
      "'s login details."; nl;
    nl;
    "PC login:"; nl;
    "PC Name: "; render (dict_get rec "pc_name" (PyStr "")); nl;
    "Username: "; display_user; nl;
    "Password: "; render (dict_get rec "password" (PyStr "")); nl;
    nl;
    "Itris:"; nl;
    "Username: "; display_user; nl;
    "Password: "; render (dict_get rec "password" (PyStr "")); nl;
    nl;
    "Telephone and DDI:"; nl;
    "Ext: "; render (dict_get rec "ext" (PyStr "")); nl;
    "DDI: "; render (dict_get rec "ddi" (PyStr "")); nl;
    nl;
    "Thanks,"; nl ]).

(** The sample record of [show_preview], lines 425-433. *)
Definition sample : pydict := text_dict [
  ("full_name", "Name Surname");
  ("username", "Name.Surname");
  ("password", "Total1999!");
  ("pc_name", "Total-DXXX");
  ("ext", "000");
  ("ddi", "01234 56789");
  ("email", "Name.Surname@totalassist.co.uk") ].

(** ** Lines of a document *)

(** The characters [str.splitlines] breaks a line at. *)
Definition is_linebreak (c : ascii) : bool :=
  let n := Text.code c in
  ((10 <=? n) && (n <=? 13)) || ((28 <=? n) && (n <=? 30)) || (n =? 133).

(** [s.splitlines(keepends)]; [cur] is the line being read. *)
Fixpoint splitlines_from (keepends : bool) (cur s : string) : list string :=
  match s with
  | EmptyString => if Text.is_empty cur then [] else [cur]
  | String c s' =>
      if is_linebreak c then
        match s' with
        | String c' s'' =>
            if Ascii.eqb c "013" && Ascii.eqb c' "010" then
              (cur +:+ (if keepends then String c (String c' EmptyString) else EmptyString))
                :: splitlines_from keepends EmptyString s''
            else
              (cur +:+ (if keepends then String c EmptyString else EmptyString))
                :: splitlines_from keepends EmptyString s'
        | EmptyString =>
            [cur +:+ (if keepends then String c EmptyString else EmptyString)]
        end
      else splitlines_from keepends (cur +:+ String c EmptyString) s'
  end.

Definition splitlines (keepends : bool) (s : string) : list string :=
  splitlines_from keepends EmptyString s.

(** The text whose lines are [ls], each ended by a line feed. *)
Definition unlines (ls : list string) : string :=
  Text.concat_all (map (fun l => l +:+ nl) ls).

(** The heading test, as the encoder makes it (line 394). *)
Definition is_heading (s : string) : bool :=
  Text.startswith s "PC login:" || Text.startswith s "Itris:"
  || Text.startswith s "Telephone and DDI:".




(** The user name the document shows. *)
Definition shown_username (rec : pydict) : string :=
  if Text.truthy (field rec "username") then field rec "username"
  else make_username (field rec "full_name").

(** The formatter's line sequence, as the specification lays it out. *)
Definition document_lines (rec : pydict) : list string := [
  "Hi,";
  "";
  "Please see below for " +:+ field rec "full_name" +:+ "'s login details.";
  "";
  "PC login:";
  "PC Name: " +:+ field rec "pc_name";
  "Username: " +:+ shown_username rec;
  "Password: " +:+ field rec "password";
  "";
  "Itris:";
  "Username: " +:+ shown_username rec;
  "Password: " +:+ field rec "password";
  "";
  "Telephone and DDI:";
  "Ext: " +:+ field rec "ext";
  "DDI: " +:+ field rec "ddi";
  "";
  "Thanks," ].

(** The keys [format_email_text] reads. *)
Definition FORMAT_KEYS : list string :=
  ["username"; "full_name"; "pc_name"; "password"; "ext"; "ddi"].

(** A record of text: none of the keys the formatter reads holds [None]. *)
Definition text_record (rec : pydict) : Prop :=
  forallb (holds_text rec) FORMAT_KEYS = true.

(** The record [csv.DictReader] builds for the row
    [Ann Lee,Ann.Lee,Pw1!,PC-01] under the seven-column header: the three
    columns the row does not reach hold [None]. *)
Definition short_row_record : pydict :=
  PyDict (dict_of_pairs [
    ("full_name", PyStr "Ann Lee"); ("username", PyStr "Ann.Lee");
    ("password", PyStr "Pw1!"); ("pc_name", PyStr "PC-01");
    ("ext", PyNone); ("ddi", PyNone); ("email", PyNone) ]) None.

(* ===================================================================== *)
(** * Markup encoder *)
(* ===================================================================== *)

(** The quotation mark, U+0022. *)
Definition dquote : ascii := "034".

(** [s.replace(old, new)] for an [old] of one character. *)
Fixpoint replace_char (old : ascii) (new : string) (s : string) : string :=
  match s with
  | EmptyString => EmptyString
  | String c s' =>
      (if Ascii.eqb c old then new else String c EmptyString)
        +:+ replace_char old new s'
  end.

(** [html.escape(s)] of the standard library, [quote=True]: five
    replacements, the ampersand first. *)
Definition html_escape (s : string) : string :=
  let s := replace_char "&" "&amp;" s in
  let s := replace_char "<" "&lt;" s in
  let s := replace_char ">" "&gt;" s in
  let s := replace_char dquote "&quot;" s in
  let s := replace_char "'" "&#x27;" s in
  s.

(** [escape_html], lines 400-402. *)
Definition escape_html (s : string) : string := html_escape s.

(** One turn of the loop of [format_html_lines_for_fragment]: what the
    list [out] is after the line [raw]. *)
Definition fragment_step (out : list string) (raw : string) : list string :=
  let s := Text.rstrip_nl raw in
  if negb (Text.truthy s) then out ++ ["<br/>"]
  else if Text.startswith s "PC login:" || Text.startswith s "Itris:"
          || Text.startswith s "Telephone and DDI:"
  then out ++ ["<b><u>" +:+ escape_html s +:+ "</u></b><br/>"]
  else out ++ [escape_html s +:+ "<br/>"].

(** [format_html_lines_for_fragment], lines 384-398. *)
Definition format_html_lines_for_fragment (lines : list string) : string :=
  let out := fold_left fragment_step lines [] in
  Text.join "" out.

(** ** The encoder as the specification words it *)

(** Text escaping, one character at a time. *)
Definition escape_char (c : ascii) : string :=
  if Ascii.eqb c "&" then "&amp;"
  else if Ascii.eqb c "<" then "&lt;"
  else if Ascii.eqb c ">" then "&gt;"
  else if Ascii.eqb c dquote then "&quot;"
  else if Ascii.eqb c "'" then "&#x27;"
  else String c EmptyString.

Fixpoint escape_text (s : string) : string :=
  match s with
  | EmptyString => EmptyString
  | String c s' => escape_char c +:+ escape_text s'
  end.

(** What one line contributes: a line break for an empty line; else the
    escaped text, in bold and underline when the raw line starts with a
    heading, and a line break. *)
Definition encode_line (line : string) : string :=
  if Text.is_empty line then "<br/>"
  else if is_heading line
  then "<b><u>" +:+ escape_text line +:+ "</u></b>" +:+ "<br/>"
  else escape_text line +:+ "<br/>".

Definition encode (lines : list string) : string :=
  Text.concat_all (map encode_line lines).

(** A text with each character replaced by a text; the replacements of the
    encoder are stated with it. *)
Fixpoint expand (f : ascii -> string) (s : string) : string :=
  match s with
  | EmptyString => EmptyString
  | String c s' => f c +:+ expand f s'
  end.


(* ===================================================================== *)
(** * Paths *)
(* ===================================================================== *)

(** A [pathlib.Path] of the POSIX flavour: the text of its parent and its
    final component. *)
Record path := MkPath {
  parent : string;
  name : string
}.

Global Instance path_eq_dec : EqDecision path.
Proof. solve_decision. Defined.

Global Instance path_countable : Countable path :=
  inj_countable' (fun p => (parent p, name p)) (fun dn => MkPath dn.1 dn.2)
                 (fun p => match p with MkPath _ _ => eq_refl end).

(** The texts between the slashes of [s]; [cur] is the one being read. *)
Fixpoint components (cur s : string) : list string :=
  match s with
  | EmptyString => [cur]
  | String c s' =>
      if Ascii.eqb c "/" then cur :: components EmptyString s'
      else components (cur +:+ String c EmptyString) s'
  end.

Fixpoint leading_slashes (s : string) : nat :=
  match s with
  | String c s' => if Ascii.eqb c "/" then S (leading_slashes s') else O
  | EmptyString => O
  end.

(** The root of a path text: [/] when it starts with a slash, [//] when it
    starts with exactly two. *)
Definition root_of (s : string) : string :=
  match leading_slashes s with
  | O => ""
  | 2%nat => "//"
  | _ => "/"
  end.

(** [pathlib.Path(p)] for a [str]: empty components and the component [.]
    are dropped. *)
Definition Path (p : string) : path :=
  let parts :=
    filter (fun c => negb (Text.is_empty c || String.eqb c "."))
           (components EmptyString p) in
  match rev parts with
  | [] => MkPath (root_of p) EmptyString
  | last :: before =>
      MkPath (root_of p +:+ Text.join "/" (rev before)) last
  end.

(** [str.rfind('.')]: the index of the last dot, [-1] when there is none. *)
Fixpoint rfind_dot (s : string) (i : Z) (found : Z) : Z :=
  match s with
  | EmptyString => found
  | String c s' => rfind_dot s' (i + 1) (if Ascii.eqb c "." then i else found)
  end.

Fixpoint drop (n : nat) (s : string) : string :=
  match n, s with
  | O, _ => s
  | S n', String _ s' => drop n' s'
  | S _, EmptyString => EmptyString
  end.

Fixpoint take (n : nat) (s : string) : string :=
  match n, s with
  | O, _ => EmptyString
  | S n', String c s' => String c (take n' s')
  | S _, EmptyString => EmptyString
  end.

Definition slen (s : string) : Z := Z.of_nat (String.length s).

(** [PurePath.suffix]: the final component from its last dot on, when that
    dot is neither its first nor its last character. *)
Definition suffix (p : path) : string :=
  let i := rfind_dot (name p) 0 (-1) in
  if (0 <? i) && (i <? slen (name p) - 1)
  then drop (Z.to_nat i) (name p)
  else EmptyString.

(** [PurePath.with_suffix(sfx)], for a suffix that starts with a dot; a
    path with an empty name raises [ValueError]. *)
Definition with_suffix (p : path) (sfx : string) : res path :=
  if Text.is_empty (name p) then Raise ValueError
  else
    let old := suffix p in
    if Text.is_empty old then Ok (MkPath (parent p) (name p +:+ sfx))
    else Ok (MkPath (parent p)
               (take (String.length (name p) - String.length old) (name p) +:+ sfx)).

(* ===================================================================== *)
(** * Configuration *)
(* ===================================================================== *)

(** A value [json.load] returns.  A number is an integer here: all the
    loader asks of it is whether it is zero. *)
#[warnings="-register-all"]
Inductive json :=
  | JNull
  | JBool (b : bool)
  | JNum (z : Z)
  | JStr (s : string)
  | JArr (items : list json)
  | JObj (members : list (string * json)).

(** The settings store, as [load_config] finds it: no file; a file that
    cannot be opened, read or parsed (the exception it raises); a file that
    holds a JSON value. *)
Inductive settings :=
  | NoFile
  | Broken (e : exn)
  | Holds (data : json).

(** [DEFAULT_DB], line 20. *)
Definition DEFAULT_DB : path := Path "onboarding_db.csv".

(** The member of an object under a key: the last one, when the text of the
    object repeats the key. *)
Fixpoint last_member (members : list (string * json)) (k : string)
    (found : option json) : option json :=
  match members with
  | [] => found
  | (k', v) :: rest =>
      last_member rest k (if String.eqb k' k then Some v else found)
  end.

(** [data.get(k)]: only a dict has the method. *)
Definition json_get (data : json) (k : string) : res json :=
  match data with
  | JObj members => Ok (default JNull (last_member members k None))
  | _ => Raise AttributeError
  end.

Definition json_truthy (v : json) : bool :=
  match v with
  | JNull => false
  | JBool b => b
  | JNum z => negb (z =? 0)
  | JStr s => Text.truthy s
  | JArr items => match items with [] => false | _ => true end
  | JObj members => match members with [] => false | _ => true end
  end.

(** [pathlib.Path(p)] for a JSON value: anything but a [str] raises
    [TypeError]. *)
Definition json_path (v : json) : res path :=
  match v with
  | JStr s => Ok (Path s)
  | _ => Raise TypeError
  end.

(** The body of the [try] of [load_config], lines 30-43: the value of
    [DB_FILE] after it.  [exists p] is [p.exists()], which can raise. *)
Definition load_config_try (cfg : settings) (exists_ : path -> res bool)
    (DB_FILE : path) : res path :=
  match cfg with
  | Broken e => Raise e
  | NoFile => Ok DEFAULT_DB
  | Holds data =>
      p ← json_get data "db_path";
      if json_truthy p then
        p ← json_path p;
        exists_ p ≫= fun found : bool =>
        if found then Ok p    (* line 38 *)
        else Ok p             (* line 41 *)
      else Ok DB_FILE
  end.

(** [load_config], lines 27-46: any exception selects the default. *)
Definition load_config (cfg : settings) (exists_ : path -> res bool)
    (DB_FILE : path) : path :=
  match load_config_try cfg exists_ DB_FILE with
  | Ok p => p
  | Raise _ => DEFAULT_DB
  end.

(* ===================================================================== *)
(** * The csv module, excel dialect *)
(* ===================================================================== *)

(** The part of [Modules/_csv.c] and [Lib/csv.py] the store runs: the
    default dialect (delimiter [,], quote character, doubled quotes, line
    terminator CR LF, minimal quoting, no escape character, not strict). *)
Module Csv.

Definition delimiter : ascii := ",".
Definition quotechar : ascii := dquote.
Definition CR : ascii := "013".
Definition LF : ascii := "010".
Definition lineterminator : string := String CR (String LF EmptyString).

Definition is_newline (c : ascii) : bool := Ascii.eqb c LF || Ascii.eqb c CR.

(** ** Writer *)

(** A character that makes the writer quote its field: the delimiter, the
    quote character, a character of the line terminator. *)
Definition special (c : ascii) : bool :=
  Ascii.eqb c delimiter || Ascii.eqb c quotechar || is_newline c.

Definition needs_quotes (s : string) : bool :=
  negb (Text.all_chars (fun c => negb (special c)) s).

(** The data of a quoted field: each quote character doubled. *)
Fixpoint double_quotes (s : string) : string :=
  match s with
  | EmptyString => EmptyString
  | String c s' =>
      if Ascii.eqb c quotechar
      then String c (String c (double_quotes s'))
      else String c (double_quotes s')
  end.

(** [join_append]: one field as it stands in the record. *)
Definition quote_field (quoted : bool) (s : string) : string :=
  if quoted
  then String quotechar (double_quotes s +:+ String quotechar EmptyString)
  else s.

Fixpoint join_fields (fields : list string) : string :=
  match fields with
  | [] => EmptyString
  | [f] => quote_field (needs_quotes f) f
  | f :: rest =>
      quote_field (needs_quotes f) f +:+ String delimiter (join_fields rest)
  end.

(** [writer.writerow(fields)]: the text written.  A record of one empty
    field is written as a pair of quotes. *)
Definition writerow (fields : list string) : string :=
  let rec := join_fields fields in
  let rec :=
    match fields with
    | [] => rec
    | _ => if Text.is_empty rec then quote_field true EmptyString else rec
    end in
  rec +:+ lineterminator.

(** ** Reader *)

Inductive parser_state :=
  | START_RECORD
  | START_FIELD
  | IN_FIELD
  | IN_QUOTED_FIELD
  | QUOTE_IN_QUOTED_FIELD
  | EAT_CRNL.

Global Instance parser_state_eq_dec : EqDecision parser_state.
Proof. solve_decision. Defined.

(** The reader object: its state, the fields of the record being read,
    the characters of the field being read (the last one first) and their
    number. *)
Record reader := Reader {
  state : parser_state;
  fields : list string;
  field_buf : string;
  field_len : Z
}.

Definition with_state (st : parser_state) (r : reader) : reader :=
  Reader st (fields r) (field_buf r) (field_len r).

(** [parse_reset] *)
Definition parse_reset : reader := Reader START_RECORD [] EmptyString 0.

(** [parse_save_field] *)
Definition parse_save_field (r : reader) : reader :=
  Reader (state r) (fields r ++ [String.rev (field_buf r)]) EmptyString 0.

Section Reader.

(** [csv.field_size_limit()] *)
Variable field_limit : Z.

(** [parse_add_char] *)
Definition parse_add_char (r : reader) (c : ascii) : res reader :=
  if field_len r >=? field_limit
  then Raise (CsvError FieldLargerThanLimit)
  else Ok (Reader (state r) (fields r) (String c (field_buf r)) (field_len r + 1)).

(** The [START_FIELD] case of [parse_process_char]. *)
Definition start_field (r : reader) (c : option ascii) : res reader :=
  match c with
  | None => Ok (with_state START_RECORD (parse_save_field r))
  | Some ch =>
      if is_newline ch then Ok (with_state EAT_CRNL (parse_save_field r))
      else if Ascii.eqb ch quotechar then Ok (with_state IN_QUOTED_FIELD r)
      else if Ascii.eqb ch delimiter then Ok (parse_save_field r)
      else with_state IN_FIELD <$> parse_add_char r ch
  end.

(** [parse_process_char]; [None] is the end-of-line signal [EOL] the reader
    gives itself after the last character of each line. *)
Definition parse_process_char (r : reader) (c : option ascii) : res reader :=
  match state r with
  | START_RECORD =>
      match c with
      | None => Ok r
      | Some ch =>
          if is_newline ch then Ok (with_state EAT_CRNL r)
          else start_field (with_state START_FIELD r) c
      end
  | START_FIELD => start_field r c
  | IN_FIELD =>
      match c with
      | None => Ok (with_state START_RECORD (parse_save_field r))
      | Some ch =>
          if is_newline ch then Ok (with_state EAT_CRNL (parse_save_field r))
          else if Ascii.eqb ch delimiter
          then Ok (with_state START_FIELD (parse_save_field r))
          else parse_add_char r ch
      end
  | IN_QUOTED_FIELD =>
      match c with
      | None => Ok r
      | Some ch =>
          if Ascii.eqb ch quotechar then Ok (with_state QUOTE_IN_QUOTED_FIELD r)
          else parse_add_char r ch
      end
  | QUOTE_IN_QUOTED_FIELD =>
      match c with
      | None => Ok (with_state START_RECORD (parse_save_field r))
      | Some ch =>
          if Ascii.eqb ch quotechar
          then with_state IN_QUOTED_FIELD <$> parse_add_char r ch
          else if Ascii.eqb ch delimiter
          then Ok (with_state START_FIELD (parse_save_field r))
          else if is_newline ch
          then Ok (with_state EAT_CRNL (parse_save_field r))
          else with_state IN_FIELD <$> parse_add_char r ch
      end
  | EAT_CRNL =>
      match c with
      | None => Ok (with_state START_RECORD r)
      | Some ch =>
          if is_newline ch then Ok r
          else Raise (CsvError NewlineInUnquotedField)
      end
  end.

(** The characters of one line, in order. *)
Fixpoint process_line (r : reader) (line : string) : res reader :=
  match line with
  | EmptyString => Ok r
  | String c rest => r' ← parse_process_char r (Some c); process_line r' rest
  end.

(** The records [list(reader)] collects from the lines still to come, [r]
    being the reader inside the record it is reading.  [Reader_iternext]
    takes lines until the state is [START_RECORD] again and returns the
    fields; when the lines end inside a record, the record read so far is
    returned if it holds a character or stands in a quoted field. *)
Fixpoint read_records (r : reader) (lines : list string)
    : res (list (list string)) :=
  match lines with
  | [] =>
      if negb (field_len r =? 0) || bool_decide (state r = IN_QUOTED_FIELD)
      then Ok [fields (parse_save_field r)]
      else Ok []
  | line :: rest =>
      r1 ← process_line r line;
      r2 ← parse_process_char r1 None;
      if bool_decide (state r2 = START_RECORD)
      then rows ← read_records parse_reset rest; Ok (fields r2 :: rows)
      else read_records r2 rest
  end.

End Reader.

(** The lines a text file opened with [newline=''] iterates over: a line
    ends after LF, after CR LF, or after a CR that no LF follows, and keeps
    its ending.  [cur] holds the line being read, last character first;
    [cr] tells that it ends in CR. *)
Fixpoint lines_from (cur : string) (cr : bool) (s : string) : list string :=
  match s with
  | EmptyString => if Text.is_empty cur then [] else [String.rev cur]
  | String c s' =>
      if Ascii.eqb c LF
      then String.rev (String c cur) :: lines_from EmptyString false s'
      else if cr
      then String.rev cur :: lines_from (String c EmptyString) (Ascii.eqb c CR) s'
      else lines_from (String c cur) (Ascii.eqb c CR) s'
  end.

Definition file_lines (s : string) : list string :=
  lines_from EmptyString false s.

(** The limit a fresh interpreter starts with: 128 * 1024. *)
Definition field_size_limit : Z := 131072.

(** [list(csv.reader(f))] for a file that holds [text]. *)
Definition reader_rows (text : string) : res (list (list string)) :=
  read_records field_size_limit parse_reset (file_lines text).

(** ** DictWriter and DictReader *)

(** What the writer writes for a value: the text of a [str], nothing for
    [None]. *)
Definition cell (v : pyval) : string :=
  match v with
  | PyNone => EmptyString
  | PyStr s => s
  end.

(** [DictWriter._dict_to_list], with [extrasaction='raise'] and
    [restval='']: a key outside the field names raises [ValueError]. *)
Definition dict_to_list (fieldnames : list string) (rowdict : pydict)
    : res (list pyval) :=
  if bool_decide (extra rowdict = None)
     && bool_decide (map_Forall (fun k _ => k ∈ fieldnames) (named rowdict))
  then Ok (map (fun k => dict_get rowdict k (PyStr EmptyString)) fieldnames)
  else Raise ValueError.

(** The dict [DictReader.__next__] builds from a row: the fields under the
    names of the header; [None] under the names the row does not reach; the
    fields beyond the header under the key [None]. *)
Definition row_dict (fieldnames row : list string) : pydict :=
  let d := dict_of_pairs (zip fieldnames (map PyStr row)) in
  let lf := length fieldnames in
  let lr := length row in
  if (lf <? lr)%nat then PyDict d (Some (List.skipn lf row))
  else PyDict (fold_left (fun m k => <[k := PyNone]> m) (List.skipn lr fieldnames) d)
              None.

Definition is_blank_row (row : list string) : bool :=
  match row with [] => true | _ => false end.

(** [list(csv.DictReader(f))]: the first row is the header; a row with no
    field is skipped. *)
Definition dict_reader (text : string) : res (list pydict) :=
  rows ← reader_rows text;
  match rows with
  | [] => Ok []
  | fieldnames :: rows' =>
      Ok (map (row_dict fieldnames)
              (List.filter (fun row => negb (is_blank_row row)) rows'))
  end.


End Csv.

(* ===================================================================== *)
(** * The csv reader, character by character *)
(* ===================================================================== *)

(** Nothing here is code of the program: these are the notions in which
    the lemmas on the csv module are stated.  The reader of the module
    [Csv] is the one of the source. *)

Module CsvScan.
Import Text Csv.

(** The reader before a field: at the start of a record or of a field,
    nothing read of the field. *)
Definition before_field (st : parser_state) (flds : list string) : reader :=
  Reader st flds EmptyString 0.

(** The reader after the text of a field, before the character that ends
    it. *)
Definition after_field (st : parser_state) (flds : list string)
    (q : bool) (f : string) : reader :=
  if q then Reader QUOTE_IN_QUOTED_FIELD flds (String.rev_app f "") (slen f)
  else if is_empty f then Reader st flds EmptyString 0
  else Reader IN_FIELD flds (String.rev_app f "") (slen f).

Definition field_start (st : parser_state) : Prop :=
  st = START_RECORD \/ st = START_FIELD.

(** The fields of a record with the quoting of each, joined by the
    delimiter. *)
Fixpoint enc_row (qfs : list (bool * string)) : string :=
  match qfs with
  | [] => EmptyString
  | (q, f) :: rest =>
      match rest with
      | [] => quote_field q f
      | _ => quote_field q f +:+ String delimiter (enc_row rest)
      end
  end.

Definition quoting (f : string) : bool * string := (needs_quotes f, f).

Section Limit.

Variable limit : Z.

(** [read_records] takes the text line by line.  [scan] takes it one
    character at a time and gives the reader its end-of-line signal where
    a line ends: [cr] tells that the last character was a CR (the line ends
    before the next character, unless that is LF), [pend] that the line
    being read holds a character. *)

Definition finish_line (r : reader)
    (k : reader -> res (list (list string))) : res (list (list string)) :=
  parse_process_char limit r None ≫= fun r2 =>
  if bool_decide (state r2 = START_RECORD)
  then k parse_reset ≫= fun rows => Ok (fields r2 :: rows)
  else k r2.

Fixpoint scan (r : reader) (cr pend : bool) (s : string)
    : res (list (list string)) :=
  match s with
  | EmptyString =>
      if pend then finish_line r (fun r' => read_records limit r' [])
      else read_records limit r []
  | String c s' =>
      if Ascii.eqb c LF
      then parse_process_char limit r (Some c) ≫= fun r1 =>
           finish_line r1 (fun r' => scan r' false false s')
      else if cr
      then finish_line r (fun r' =>
             parse_process_char limit r' (Some c) ≫= fun r2 => scan r2 (Ascii.eqb c CR) true s')
      else parse_process_char limit r (Some c) ≫= fun r1 => scan r1 (Ascii.eqb c CR) true s'
  end.

(** The writer may leave a field unquoted only when it holds no special
    character; the field fits the limit. *)
Definition field_ok (q : bool) (f : string) : Prop :=
  (needs_quotes f = true -> q = true) /\ slen f <= limit.

(** A record of one field that is empty and unquoted would read as no
    record at all; the writer never writes one. *)
Definition row_ok (qfs : list (bool * string)) : Prop :=
  qfs <> [] /\ qfs <> [(false, EmptyString)]
  /\ Forall (fun qf => field_ok qf.1 qf.2) qfs.

(** A row the writer can take back: it has a field, and no field is longer
    than the limit. *)
Definition row_fits (row : list string) : Prop :=
  row <> [] /\ Forall (fun f => slen f <= limit) row.


End Limit.

End CsvScan.


(* ===================================================================== *)
(** * Store *)
(* ===================================================================== *)

(** [FIELDS], line 24. *)
Definition FIELDS : list string :=
  ["full_name"; "username"; "password"; "pc_name"; "ext"; "ddi"; "email"].

(** The files: the text each path holds. *)
Abbreviation files := (gmap path string).

(** What the platform does to one call of [save_records]: [write_fault] is
    the number of records the temporary file takes before a write to it
    fails with [OSError], if one does; [replace_fails] tells that
    [os.replace] raises. *)
Record platform := Platform {
  write_fault : option nat;
  replace_fails : bool
}.

Definition no_fault : platform := Platform None false.

(** A file opened with mode ["w"]: created or cut to nothing. *)
Definition open_w (fs : files) (p : path) : files := <[p := EmptyString]> fs.

(** A write to an open file: the text goes to its end. *)
Definition write (fs : files) (p : path) (text : string) : files :=
  <[p := default EmptyString (fs !! p) +:+ text]> fs.

(** [writer.writeheader()]: the field names as a row. *)
Definition header_text : string := Csv.writerow FIELDS.

(** [ensure_db], lines 58-63. *)
Definition ensure_db (fs : files) (p : path) : files :=
  match fs !! p with
  | Some _ => fs
  | None => write (open_w fs p) p header_text
  end.

(** [load_records], lines 79-82: the files after the call and its
    result. *)
Definition load_records (fs : files) (DB_FILE : path)
    : files * res (list pydict) :=
  let fs := ensure_db fs DB_FILE in
  (fs, Csv.dict_reader (default EmptyString (fs !! DB_FILE))).

(** [writer.writerows(records)] on the open file [p].  Each record is
    turned into its row and written before the next one is looked at;
    [fault] counts the writes left before one fails. *)
Fixpoint writerows (fs : files) (p : path) (records : list pydict)
    (fault : option nat) : files * res unit :=
  match records with
  | [] => (fs, Ok tt)
  | rowdict :: rest =>
      match Csv.dict_to_list FIELDS rowdict with
      | Raise e => (fs, Raise e)
      | Ok row =>
          match fault with
          | Some O => (fs, Raise OSError)
          | _ =>
              writerows (write fs p (Csv.writerow (map Csv.cell row))) p rest
                        (Nat.pred <$> fault)
          end
      end
  end.

(** [os.replace(src, dst)]: [dst] takes the text of [src], which is gone
    under its old name. *)
Definition os_replace (fs : files) (src dst : path) : files :=
  match fs !! src with
  | Some text => <[dst := text]> (delete src fs)
  | None => fs
  end.

(** [save_records], lines 84-99. *)
Definition save_records (env : platform) (fs : files) (DB_FILE : path)
    (records : list pydict) : files * res unit :=
  let fs := ensure_db fs DB_FILE in
  match with_suffix DB_FILE ".tmp" with
  | Raise e => (fs, Raise e)
  | Ok tmp =>
      let fs := write (open_w fs tmp) tmp header_text in
      match writerows fs tmp records (write_fault env) with
      | (fs, Raise e) => (fs, Raise e)
      | (fs, Ok _) =>
          if replace_fails env
          then
            let fs := write (open_w fs DB_FILE) DB_FILE header_text in
            writerows fs DB_FILE records None
          else (os_replace fs tmp DB_FILE, Ok tt)
      end
  end.

(** ** Records of seven text fields *)

(** The record of the data model. *)
Record record := Record7 {
  full_name : string;
  username : string;
  password : string;
  pc_name : string;
  ext : string;
  ddi : string;
  email : string
}.

Definition record_values (r : record) : list string :=
  [full_name r; username r; password r; pc_name r; ext r; ddi r; email r].

(** The dict the program holds for a record. *)
Definition to_dict (r : record) : pydict :=
  text_dict [
    ("full_name", full_name r);
    ("username", username r);
    ("password", password r);
    ("pc_name", pc_name r);
    ("ext", ext r);
    ("ddi", ddi r);
    ("email", email r) ].

(** No field of the record is longer than [limit]. *)
Definition within (limit : Z) (r : record) : Prop :=
  Forall (fun f => slen f <= limit) (record_values r).

(** A text of [n] times the character [c]. *)
Fixpoint replicate_char (n : nat) (c : ascii) (acc : string) : string :=
  match n with
  | O => acc
  | S n' => replicate_char n' c (String c acc)
  end.

(** A record whose full name is one character longer than the field size
    limit of the csv reader. *)
Definition long_name_record : record :=
  Record7 (replicate_char (Z.to_nat (Csv.field_size_limit + 1)) "a" EmptyString)
          "A" "Pw1!" "PC-01" "" "" "A@totalassist.co.uk".

(** A record whose fields hold the delimiter, the quote character and line
    breaks. *)
Definition tricky_record : record :=
  Record7 ("Lee, Ann " +:+ String dquote ("Annie" +:+ String dquote EmptyString))
          "Ann.Lee"
          ("Pw" +:+ String Csv.CR (String Csv.LF "1!"))
          ("PC-01" +:+ String Csv.LF EmptyString)
          (String Csv.CR "12")
          ","
          "Ann.Lee@totalassist.co.uk".



(** Two records, and a record file of the name [records.tmp] that holds the
    first. *)
Definition ann : record :=
  Record7 "Ann Lee" "Ann.Lee" "Pw1!" "PC-01" "201" "01234 567201"
          "Ann.Lee@totalassist.co.uk".

Definition bob : record :=
  Record7 "Bob Ray" "Bob.Ray" "Pw2!" "PC-02" "202" "01234 567202"
          "Bob.Ray@totalassist.co.uk".

Definition tmp_named_db : path := Path "records.tmp".

Definition disk_with_ann : files :=
  {[ tmp_named_db := header_text +:+ Csv.writerow (record_values ann) ]}.

(** Ann's record as the store returns it from a file to which a column
    [nickname] was added by hand: a dict with a key outside [FIELDS]. *)
Definition ann_with_nickname : pydict :=
  PyDict (<["nickname" := PyStr "Annie"]> (named (to_dict ann))) None.


Definition default_disk_with_ann : files :=
  {[ DEFAULT_DB := header_text +:+ Csv.writerow (record_values ann) ]}.

(** The text of the rows of a list of records, as the csv writer writes
    them. *)
Definition rows_text (recs : list record) : string :=
  Text.concat_all (map (fun r => Csv.writerow (record_values r)) recs).


(* ===================================================================== *)
(** * The Save and Update buttons *)
(* ===================================================================== *)

(** The text of the five entries of the form. *)
Record form := Form {
  ent_full : string;
  ent_pc : string;
  ent_pass : string;
  ent_ext : string;
  ent_ddi : string
}.

(** How a button ends: a warning or an error box and nothing written; the
    list of records handed to [save_records], which completed; an
    exception out of the handler. *)
Inductive outcome :=
  | Warned (title : string)
  | ErrorShown (title : string)
  | Saved (records : list pydict)
  | Failed (e : exn).

(** The record both handlers build from the form, lines 501-518 and
    532-549; [None] when a required entry is empty. *)
Definition entry_record (f : form) : option record :=
  let full := Text.strip (ent_full f) in
  let pc := Text.strip (ent_pc f) in
  let pw := Text.strip (ent_pass f) in
  let ext := Text.strip (ent_ext f) in
  let ddi := Text.strip (ent_ddi f) in
  if negb (Text.truthy full && Text.truthy pc && Text.truthy pw) then None
  else
    let username := make_username full in
    Some {| full_name := full;
            username := username;
            password := pw;
            pc_name := pc;
            ext := ext;
            ddi := ddi;
            email := username +:+ "@totalassist.co.uk" |}.

(** [save_new], lines 500-524. *)
Definition save_new (env : platform) (fs : files) (DB_FILE : path) (f : form)
    : files * outcome :=
  match entry_record f with
  | None => (fs, Warned "Missing fields")
  | Some rec =>
      match load_records fs DB_FILE with
      | (fs, Raise e) => (fs, Failed e)
      | (fs, Ok recs) =>
          let recs := to_dict rec :: recs in
          match save_records env fs DB_FILE recs with
          | (fs, Raise e) => (fs, Failed e)
          | (fs, Ok _) => (fs, Saved recs)
          end
      end
  end.

(** [update_record], lines 527-557; [current_index] is the global of that
    name, [None] or an integer. *)
Definition update_record (env : platform) (fs : files) (DB_FILE : path)
    (current_index : option Z) (f : form) : files * outcome :=
  match current_index with
  | None => (fs, Warned "No selection")
  | Some i =>
      match entry_record f with
      | None => (fs, Warned "Missing fields")
      | Some rec =>
          match load_records fs DB_FILE with
          | (fs, Raise e) => (fs, Failed e)
          | (fs, Ok recs) =>
              if (0 <=? i) && (i <? Z.of_nat (length recs)) then
                let recs := <[Z.to_nat i := to_dict rec]> recs in
                match save_records env fs DB_FILE recs with
                | (fs, Raise e) => (fs, Failed e)
                | (fs, Ok _) => (fs, Saved recs)
                end
              else (fs, ErrorShown "Update")
          end
      end
  end.

(** What the claim asks of a record that is persisted. *)
Definition well_derived (r : record) : Prop :=
  full_name r <> "" /\ pc_name r <> "" /\ password r <> ""
  /\ username r = make_username (full_name r)
  /\ email r = username r +:+ "@totalassist.co.uk".

(** The record is the form's: its fields are the entries, stripped. *)
Definition from_form (f : form) (r : record) : Prop :=
  full_name r = Text.strip (ent_full f)
  /\ pc_name r = Text.strip (ent_pc f)
  /\ password r = Text.strip (ent_pass f)
  /\ ext r = Text.strip (ent_ext f)
  /\ ddi r = Text.strip (ent_ddi f).

(* ===================================================================== *)
(** * The CF_HTML container *)
(* ===================================================================== *)

(** In this part a [str] is its sequence of code points and [bytes] is a
    [string], one character a byte. *)
Module Clip.

Abbreviation bytes := string.

Definition byte_of (z : Z) : string := String (Text.chr z) EmptyString.

(** The UTF-8 bytes of one code point.  A surrogate (U+D800..U+DFFF) cannot
    be encoded; the numbers that are no code points at all are refused the
    same way. *)
Definition utf8_char (cp : Z) : res bytes :=
  if (cp <? 0) || (1114112 <=? cp) then Raise UnicodeEncodeError
  else if cp <? 128 then Ok (byte_of cp)
  else if cp <? 2048 then
    Ok (byte_of (192 + cp / 64) +:+ byte_of (128 + cp mod 64))
  else if (55296 <=? cp) && (cp <? 57344) then Raise UnicodeEncodeError
  else if cp <? 65536 then
    Ok (byte_of (224 + cp / 4096) +:+ byte_of (128 + (cp / 64) mod 64)
        +:+ byte_of (128 + cp mod 64))
  else
    Ok (byte_of (240 + cp / 262144) +:+ byte_of (128 + (cp / 4096) mod 64)
        +:+ byte_of (128 + (cp / 64) mod 64) +:+ byte_of (128 + cp mod 64)).

(** [s.encode('utf-8')] *)
Fixpoint encode_utf8 (s : list Z) : res bytes :=
  match s with
  | [] => Ok EmptyString
  | cp :: s' =>
      b ← utf8_char cp;
      rest ← encode_utf8 s';
      Ok (b +:+ rest)
  end.

(** The code points of a text of the 8-bit alphabet. *)
Fixpoint codepoints (s : string) : list Z :=
  match s with
  | EmptyString => []
  | String c s' => Text.code c :: codepoints s'
  end.

(** [b.find(sub)] as an index, if [sub] occurs. *)
Fixpoint find_index (sub s : bytes) : option nat :=
  if String.prefix sub s then Some O
  else match s with
       | EmptyString => None
       | String _ s' => S <$> find_index sub s'
       end.

(** [b.find(sub)]: the lowest index where [sub] occurs, [-1] if none. *)
Definition find (s sub : bytes) : Z :=
  match find_index sub s with
  | Some i => Z.of_nat i
  | None => -1
  end.

(** [b[i:j]] for [0 <= i]. *)
Definition slice (s : bytes) (i j : Z) : bytes :=
  take (Z.to_nat (j - i)) (drop (Z.to_nat i) s).

(** The decimal digits of [n], put before [acc]; [fuel] bounds their
    number. *)
Fixpoint digits (fuel : nat) (n : Z) (acc : string) : string :=
  match fuel with
  | O => acc
  | S fuel' =>
      let acc' := String (Text.chr (48 + n mod 10)) acc in
      if n / 10 =? 0 then acc' else digits fuel' (n / 10) acc'
  end.

(** [b"%d" % n] for [0 <= n]. *)
Definition decimal (n : Z) : string :=
  digits (S (Z.to_nat (Z.log2 n))) n EmptyString.

(** [b"%08d" % n] for [0 <= n]: at least eight digits, zeros in front. *)
Definition fmt08 (n : Z) : string :=
  let d := decimal n in
  replicate_char (8 - String.length d) "0" d.

Definition CRLF : string := String "013" (String "010" EmptyString).

(** [header_template % (a, b, c, d)] *)
Definition header (a b c d : Z) : bytes :=
  "Version:0.9" +:+ CRLF
  +:+ "StartHTML:" +:+ fmt08 a +:+ CRLF
  +:+ "EndHTML:" +:+ fmt08 b +:+ CRLF
  +:+ "StartFragment:" +:+ fmt08 c +:+ CRLF
  +:+ "EndFragment:" +:+ fmt08 d +:+ CRLF.

Definition start_fragment_marker : bytes := "<!--StartFragment-->".
Definition end_fragment_marker : bytes := "<!--EndFragment-->".

Definition html_body (fragment_bytes : bytes) : bytes :=
  "<html><body>" +:+ start_fragment_marker +:+ fragment_bytes
  +:+ end_fragment_marker +:+ "</body></html>".

(** The argument of [_make_cf_html_bytes]: a [str] or [bytes]. *)
Inductive fragment :=
  | OfStr (s : list Z)
  | OfBytes (b : bytes).

Definition fragment_bytes (fragment_html : fragment) : res bytes :=
  match fragment_html with
  | OfStr s => encode_utf8 s
  | OfBytes b => Ok b
  end.

(** The four offsets. *)
Record offsets := Offsets {
  start_html : Z;
  end_html : Z;
  start_fragment : Z;
  end_fragment : Z
}.

(** Lines 132-136: the offsets the builder works out for a body. *)
Definition body_offsets (fragment_bytes : bytes) : offsets :=
  let body := html_body fragment_bytes in
  let header_len := slen (header 0 0 0 0) in
  let start_html := header_len in
  let start_fragment :=
    start_html + find body start_fragment_marker + slen start_fragment_marker in
  let end_fragment := start_html + find body end_fragment_marker in
  let end_html := start_html + slen body in
  Offsets start_html end_html start_fragment end_fragment.

(** [_make_cf_html_bytes], lines 123-138. *)
Definition _make_cf_html_bytes (fragment_html : fragment) : res bytes :=
  fb ← fragment_bytes fragment_html;
  let o := body_offsets fb in
  Ok (header (start_html o) (end_html o) (start_fragment o) (end_fragment o)
      +:+ html_body fb).

(** ** Reading a container *)

(** The number a run of decimal digits writes, after [acc]. *)
Fixpoint number (acc : Z) (s : string) : Z :=
  match s with
  | EmptyString => acc
  | String c s' => number (acc * 10 + (Text.code c - 48)) s'
  end.

(** The eight digits that stand at the byte [at] of a container. *)
Definition offset_at (container : bytes) (at_ : nat) : Z :=
  number 0 (take 8 (drop at_ container)).

(** The offsets a container states in its header: each stands after its
    key, at a fixed place. *)
Definition header_offsets (container : bytes) : offsets :=
  Offsets (offset_at container 23) (offset_at container 41)
          (offset_at container 65) (offset_at container 87).

(** What the header promises of a container: the bytes from [StartHTML] to
    [EndHTML] are the document, those from [StartFragment] to [EndFragment]
    the fragment. *)
Definition locates (container fb : bytes) : Prop :=
  let o := header_offsets container in
  slice container (start_html o) (end_html o) = html_body fb
  /\ slice container (start_fragment o) (end_fragment o) = fb.

(** A fragment of ten characters, three of them outside ASCII (U+00E9,
    U+20AC, U+1F600), and its sixteen UTF-8 bytes. *)
Definition accented_fragment : list Z :=
  [60; 98; 62; 233; 8364; 128512; 60; 47; 98; 62].

Definition accented_bytes : bytes :=
  "<b>" +:+ byte_of 195 +:+ byte_of 169
  +:+ byte_of 226 +:+ byte_of 130 +:+ byte_of 172
  +:+ byte_of 240 +:+ byte_of 159 +:+ byte_of 152 +:+ byte_of 128
  +:+ "</b>".

(** A fragment that holds the text of the end marker. *)
Definition marker_fragment : bytes := "x<!--EndFragment-->y".

(** A text that holds no [<]. *)
Definition no_lt (w : string) : Prop :=
  Text.all_chars (fun c => negb (Ascii.eqb c "<")) w = true.

(** The header with the four numbers as texts, and a body after it. *)
Definition laid_out (A B C D body : string) : string :=
  "Version:0.9" +:+ CRLF
  +:+ "StartHTML:" +:+ A +:+ CRLF
  +:+ "EndHTML:" +:+ B +:+ CRLF
  +:+ "StartFragment:" +:+ C +:+ CRLF
  +:+ "EndFragment:" +:+ D +:+ CRLF +:+ body.

End Clip.

(* ===================================================================== *)
(** * The clipboard transaction *)
(* ===================================================================== *)

Module Win.
Import Clip.

(** [s.encode('utf-16le')]: two bytes for a code point of the basic plane,
    four for one beyond it; a surrogate cannot be encoded. *)
Definition utf16_char (cp : Z) : res bytes :=
  if (cp <? 0) || (1114112 <=? cp) then Raise UnicodeEncodeError
  else if (55296 <=? cp) && (cp <? 57344) then Raise UnicodeEncodeError
  else if cp <? 65536 then Ok (byte_of (cp mod 256) +:+ byte_of (cp / 256))
  else
    let v := cp - 65536 in
    let hi := 55296 + v / 1024 in
    let lo := 56320 + v mod 1024 in
    Ok (byte_of (hi mod 256) +:+ byte_of (hi / 256)
        +:+ byte_of (lo mod 256) +:+ byte_of (lo / 256)).

Fixpoint encode_utf16le (s : list Z) : res bytes :=
  match s with
  | [] => Ok EmptyString
  | cp :: s' =>
      b ← utf16_char cp;
      rest ← encode_utf16le s';
      Ok (b +:+ rest)
  end.

(** ** [strip_tags], lines 117-121 *)

(** [\s] of [re] on a [str]. *)
Definition re_space (cp : Z) : bool :=
  ((9 <=? cp) && (cp <=? 13)) || ((28 <=? cp) && (cp <=? 32))
  || (cp =? 133) || (cp =? 160) || (cp =? 5760)
  || ((8192 <=? cp) && (cp <=? 8202)) || (cp =? 8232) || (cp =? 8233)
  || (cp =? 8239) || (cp =? 8287) || (cp =? 12288).

Fixpoint skip_spaces (s : list Z) : list Z :=
  match s with
  | cp :: s' => if re_space cp then skip_spaces s' else s
  | [] => []
  end.

(** A match of [<br\s*/?>], case ignored, at the head of [s]: what follows
    it. *)
Definition match_br (s : list Z) : option (list Z) :=
  match s with
  | 60 :: b :: r :: s1 =>
      if ((b =? 98) || (b =? 66)) && ((r =? 114) || (r =? 82)) then
        match skip_spaces s1 with
        | 47 :: 62 :: s2 => Some s2
        | 62 :: s2 => Some s2
        | _ => None
        end
      else None
  | _ => None
  end.

(** [re.sub(r'<br\s*/?>', '\n', html, flags=re.I)]; [fuel] is the length
    of the text. *)
Fixpoint sub_br (fuel : nat) (s : list Z) : list Z :=
  match fuel with
  | O => s
  | S fuel' =>
      match match_br s with
      | Some rest => 10 :: sub_br fuel' rest
      | None =>
          match s with
          | [] => []
          | cp :: s' => cp :: sub_br fuel' s'
          end
      end
  end.

(** The text after the first [>] of [s], with the number of characters
    before it. *)
Fixpoint after_gt (s : list Z) : option (nat * list Z) :=
  match s with
  | [] => None
  | cp :: s' =>
      if cp =? 62 then Some (O, s')
      else match after_gt s' with
           | Some (n, rest) => Some (S n, rest)
           | None => None
           end
  end.

(** [re.sub(r'<[^>]+>', '', text)] *)
Fixpoint sub_tags (fuel : nat) (s : list Z) : list Z :=
  match fuel with
  | O => s
  | S fuel' =>
      match s with
      | [] => []
      | cp :: s' =>
          if cp =? 60 then
            match after_gt s' with
            | Some (S _, rest) => sub_tags fuel' rest
            | _ => cp :: sub_tags fuel' s'
            end
          else cp :: sub_tags fuel' s'
      end
  end.

Definition strip_tags (html : list Z) : list Z :=
  let text := sub_br (length html) html in
  sub_tags (length text) text.

(** ** The platform *)

(** The calls the program makes to the clipboard of the platform, and the
    two it makes to the Tk root window.  What Tk does inside its own calls
    is no part of the program. *)
Inductive call :=
  | RegisterClipboardFormat
  | OpenClipboard
  | EmptyClipboard
  | GlobalAlloc (size : Z)
  | GlobalLock
  | Memmove (data : bytes)
  | GlobalUnlock
  | GlobalFree
  | SetClipboardData (html : bool)
  | CloseClipboard
  | TkClear
  | TkAppend (text : list Z).

(** The world a transaction runs in: whether this process holds the
    clipboard open; the calls made so far, the last one first; the answers
    the platform will give to the calls that can fail ([true]: the call
    succeeds), in order, every call past the end of the list succeeding. *)
Record world := World {
  clipboard_open : bool;
  calls : list call;
  answers : list bool
}.

(** A computation in the world: it returns or raises, and leaves a world. *)
Definition M (A : Type) : Type := world -> res A * world.

Global Instance M_ret : MRet M := fun A a w => (Ok a, w).

Global Instance M_bind : MBind M := fun A B k m w =>
  match m w with
  | (Ok a, w') => k a w'
  | (Raise e, w') => (Raise e, w')
  end.

Definition raise {A} (e : exn) : M A := fun w => (Raise e, w).

Definition lift {A} (r : res A) : M A := fun w => (r, w).

(** [try: m  finally: f] *)
Definition finally {A} (m : M A) (f : M unit) : M A := fun w =>
  match m w with
  | (r, w') =>
      match f w' with
      | (Ok _, w'') => (r, w'')
      | (Raise e, w'') => (Raise e, w'')
      end
  end.

(** [try: m  except Exception: h] *)
Definition catch {A} (m : M A) (h : M A) : M A := fun w =>
  match m w with
  | (Ok a, w') => (Ok a, w')
  | (Raise _, w') => h w'
  end.

(** The call [c] is made; the platform says whether it succeeds. *)
Definition api (c : call) : M bool := fun w =>
  match answers w with
  | [] => (Ok true, World (clipboard_open w) (c :: calls w) [])
  | ok :: rest => (Ok ok, World (clipboard_open w) (c :: calls w) rest)
  end.

(** The call [c] is made; nothing is asked of its result. *)
Definition api_ (c : call) : M unit := fun w =>
  (Ok tt, World (clipboard_open w) (c :: calls w) (answers w)).

Definition set_open (b : bool) : M unit := fun w =>
  (Ok tt, World b (calls w) (answers w)).

(** [user32.OpenClipboard(0)]: non-zero when the clipboard was opened. *)
Definition open_clipboard : M bool :=
  ok ← api OpenClipboard;
  if ok : bool then _ ← set_open true; mret true else mret false.

(** [user32.CloseClipboard()] *)
Definition close_clipboard : M unit :=
  _ ← api_ CloseClipboard; set_open false.

(** A call of [win32clipboard], which raises [pywintypes.error] when the
    platform call fails. *)
Definition pywin (c : call) : M unit :=
  ok ← api c;
  if ok : bool then mret tt else raise PywintypesError.

(** A call of the Tk root window, which raises [TclError] when it fails. *)
Definition tk (c : call) : M unit :=
  ok ← api c;
  if ok : bool then mret tt else raise TclError.

(** [ctypes.memmove], once for each piece of the data. *)
Fixpoint memmoves (pieces : list bytes) : M unit :=
  match pieces with
  | [] => mret tt
  | data :: rest => _ ← api_ (Memmove data); memmoves rest
  end.

(** One payload through a moveable block, lines 155-166 and 167-179.  The
    block is freed by the program when locking it or handing it over
    fails. *)
Definition put_payload (html : bool) (pieces : list bytes) (size : Z)
    : M unit :=
  h ← api (GlobalAlloc size);
  if negb h then raise RuntimeError else
  p ← api GlobalLock;
  if negb p then _ ← api_ GlobalFree; raise RuntimeError else
  _ ← memmoves pieces;
  _ ← api_ GlobalUnlock;
  ok ← api (SetClipboardData html);
  if negb ok then _ ← api_ GlobalFree; raise RuntimeError else mret tt.

(** [_set_clipboard_html_win32], lines 140-181. *)
Definition _set_clipboard_html_win32 (html_fragment : list Z)
    (plain_text : option (list Z)) : M unit :=
  let plain_text := default (strip_tags html_fragment) plain_text in
  data_cf_html ← lift (_make_cf_html_bytes (OfStr html_fragment));
  data_unicode ← lift (encode_utf16le plain_text);
  _ ← api_ RegisterClipboardFormat;
  opened ← open_clipboard;
  if negb opened then raise RuntimeError else
  finally
    (emptied ← api EmptyClipboard;
     if negb emptied then raise RuntimeError else
     _ ← put_payload true [data_cf_html] (slen data_cf_html + 1);
     put_payload false
                 [data_unicode; String "000" (String "000" EmptyString)]
                 (slen data_unicode + 2))
    close_clipboard.

(** The branch of [set_html_clipboard_fragment] that uses [win32clipboard],
    lines 187-196; [have_pywin32] tells whether the import succeeds. *)
Definition pywin32_branch (have_pywin32 : bool) (html_fragment : list Z)
    (plain_text : option (list Z)) : M unit :=
  if negb have_pywin32 then raise ImportError else
  _ ← pywin OpenClipboard;
  _ ← set_open true;
  _ ← pywin EmptyClipboard;
  _ ← pywin RegisterClipboardFormat;
  data ← lift (_make_cf_html_bytes (OfStr html_fragment));
  _ ← pywin (SetClipboardData true);
  let plain := default (strip_tags html_fragment) plain_text in
  _ ← pywin (SetClipboardData false);
  _ ← pywin CloseClipboard;
  set_open false.

(** The plain-text fallback through Tk, lines 204-208. *)
Definition tk_fallback (html_fragment : list Z)
    (plain_text : option (list Z)) : M unit :=
  catch
    (_ ← tk TkClear;
     tk (TkAppend (default (strip_tags html_fragment) plain_text)))
    (mret tt).

(** [set_html_clipboard_fragment], lines 183-208. *)
Definition set_html_clipboard_fragment (is_windows have_pywin32 : bool)
    (html_fragment : list Z) (plain_text : option (list Z)) : M unit :=
  done ←
    (if is_windows then
       catch (_ ← pywin32_branch have_pywin32 html_fragment plain_text; mret true)
             (catch (_ ← _set_clipboard_html_win32 html_fragment plain_text;
                     mret true)
                    (mret false))
     else mret false);
  if done : bool then mret tt else tk_fallback html_fragment plain_text.

(** A world in which the clipboard is free and every call succeeds. *)
Definition calm : world := World false [] [].

(** A world in which the clipboard is free and the sixth call that can
    fail, the allocation of the block for the text, fails. *)
Definition text_alloc_fails : world :=
  World false [] [true; true; true; true; true; false].

(** The fragment [<b>Hi</b>]. *)
Definition bold_fragment : list Z := [60; 98; 62; 72; 105; 60; 47; 98; 62].

(** A fragment that holds a lone surrogate, U+D83D. *)
Definition surrogate_fragment : list Z := [72; 105; 32; 55357].

End Win.
(* ===================================================================== *)
(** * The record list: Delete, Find, double click *)
(* ===================================================================== *)

(** [cols], line 600: the columns of the tree, the e-mail before the
    extension. *)
Definition cols : list string :=
  ["full_name"; "username"; "password"; "pc_name"; "email"; "ext"; "ddi"].

(** The values [populate_tree] gives a row, lines 629-631. *)
Definition tree_values (r : pydict) : list pyval :=
  [dict_get r "full_name" (PyStr ""); dict_get r "username" (PyStr "");
   dict_get r "password" (PyStr ""); dict_get r "pc_name" (PyStr "");
   dict_get r "email" (PyStr ""); dict_get r "ext" (PyStr "");
   dict_get r "ddi" (PyStr "")].

(** [populate_tree], lines 626-631: the rows of the tree after the call.
    The item id of a row is [str(i)] for its number [i] in [records]; a
    row is written here with that number. *)
Definition populate_tree (records : list pydict) : list (nat * list pyval) :=
  imap (fun i r => (i, tree_values r)) records.

(** [sub in s] for two [str]. *)
Fixpoint contains (sub s : string) : bool :=
  String.prefix sub s
  || match s with
     | EmptyString => false
     | String _ s' => contains sub s'
     end.

(** [(v or '').lower()], lines 697-699. *)
Definition lowered (v : pyval) : string :=
  Text.map_chars Text.lower (if value_truthy v then render v else EmptyString).

(** The test of line 700. *)
Definition hit (q : string) (r : pydict) : bool :=
  contains q (lowered (dict_get r "full_name" PyNone))
  || contains q (lowered (dict_get r "username" PyNone))
  || contains q (lowered (dict_get r "pc_name" PyNone)).

(** The records [do_search] shows, lines 691-702, for the text of the
    search entry. *)
Definition search (ent_search : string) (recs : list pydict) : list pydict :=
  let q := Text.map_chars Text.lower (Text.strip ent_search) in
  if Text.truthy q then List.filter (hit q) recs else recs.

(** [do_search], lines 690-703: the files and the tree after the call. *)
Definition do_search (fs : files) (DB_FILE : path) (ent_search : string)
    : files * res (list (nat * list pyval)) :=
  match load_records fs DB_FILE with
  | (fs, Raise e) => (fs, Raise e)
  | (fs, Ok recs) => (fs, Ok (populate_tree (search ent_search recs)))
  end.

(** How Delete ends. *)
Inductive delete_outcome :=
  | NoSelection
  | Declined
  | OutOfRange
  | Deleted (records : list pydict)
  | DeleteFailed (e : exn).

(** [delete_record], lines 675-688.  [sel] is the number of the selected
    row, [int(sel[0])], if a row is selected; [confirmed] is the answer to
    the question. *)
Definition delete_record (env : platform) (fs : files) (DB_FILE : path)
    (sel : option Z) (confirmed : bool) : files * delete_outcome :=
  match sel with
  | None => (fs, NoSelection)
  | Some idx =>
      if negb confirmed then (fs, Declined)
      else
        match load_records fs DB_FILE with
        | (fs, Raise e) => (fs, DeleteFailed e)
        | (fs, Ok recs) =>
            if (0 <=? idx) && (idx <? Z.of_nat (length recs)) then
              let recs := delete (Z.to_nat idx) recs in
              match save_records env fs DB_FILE recs with
              | (fs, Raise e) => (fs, DeleteFailed e)
              | (fs, Ok _) => (fs, Deleted recs)
              end
            else (fs, OutOfRange)
        end
  end.

(** What a copy hands to [set_html_clipboard_fragment]. *)
Record clip_request := ClipRequest {
  html_fragment : string;
  plain_text : string
}.

(** Lines 747-751 and 568-571: the request for a text. *)
Definition div_request (txt : string) : clip_request :=
  let lines := splitlines true txt in
  ClipRequest ("<div>" +:+ format_html_lines_for_fragment lines +:+ "</div>") txt.

(** [on_tree_double], lines 739-752, up to the call of
    [set_html_clipboard_fragment]: the request it makes, if it makes
    one. *)
Definition on_tree_double (fs : files) (DB_FILE : path) (sel : option Z)
    : files * res (option clip_request) :=
  match sel with
  | None => (fs, Ok None)
  | Some idx =>
      match load_records fs DB_FILE with
      | (fs, Raise e) => (fs, Raise e)
      | (fs, Ok recs) =>
          if (0 <=? idx) && (idx <? Z.of_nat (length recs)) then
            match recs !! Z.to_nat idx with
            | Some rec =>
                (fs, txt ← format_email_text rec; Ok (Some (div_request txt)))
            | None => (fs, Ok None)
            end
          else (fs, Ok None)
      end
  end.

(** [copy_preview_action], lines 566-574, up to the call: [got] is what
    [preview_text.get("1.0", tk.END)] returns. *)
Definition copy_preview_action (got : string) : clip_request :=
  div_request (Text.rstrip_nl got).

(** [preview_copy_handler], lines 462-478, up to the call: [sel] is the
    selected text, if there is a selection. *)
Definition preview_copy_handler (sel : option string) (got : string)
    : clip_request :=
  let sel := default (Text.rstrip_nl got) sel in
  ClipRequest (format_html_lines_for_fragment (splitlines true sel)) sel.

(* ===================================================================== *)
(** * The labels of the derived fields *)
(* ===================================================================== *)

(** [update_derived], lines 348-356: the texts of the two labels. *)
Definition update_derived (ent_full : string) : string * string :=
  let full := Text.strip ent_full in
  if Text.truthy full then
    let u := make_username full in
    ("Username: " +:+ u, "Email: " +:+ u +:+ "@totalassist.co.uk")
  else ("Username: ", "Email: ").

(** [val.split(":", 1)[1]] for a text that holds a colon: what stands
    after the first one. *)
Fixpoint after_colon (s : string) : option string :=
  match s with
  | EmptyString => None
  | String c s' => if Ascii.eqb c ":" then Some s' else after_colon s'
  end.

(** The text [copy_from_widget] copies for a label, lines 336-340. *)
Definition label_value (text : string) : string :=
  match after_colon text with
  | Some v => Text.strip v
  | None => text
  end.

(* ===================================================================== *)
(** * The settings store written *)
(* ===================================================================== *)

(** [str(p)] for a path. *)
Definition path_str (p : path) : string :=
  if Text.is_empty (name p) then
    (if Text.is_empty (parent p) then "." else parent p)
  else if Text.is_empty (parent p) then name p
  else if String.eqb (parent p) (root_of (parent p)) then parent p +:+ name p
  else parent p +:+ "/" +:+ name p.

(** [save_config], lines 48-54: the settings store after the call.
    [writable] tells whether the store can be opened for writing; when it
    cannot, the failure is ignored and the store is left as it was. *)
Definition save_config (writable : bool) (cfg : settings) (DB_FILE : path)
    : settings :=
  if writable then Holds (JObj [("db_path", JStr (path_str DB_FILE))])
  else cfg.

(** [locate_csv], lines 716-733, on a disk whose files can be opened: the
    files, the settings store and [DB_FILE] after the call.  [p] is what
    the file dialog returns, the empty text when it is cancelled. *)
Definition locate_csv (writable : bool) (fs : files)
    (cfg : settings) (DB_FILE : path) (p : string)
    : files * settings * path :=
  if negb (Text.truthy p) then (fs, cfg, DB_FILE)
  else
    let newpath := Path p in
    let fs :=
      match fs !! newpath with
      | Some text =>
          if slen text =? 0
          then write (open_w fs newpath) newpath header_text
          else fs
      | None => write (open_w fs newpath) newpath header_text
      end in
    let DB_FILE := newpath in
    let fs := ensure_db fs DB_FILE in
    (fs, save_config writable cfg DB_FILE, DB_FILE).

(* ===================================================================== *)
(** * Notions of the statements *)
(* ===================================================================== *)

(** Nothing here is code of the program. *)

(** The record file [db] exists and loads as the dicts [ds]. *)
Definition loads_as (fs : files) (db : path) (ds : list pydict) : Prop :=
  exists text, fs !! db = Some text /\ Csv.dict_reader text = Ok ds.

(** A text that holds none of the characters [str.splitlines] breaks a
    line at. *)
Definition no_linebreak (s : string) : Prop :=
  Text.all_chars (fun c => negb (is_linebreak c)) s = true.

(** A record of text no field of which holds a line break. *)
Definition one_line_fields (rec : pydict) : Prop :=
  Forall (fun k => no_linebreak (field rec k)) FORMAT_KEYS.

(** ** Sample data *)

(** Bob's record as Save builds it from the name typed [ bob ray]. *)
Definition bob_typed : record :=
  Record7 "bob ray" "Bob.Ray" "Pw2!" "PC-02" "202" "01234 567202"
          "Bob.Ray@totalassist.co.uk".

(** Ann's record after Update with the name [ann lee-ray]. *)
Definition ann_married : record :=
  Record7 "ann lee-ray" "Ann.Lee-ray" "Pw9!" "PC-09" "" ""
          "Ann.Lee-ray@totalassist.co.uk".

(** A disk whose default record file holds Bob's record and Ann's. *)
Definition disk_with_bob_ann : files :=
  {[ DEFAULT_DB := header_text +:+ rows_text [bob; ann] ]}.

(** ** Paths *)

(** A component that [pathlib] keeps: not empty and not [.]. *)
Definition part_ok (c : string) : bool :=
  negb (Text.is_empty c || String.eqb c ".").

(** A text without a slash. *)
Definition slash_free (s : string) : Prop :=
  Text.all_chars (fun c => negb (Ascii.eqb c "/")) s = true.

(** The three roots. *)
Inductive is_root : string -> Prop :=
  | root_none : is_root ""
  | root_one : is_root "/"
  | root_two : is_root "//".

(** A disk that holds a file of notes and no record file. *)
Definition disk_with_notes : files := {[ Path "notes.txt" := "call Ann" ]}.

(** A disk whose default record file has an eighth column, [nickname],
    and holds Ann's record. *)
Definition disk_with_nickname : files :=
  {[ DEFAULT_DB :=
       "full_name,username,password,pc_name,ext,ddi,email,nickname"
       +:+ Csv.lineterminator
       +:+ "Ann Lee,Ann.Lee,Pw1!,PC-01,201,01234 567201,"
       +:+ "Ann.Lee@totalassist.co.uk,Annie" +:+ Csv.lineterminator ]}.

(** ** Records as they are written *)

(** A dict the writer takes: its keys are field names. *)
Definition writable (d : pydict) : Prop :=
  extra d = None /\ map_Forall (fun k _ => k ∈ FIELDS) (named d).

(** The record the writer makes of a dict: a missing field and a field
    that holds [None] are written as the empty text. *)
Definition record_of (d : pydict) : record :=
  let at_ k := Csv.cell (dict_get d k (PyStr "")) in
  Record7 (at_ "full_name") (at_ "username") (at_ "password")
          (at_ "pc_name") (at_ "ext") (at_ "ddi") (at_ "email").

(* ===================================================================== *)
(** * Notions of the statements on fragments *)
(* ===================================================================== *)

(** Nothing here is code of the program. *)

(** A character that is none of the two angle brackets and the two
    quotes. *)
Definition quiet_char (c : ascii) : bool :=
  negb (Ascii.eqb c "<" || Ascii.eqb c ">" || Ascii.eqb c dquote
        || Ascii.eqb c "'").

(** A text that holds no angle bracket and no quote. *)
Definition quiet (s : string) : Prop := Text.all_chars quiet_char s = true.

(** The UTF-8 bytes of a character of the 8-bit alphabet, and of a text of
    it. *)
Definition utf8_byte (c : ascii) : string :=
  let n := Text.code c in
  if n <? 128 then String c EmptyString
  else Clip.byte_of (192 + n / 64) +:+ Clip.byte_of (128 + n mod 64).

Definition utf8_text (s : string) : string := expand utf8_byte s.

(** The text starts with [!]. *)
Definition first_bang (s : string) : bool :=
  match s with
  | String d _ => Ascii.eqb d "!"
  | EmptyString => false
  end.

(** The text holds no [<] with a [!] right after it. *)
Fixpoint no_lt_bang (s : string) : bool :=
  match s with
  | EmptyString => true
  | String c s' => negb (Ascii.eqb c "<" && first_bang s') && no_lt_bang s'
  end.

(** The text ends in [<]. *)
Fixpoint ends_lt (s : string) : bool :=
  match s with
  | EmptyString => false
  | String c s' =>
      match s' with
      | EmptyString => Ascii.eqb c "<"
      | _ => ends_lt s'
      end
  end.

(** A text that no text put after it can turn into one that holds [<!]. *)
Definition tame (s : string) : Prop :=
  no_lt_bang s = true /\ ends_lt s = false.

(** The code points of the piece of a line in a fragment, its line break
    marker turned into a line feed. *)
Definition br_line (line : string) : list Z :=
  (if is_heading line
   then Clip.codepoints "<b><u>" ++ Clip.codepoints (escape_text line)
        ++ Clip.codepoints "</u></b>"
   else Clip.codepoints (escape_text line)) ++ [10].

(* ===================================================================== *)
(** * The preview *)
(* ===================================================================== *)

(** The record [show_preview] builds from the form, lines 438-446. *)
Definition preview_record (f : form) : pydict :=
  let full := Text.strip (ent_full f) in
  text_dict [
    ("full_name", full);
    ("username", make_username full);
    ("password", Text.strip (ent_pass f));
    ("pc_name", Text.strip (ent_pc f));
    ("ext", Text.strip (ent_ext f));
    ("ddi", Text.strip (ent_ddi f));
    ("email", make_username full +:+ "@totalassist.co.uk") ].

(** [show_preview], lines 421-459: the text the preview holds after the
    call.  The text of the formatter is put in line by line, lines
    451-458, each line with its ending. *)
Definition show_preview (f : form) (sample_when_empty : bool) : res string :=
  let full := Text.strip (ent_full f) in
  txt ← (if negb (Text.truthy full) then
           (if sample_when_empty then format_email_text sample
            else Ok EmptyString)
         else format_email_text (preview_record f));
  Ok (Text.concat_all (splitlines true txt)).

(* ===================================================================== *)
(** * Facts about text *)
(* ===================================================================== *)

Module TextFacts.
Import Text.

Lemma sapp_nil_r (s : string) : s +:+ "" = s.
Proof. induction s; simpl; congruence. Qed.

Lemma sapp_assoc (a b c : string) : (a +:+ b) +:+ c = a +:+ (b +:+ c).
Proof. induction a; simpl; congruence. Qed.

Lemma sapp_cons (c : ascii) (x y : string) :
  String c x +:+ y = String c (x +:+ y).
Proof. reflexivity. Qed.

Lemma slength_app (a b : string) :
  String.length (a +:+ b) = (String.length a + String.length b)%nat.
Proof. induction a; simpl; congruence. Qed.

Lemma slen_cons (c : ascii) (s : string) : slen (String c s) = slen s + 1.
Proof. unfold slen. simpl. lia. Qed.

Lemma slen_nonneg (s : string) : 0 <= slen s.
Proof. unfold slen. lia. Qed.

Lemma slen_app (a b : string) : slen (a +:+ b) = slen a + slen b.
Proof. unfold slen. rewrite slength_app. lia. Qed.

Lemma is_empty_true (s : string) : is_empty s = true -> s = "".
Proof. destruct s; simpl; congruence. Qed.

Lemma is_empty_app (a b : string) :
  is_empty (a +:+ b) = is_empty a && is_empty b.
Proof. destruct a; reflexivity. Qed.

Lemma all_chars_app p (a b : string) :
  all_chars p (a +:+ b) = all_chars p a && all_chars p b.
Proof.
  induction a as [|c a IH]; simpl; [reflexivity|].
  rewrite IH. apply andb_assoc.
Qed.

(** ** [split] *)

Lemma split_from_run (t cur rest : string) :
  all_chars nonspace t = true ->
  split_from cur (t +:+ rest) = split_from (cur +:+ t) rest.
Proof.
  revert cur. induction t as [|c t IH]; intros cur Ht; simpl in *.
  - now rewrite sapp_nil_r.
  - apply andb_true_iff in Ht as [Hc Ht]. unfold nonspace in Hc.
    apply negb_true_iff in Hc. rewrite Hc, IH by assumption.
    now rewrite sapp_assoc.
Qed.

Lemma split_from_gap (g cur rest : string) :
  all_chars isspace g = true -> is_empty cur = true ->
  split_from cur (g +:+ rest) = split_from cur rest.
Proof.
  intros Hg Hcur. apply is_empty_true in Hcur. subst cur.
  induction g as [|c g IH]; simpl in *; [reflexivity|].
  apply andb_true_iff in Hg as [Hc Hg]. rewrite Hc. auto.
Qed.

Lemma split_from_spaces (s cur : string) :
  all_chars isspace s = true ->
  split_from cur s = if is_empty cur then [] else [cur].
Proof.
  intros Hs. replace s with (s +:+ "") by apply sapp_nil_r.
  destruct cur as [|a cur]; simpl.
  - now rewrite split_from_gap.
  - destruct s as [|c s]; simpl; [reflexivity|].
    simpl in Hs. apply andb_true_iff in Hs as [Hc Hs]. rewrite Hc.
    now rewrite split_from_gap.
Qed.

(** A token followed by white space is the next element of the result. *)
Lemma split_token_gap (t g rest : string) (c : ascii) :
  is_token t = true -> isspace c = true -> all_chars isspace g = true ->
  split (t +:+ String c g +:+ rest) = t :: split rest.
Proof.
  intros Ht Hc Hg. unfold is_token in Ht. apply andb_true_iff in Ht as [Hne Ht].
  unfold split. rewrite split_from_run by assumption. simpl.
  rewrite Hc. destruct t; [discriminate|]. simpl.
  now rewrite split_from_gap.
Qed.

(** A token at the end of the text is the last element of the result. *)
Lemma split_token_end (t g : string) :
  is_token t = true -> all_chars isspace g = true ->
  split (t +:+ g) = [t].
Proof.
  intros Ht Hg. unfold is_token in Ht. apply andb_true_iff in Ht as [Hne Ht].
  unfold split. rewrite split_from_run by assumption. simpl.
  rewrite split_from_spaces by assumption.
  destruct t; [discriminate | reflexivity].
Qed.

Lemma split_from_tokens (s cur : string) :
  all_chars nonspace cur = true ->
  Forall (fun t => is_token t = true) (split_from cur s).
Proof.
  revert cur. induction s as [|c s IH]; intros cur Hcur; simpl.
  - destruct cur; simpl; constructor; [|constructor].
    unfold is_token. now rewrite Hcur.
  - destruct (isspace c) eqn:Hc.
    + destruct cur; simpl.
      * now apply IH.
      * constructor; [unfold is_token; now rewrite Hcur | now apply IH].
    + apply IH. rewrite all_chars_app, Hcur. simpl.
      unfold nonspace. now rewrite Hc.
Qed.

Lemma split_from_chars (s cur : string) :
  concat_all (split_from cur s) = cur +:+ filter_chars nonspace s.
Proof.
  revert cur. induction s as [|c s IH]; intros cur; simpl.
  - destruct cur; simpl; [reflexivity|]. now rewrite !sapp_nil_r.
  - unfold nonspace at 1. destruct (isspace c) eqn:Hc; simpl.
    + destruct cur; simpl; rewrite IH; reflexivity.
    + rewrite IH. now rewrite sapp_assoc.
Qed.

Lemma rstrip_empty (s : string) :
  is_empty (rstrip s) = true -> all_chars isspace s = true.
Proof.
  induction s as [|c s IH]; simpl; [reflexivity|].
  destruct (is_empty (rstrip s)) eqn:He; simpl.
  - destruct (isspace c); simpl; [auto | discriminate].
  - discriminate.
Qed.

Lemma split_from_rstrip (s cur : string) :
  split_from cur (rstrip s) = split_from cur s.
Proof.
  revert cur. induction s as [|c s IH]; intros cur; simpl; [reflexivity|].
  destruct (is_empty (rstrip s)) eqn:He; simpl.
  - pose proof (rstrip_empty _ He) as Hs.
    destruct (isspace c) eqn:Hc; simpl.
    + rewrite (split_from_spaces s) by assumption. simpl.
      destruct cur; reflexivity.
    + rewrite Hc. apply IH.
  - destruct (isspace c); destruct cur; simpl; now rewrite ?IH.
Qed.

Lemma split_from_lstrip (s : string) :
  split_from "" (lstrip s) = split_from "" s.
Proof.
  induction s as [|c s IH]; simpl; [reflexivity|].
  destruct (isspace c) eqn:Hc; simpl; [assumption|]. now rewrite Hc.
Qed.

(** [split] already ignores the white space [strip] removes. *)
Lemma split_strip (s : string) : split (strip s) = split s.
Proof.
  unfold split, strip. now rewrite split_from_rstrip, split_from_lstrip.
Qed.

Lemma split_tokens (s : string) :
  Forall (fun t => is_token t = true) (split s).
Proof. apply split_from_tokens. reflexivity. Qed.

Lemma filter_truthy_tokens (l : list string) :
  Forall (fun t => is_token t = true) l -> filter truthy l = l.
Proof.
  induction 1 as [|t l Ht _ IH]; [reflexivity|].
  unfold is_token in Ht. apply andb_true_iff in Ht as [Ht _].
  rewrite filter_cons, IH. unfold truthy in *.
  destruct (decide (negb (is_empty t))) as [|n]; [reflexivity|].
  exfalso. apply n. now rewrite Ht.
Qed.

End TextFacts.

(* ===================================================================== *)
(** * The derived user name: properties *)
(* ===================================================================== *)


(* ===================================================================== *)
(** * Formatter: properties *)
(* ===================================================================== *)

Module FormatterFacts.
Import Text TextFacts.

(** The template, with the field values left open: the pieces the f-string
    joins are the lines of the document, each ended by a line feed. *)
Lemma template_lines (full pc u pw ext ddi : string) :
  concat_all [
    "Hi,"; nl; nl;
    "Please see below for "; full; "'s login details."; nl; nl;
    "PC login:"; nl;
    "PC Name: "; pc; nl;
    "Username: "; u; nl;
    "Password: "; pw; nl; nl;
    "Itris:"; nl;
    "Username: "; u; nl;
    "Password: "; pw; nl; nl;
    "Telephone and DDI:"; nl;
    "Ext: "; ext; nl;
    "DDI: "; ddi; nl; nl;
    "Thanks,"; nl ]
  = unlines [
    "Hi,"; "";
    "Please see below for " +:+ full +:+ "'s login details."; "";
    "PC login:";
    "PC Name: " +:+ pc;
    "Username: " +:+ u;
    "Password: " +:+ pw; "";
    "Itris:";
    "Username: " +:+ u;
    "Password: " +:+ pw; "";
    "Telephone and DDI:";
    "Ext: " +:+ ext;
    "DDI: " +:+ ddi; "";
    "Thanks," ].
Proof.
  unfold unlines. simpl. rewrite ?sapp_assoc. simpl. rewrite ?sapp_assoc.
  reflexivity.
Qed.

Lemma holds_text_get (rec : pydict) (k : string) :
  holds_text rec k = true ->
  dict_get rec k (PyStr "") = PyStr (field rec k).
Proof.
  unfold holds_text, field, dict_get.
  destruct (named rec !! k) as [[|s]|]; simpl; congruence.
Qed.

(** The user name the code works out is the one [shown_username] names. *)
Lemma username_choice (rec : pydict) :
  holds_text rec "username" = true -> holds_text rec "full_name" = true ->
  (let stored := dict_get rec "username" PyNone in
   if value_truthy stored then Ok stored
   else match dict_get rec "full_name" (PyStr "") with
        | PyStr full => Ok (PyStr (make_username full))
        | PyNone => Raise AttributeError
        end) = Ok (PyStr (shown_username rec)).
Proof.
  intros Hu Hf. cbv zeta. rewrite (holds_text_get rec "full_name" Hf).
  unfold shown_username.
  assert (E : (dict_get rec "username" PyNone = PyNone /\ field rec "username" = "")
              \/ dict_get rec "username" PyNone = PyStr (field rec "username")).
  { unfold holds_text in Hu. unfold field, dict_get.
    destruct (named rec !! "username") as [[|s]|]; simpl; auto; discriminate. }
  destruct E as [[-> ->]| ->]; simpl; [reflexivity|].
  destruct (truthy (field rec "username")); reflexivity.
Qed.


End FormatterFacts.




(* ===================================================================== *)
(** * Markup encoder: properties *)
(* ===================================================================== *)

Module EncoderFacts.
Import Text TextFacts.

Lemma expand_app f (a b : string) :
  expand f (a +:+ b) = expand f a +:+ expand f b.
Proof.
  induction a as [|c a IH]; simpl; [reflexivity|].
  now rewrite IH, sapp_assoc.
Qed.

Lemma expand_expand f g (s : string) :
  expand g (expand f s) = expand (fun c => expand g (f c)) s.
Proof.
  induction s as [|c s IH]; simpl; [reflexivity|].
  now rewrite expand_app, IH.
Qed.

Lemma expand_ext f g (s : string) :
  (forall c, f c = g c) -> expand f s = expand g s.
Proof. intros E. induction s as [|c s IH]; simpl; [reflexivity|]. now rewrite E, IH. Qed.

Lemma replace_char_expand old new (s : string) :
  replace_char old new s
  = expand (fun c => if Ascii.eqb c old then new else String c EmptyString) s.
Proof. induction s as [|c s IH]; simpl; [reflexivity|]. now rewrite IH. Qed.

Lemma escape_text_expand (s : string) : escape_text s = expand escape_char s.
Proof. induction s as [|c s IH]; simpl; [reflexivity|]. now rewrite IH. Qed.

(** The five replacements in a row escape each character once: no
    replacement text holds a character a later pass would touch. *)
Lemma html_escape_pointwise (s : string) : html_escape s = escape_text s.
Proof.
  unfold html_escape. rewrite !replace_char_expand, !expand_expand.
  rewrite escape_text_expand. apply expand_ext.
  intros c. destruct c as [[] [] [] [] [] [] [] []]; reflexivity.
Qed.

Lemma join_empty_sep (l : list string) : join "" l = concat_all l.
Proof.
  unfold join. induction l as [|a l IH]; [reflexivity|].
  simpl. rewrite <- IH. destruct l; simpl.
  - now rewrite sapp_nil_r.
  - reflexivity.
Qed.

Lemma fragment_step_piece (out : list string) (raw : string) :
  fragment_step out raw = out ++ [encode_line (rstrip_nl raw)].
Proof.
  unfold fragment_step, encode_line, is_heading, truthy, escape_html.
  rewrite html_escape_pointwise, negb_involutive.
  destruct (is_empty (rstrip_nl raw)); [reflexivity|].
  destruct (startswith _ _ || startswith _ _ || startswith _ _); reflexivity.
Qed.

Lemma fold_fragment_step (lines out : list string) :
  fold_left fragment_step lines out
  = out ++ map (fun raw => encode_line (rstrip_nl raw)) lines.
Proof.
  revert out. induction lines as [|l lines IH]; intros out; simpl.
  - now rewrite List.app_nil_r.
  - rewrite IH, fragment_step_piece. now rewrite <- List.app_assoc.
Qed.

(** A line that does not end in a line feed is left as it is. *)
Lemma rstrip_nl_id (s : string) :
  (forall t, s <> t +:+ nl) -> rstrip_nl s = s.
Proof.
  induction s as [|c s IH]; intros H; simpl; [reflexivity|].
  destruct s as [|d s].
  - simpl. destruct (Ascii.eqb_spec c "010"); [|reflexivity].
    subst c. exfalso. now apply (H "").
  - rewrite IH.
    + reflexivity.
    + intros t Ht. apply (H (String c t)). simpl. now rewrite Ht.
Qed.

End EncoderFacts.

(** C4.  For every sequence of lines the encoder returns the pieces of the
    lines joined in input order, a line being read without its trailing
    line feeds: an empty line gives the line-break marker alone; a
    non-empty one gives its escaped text and the marker, the escaped text
    wrapped in bold and underline when the raw line starts with one of the
    three headings.  Escaping replaces the ampersand, the two angle
    brackets and the two quotes by their entities and leaves every other
    character.  The heading test is a case-sensitive literal prefix test:
    the line "PC login:" is wrapped, the line "pc login:" is not. *)
Theorem format_html_lines_for_fragment_encode (lines : list string) :
  format_html_lines_for_fragment lines = encode (map Text.rstrip_nl lines)
  /\ (forall s, escape_html s = escape_text s)
  /\ (forall line,
        encode_line line =
          if Text.is_empty line then "<br/>"
          else if Text.startswith line "PC login:" || Text.startswith line "Itris:"
                  || Text.startswith line "Telephone and DDI:"
          then "<b><u>" +:+ escape_text line +:+ "</u></b><br/>"
          else escape_text line +:+ "<br/>")
  /\ escape_text ("&<>" +:+ String dquote "'x")
     = "&amp;&lt;&gt;&quot;&#x27;x"
  /\ format_html_lines_for_fragment ["PC login:"] = "<b><u>PC login:</u></b><br/>"
  /\ format_html_lines_for_fragment ["pc login:"] = "pc login:<br/>"
  /\ format_html_lines_for_fragment [""; "Itris: a<b"; "x"]
     = "<br/><b><u>Itris: a&lt;b</u></b><br/>x<br/>".
Proof.
  repeat split; try reflexivity.
  - unfold format_html_lines_for_fragment, encode. cbv zeta.
    rewrite EncoderFacts.join_empty_sep, EncoderFacts.fold_fragment_step.
    simpl. now rewrite map_map.
  - intros s. apply EncoderFacts.html_escape_pointwise.
Qed.

(* ===================================================================== *)
(** * Configuration: properties *)
(* ===================================================================== *)



(* ===================================================================== *)
(** * The csv module: what the reader makes of what the writer wrote *)
(* ===================================================================== *)

Module CsvFacts.
Import Text TextFacts Csv CsvScan.

Lemma rev_app_app (f a b : string) :
  String.rev_app (String.rev_app f a) b = String.rev_app a (f +:+ b).
Proof.
  revert a b. induction f as [|c f IH]; intros a b; simpl; [reflexivity|].
  now rewrite IH.
Qed.

Lemma rev_rev_app (f : string) : String.rev (String.rev_app f "") = f.
Proof. unfold String.rev. rewrite rev_app_app. simpl. apply sapp_nil_r. Qed.

Lemma rev_app_acc (s acc : string) :
  String.rev_app s acc = String.rev s +:+ acc.
Proof.
  unfold String.rev. revert acc. induction s as [|c s IH]; intros acc; simpl.
  - reflexivity.
  - rewrite IH, (IH (String c "")), sapp_assoc. reflexivity.
Qed.

Lemma rev_cons (c : ascii) (s : string) :
  String.rev (String c s) = String.rev s +:+ String c "".
Proof. unfold String.rev at 1. simpl. apply rev_app_acc. Qed.

Lemma bind_assoc {A B C} (m : res A) (f : A -> res B) (g : B -> res C) :
  (m ≫= f) ≫= g = m ≫= (fun a => f a ≫= g).
Proof. destruct m; reflexivity. Qed.

Section Limit.

Variable limit : Z.

Local Abbreviation pc := (parse_process_char limit).

Lemma process_line_app (r : reader) (a b : string) :
  process_line limit r (a +:+ b)
  = process_line limit r a ≫= fun r' => process_line limit r' b.
Proof.
  revert r. induction a as [|c a IH]; intros r; simpl; [reflexivity|].
  destruct (pc r (Some c)) as [r'|e]; simpl; [apply IH | reflexivity].
Qed.

Lemma process_line_one (r : reader) (c : ascii) :
  process_line limit r (String c "") = pc r (Some c).
Proof. simpl. destruct (pc r (Some c)); reflexivity. Qed.

Lemma read_records_cons (r : reader) (line : string) (rest : list string) :
  read_records limit r (line :: rest)
  = process_line limit r line ≫= fun r1 =>
    finish_line limit r1 (fun r' => read_records limit r' rest).
Proof. reflexivity. Qed.

Lemma finish_line_ext (r : reader) k1 k2 :
  (forall r', k1 r' = k2 r') -> finish_line limit r k1 = finish_line limit r k2.
Proof.
  intros E. unfold finish_line. destruct (pc r None) as [r2|e]; simpl; [|reflexivity].
  destruct (bool_decide _); now rewrite E.
Qed.

Lemma read_records_scan (s cur : string) (cr : bool) (r0 : reader) :
  read_records limit r0 (lines_from cur cr s)
  = process_line limit r0 (String.rev cur) ≫= fun r =>
    scan limit r cr (negb (is_empty cur)) s.
Proof.
  revert cur cr r0. induction s as [|c s IH]; intros cur cr r0.
  - destruct cur as [|a cur].
    + reflexivity.
    + cbn [lines_from is_empty negb scan]. rewrite read_records_cons. reflexivity.
  - cbn [lines_from scan]. destruct (Ascii.eqb c LF) eqn:Hlf.
    + rewrite read_records_cons, rev_cons, process_line_app, bind_assoc.
      destruct (process_line limit r0 (String.rev cur)) as [r|e];
        [|reflexivity]; cbn [mbind res_bind].
      rewrite process_line_one.
      destruct (pc r (Some c)) as [r1|e]; [|reflexivity]; cbn [mbind res_bind].
      apply finish_line_ext. intros r'. now rewrite IH.
    + destruct cr.
      * rewrite read_records_cons.
        destruct (process_line limit r0 (String.rev cur)) as [r|e];
          [|reflexivity]; cbn [mbind res_bind].
        apply finish_line_ext. intros r'. rewrite IH.
        change (String.rev (String c "")) with (String c "").
        now rewrite process_line_one.
      * rewrite IH, rev_cons, process_line_app, bind_assoc.
        destruct (process_line limit r0 (String.rev cur)) as [r|e];
          [|reflexivity]; cbn [mbind res_bind].
        now rewrite process_line_one.
Qed.

(** The records of a text, read character by character. *)
Lemma read_file_scan (text : string) :
  read_records limit parse_reset (file_lines text)
  = scan limit parse_reset false false text.
Proof. unfold file_lines. now rewrite read_records_scan. Qed.

(** ** Characters *)

Lemma plain_char (c : ascii) :
  negb (special c) = true ->
  Ascii.eqb c delimiter = false /\ Ascii.eqb c quotechar = false
  /\ Ascii.eqb c LF = false /\ Ascii.eqb c CR = false
  /\ is_newline c = false.
Proof.
  unfold special, is_newline. intros H. apply negb_true_iff in H.
  apply orb_false_iff in H as [H Hn]. apply orb_false_iff in H as [Hd Hq].
  pose proof Hn as Hn'. apply orb_false_iff in Hn' as [Hlf Hcr].
  auto.
Qed.

Lemma room (len n : Z) : 0 <= n -> len + (n + 1) <= limit -> (len >=? limit) = false.
Proof. intros. rewrite Z.geb_leb. apply Z.leb_gt. lia. Qed.

Ltac pc_unfold :=
  unfold parse_process_char, start_field, parse_add_char, with_state,
    parse_save_field;
  cbn [state fields field_buf field_len].

Ltac binds :=
  cbn [mbind res_bind fmap res_fmap with_state state fields field_buf field_len].

Lemma finish_line_quoted flds buf len k :
  finish_line limit (Reader IN_QUOTED_FIELD flds buf len) k
  = k (Reader IN_QUOTED_FIELD flds buf len).
Proof. reflexivity. Qed.

Lemma finish_line_eat flds buf len k :
  finish_line limit (Reader EAT_CRNL flds buf len) k
  = k parse_reset ≫= fun rows => Ok (flds :: rows).
Proof. reflexivity. Qed.

(** ** An unquoted field *)

Lemma scan_plain_run (f rest : string) flds (buf : string) (len : Z) :
  all_chars (fun c => negb (special c)) f = true ->
  len + slen f <= limit ->
  scan limit (Reader IN_FIELD flds buf len) false true (f +:+ rest)
  = scan limit (Reader IN_FIELD flds (String.rev_app f buf) (len + slen f))
         false true rest.
Proof.
  revert buf len. induction f as [|c f IH]; intros buf len Hf Hlen.
  - simpl. now rewrite Z.add_0_r.
  - simpl in Hf. apply andb_true_iff in Hf as [Hc Hf].
    destruct (plain_char c Hc) as (Hd & Hq & Hlf & Hcr & Hnl).
    rewrite slen_cons in Hlen.
    cbn [scan String.append]. rewrite Hlf, Hcr. pc_unfold.
    rewrite Hnl, Hd, (room len (slen f)) by (auto using slen_nonneg).
    binds. rewrite IH by (assumption || lia).
    cbn [String.rev_app]. rewrite slen_cons. do 2 f_equal. lia.
Qed.

(** ** A quoted field *)

Lemma scan_quoted_run (f rest : string) flds (buf : string) (len : Z)
    (cr pend : bool) :
  len + slen f <= limit ->
  scan limit (Reader IN_QUOTED_FIELD flds buf len) cr pend
       (double_quotes f +:+ String quotechar rest)
  = scan limit (Reader QUOTE_IN_QUOTED_FIELD flds (String.rev_app f buf) (len + slen f))
         false true rest.
Proof.
  revert buf len cr pend. induction f as [|c f IH]; intros buf len cr pend Hlen.
  - cbn [double_quotes String.append scan]. rewrite Z.add_0_r.
    change (Ascii.eqb quotechar LF) with false.
    change (Ascii.eqb quotechar CR) with false. cbv iota.
    destruct cr; [rewrite finish_line_quoted|]; pc_unfold;
      change (Ascii.eqb quotechar quotechar) with true; reflexivity.
  - rewrite slen_cons in Hlen. pose proof (slen_nonneg f) as Hnn.
    assert (Hroom := room len (slen f) Hnn Hlen).
    cbn [double_quotes]. destruct (Ascii.eqb c quotechar) eqn:Hq.
    + apply Ascii.eqb_eq in Hq. subst c.
      cbn [String.append scan].
      change (Ascii.eqb quotechar LF) with false.
      change (Ascii.eqb quotechar CR) with false. cbv iota.
      assert (E : forall k : reader -> res (list (list string)),
                 (if cr then finish_line limit (Reader IN_QUOTED_FIELD flds buf len)
                                (fun r' => pc r' (Some quotechar) ≫= k)
                  else pc (Reader IN_QUOTED_FIELD flds buf len) (Some quotechar) ≫= k)
                 = k (Reader QUOTE_IN_QUOTED_FIELD flds buf len)).
      { intros k. destruct cr; [rewrite finish_line_quoted|]; pc_unfold;
          change (Ascii.eqb quotechar quotechar) with true; reflexivity. }
      rewrite E. pc_unfold.
      change (Ascii.eqb quotechar quotechar) with true. rewrite Hroom. binds.
      rewrite IH by lia. cbn [String.rev_app]. rewrite slen_cons.
      do 2 f_equal. lia.
    + cbn [String.append scan].
      destruct (Ascii.eqb c LF) eqn:Hlf.
      * pc_unfold. rewrite Hq, Hroom. binds. rewrite finish_line_quoted.
        rewrite IH by lia. cbn [String.rev_app]. rewrite slen_cons.
        do 2 f_equal. lia.
      * destruct cr; [rewrite finish_line_quoted|]; pc_unfold;
          rewrite Hq, Hroom; binds; rewrite IH by lia;
          cbn [String.rev_app]; rewrite slen_cons; do 2 f_equal; lia.
Qed.

(** ** A field and what follows it *)

Lemma quote_field_app (f rest : string) :
  quote_field true f +:+ rest
  = String quotechar (double_quotes f +:+ String quotechar rest).
Proof. unfold quote_field. simpl. now rewrite sapp_assoc. Qed.

Lemma scan_field_body st flds q f pend rest :
  field_start st -> field_ok limit q f ->
  scan limit (before_field st flds) false pend (quote_field q f +:+ rest)
  = scan limit (after_field st flds q f) false (pend || q || negb (is_empty f)) rest.
Proof.
  intros Hst [Hq Hlen]. unfold before_field, after_field. destruct q.
  - rewrite quote_field_app, orb_true_r. cbn [scan orb].
    change (Ascii.eqb quotechar LF) with false.
    change (Ascii.eqb quotechar CR) with false. cbv iota.
    destruct Hst as [-> | ->]; pc_unfold;
      change (is_newline quotechar) with false;
      change (Ascii.eqb quotechar quotechar) with true; binds;
      rewrite scan_quoted_run by lia; reflexivity.
  - unfold quote_field. destruct f as [|c f].
    + cbn [is_empty negb String.append]. now rewrite !orb_false_r.
    + cbn [is_empty negb]. rewrite orb_true_r.
      assert (Hplain : all_chars (fun c => negb (special c)) (String c f) = true).
      { unfold needs_quotes in Hq.
        destruct (all_chars _ (String c f)); [reflexivity|].
        now specialize (Hq eq_refl). }
      cbn [all_chars] in Hplain. apply andb_true_iff in Hplain as [Hc Hf].
      destruct (plain_char c Hc) as (Hd & Hqc & Hlf & Hcr & Hnl).
      rewrite slen_cons in Hlen. pose proof (slen_nonneg f).
      cbn [scan String.append]. rewrite Hlf, Hcr.
      destruct Hst as [-> | ->]; pc_unfold;
        rewrite Hnl, Hqc, Hd, (room 0 (slen f)) by (assumption || lia); binds;
        rewrite scan_plain_run by (assumption || lia);
        cbn [String.rev_app]; rewrite slen_cons; do 2 f_equal; lia.
Qed.

Lemma scan_after_delimiter st flds q f pend rest :
  field_start st ->
  scan limit (after_field st flds q f) false pend (String delimiter rest)
  = scan limit (before_field START_FIELD (flds ++ [f])) false true rest.
Proof.
  intros Hst. unfold after_field, before_field. cbn [scan].
  change (Ascii.eqb delimiter LF) with false.
  change (Ascii.eqb delimiter CR) with false. cbv iota.
  destruct q; [|destruct f as [|c f]; cbn [is_empty]].
  - pc_unfold. now rewrite rev_rev_app.
  - destruct Hst as [-> | ->]; reflexivity.
  - pc_unfold. now rewrite rev_rev_app.
Qed.

Lemma scan_after_crlf st flds q f pend rest :
  field_start st ->
  st = START_FIELD \/ q = true \/ f <> "" ->
  scan limit (after_field st flds q f) false pend
       (String CR (String LF rest))
  = scan limit parse_reset false false rest ≫= fun rows => Ok ((flds ++ [f]) :: rows).
Proof.
  intros Hst Hnb. unfold after_field. cbn [scan].
  change (Ascii.eqb CR LF) with false. change (Ascii.eqb CR CR) with true.
  change (Ascii.eqb LF LF) with true. cbv iota.
  destruct q; [|destruct f as [|c f]; cbn [is_empty]].
  - pc_unfold. change (Ascii.eqb CR quotechar) with false.
    change (Ascii.eqb CR delimiter) with false.
    change (is_newline CR) with true. change (is_newline LF) with true.
    binds. rewrite finish_line_eat. now rewrite rev_rev_app.
  - destruct Hnb as [-> | [? | ?]]; [|discriminate|congruence].
    pc_unfold. change (is_newline CR) with true. change (is_newline LF) with true.
    binds. now rewrite finish_line_eat.
  - pc_unfold. change (is_newline CR) with true. change (is_newline LF) with true.
    binds. rewrite finish_line_eat. now rewrite rev_rev_app.
Qed.

(** ** A record *)

Lemma scan_fields (qfs : list (bool * string)) st flds pend rest :
  qfs <> [] ->
  field_start st ->
  Forall (fun qf => field_ok limit qf.1 qf.2) qfs ->
  st = START_FIELD \/ qfs <> [(false, EmptyString)] ->
  scan limit (before_field st flds) false pend
       (enc_row qfs +:+ String CR (String LF rest))
  = scan limit parse_reset false false rest ≫= fun rows =>
    Ok ((flds ++ map snd qfs) :: rows).
Proof.
  revert st flds pend. induction qfs as [|[q f] more IH];
    intros st flds pend Hne Hst Hok Hfirst; [congruence|].
  apply Forall_cons in Hok as [Hqf Hok]. cbn [fst snd] in Hqf.
  destruct more as [|qf2 more].
  - cbn [enc_row map snd]. rewrite (scan_field_body st flds q f) by assumption.
    apply scan_after_crlf; [assumption|].
    destruct Hfirst as [?|Hnot]; [auto|].
    destruct q; [auto|]. destruct f; [congruence|]. right; right. discriminate.
  - change (enc_row ((q, f) :: qf2 :: more))
      with (quote_field q f +:+ String delimiter (enc_row (qf2 :: more))).
    rewrite sapp_assoc, sapp_cons.
    rewrite (scan_field_body st flds q f) by assumption.
    rewrite scan_after_delimiter by assumption.
    rewrite IH; try assumption.
    + cbn [map snd]. now rewrite <- List.app_assoc.
    + discriminate.
    + now right.
    + now left.
Qed.

Lemma scan_row (qfs : list (bool * string)) (rest : string) :
  row_ok limit qfs ->
  scan limit parse_reset false false (enc_row qfs +:+ String CR (String LF rest))
  = scan limit parse_reset false false rest ≫= fun rows => Ok (map snd qfs :: rows).
Proof.
  intros (Hne & Hnot & Hok).
  apply (scan_fields qfs START_RECORD [] false rest); auto. now left.
Qed.

(** ** What the writer writes *)

Lemma join_fields_enc (row : list string) :
  join_fields row = enc_row (map quoting row).
Proof.
  induction row as [|f row IH]; [reflexivity|].
  destruct row as [|g row]; [reflexivity|].
  change (join_fields (f :: g :: row))
    with (quote_field (needs_quotes f) f +:+ String delimiter (join_fields (g :: row))).
  now rewrite IH.
Qed.

Lemma field_ok_quoting (f : string) : slen f <= limit -> field_ok limit (needs_quotes f) f.
Proof. intros H. split; [auto | exact H]. Qed.

Lemma writerow_enc (row : list string) :
  row <> [] -> Forall (fun f => slen f <= limit) row ->
  exists qfs, writerow row = enc_row qfs +:+ lineterminator
              /\ map snd qfs = row /\ row_ok limit qfs.
Proof.
  intros Hne Hlen. destruct row as [|f row]; [congruence|].
  destruct row as [|g row].
  - destruct f as [|c f].
    + exists [(true, "")]. repeat split; try discriminate.
      constructor; [|constructor]. split; [auto|].
      now apply Forall_cons in Hlen as [? _].
    + exists [quoting (String c f)]. split; [|split; [reflexivity|]].
      * unfold writerow. cbn [join_fields enc_row quoting].
        destruct (needs_quotes (String c f)); reflexivity.
      * repeat split; try discriminate.
        constructor; [|constructor]. apply field_ok_quoting.
        now apply Forall_cons in Hlen as [? _].
  - exists (map quoting (f :: g :: row)). split; [|split].
    + unfold writerow. rewrite join_fields_enc.
      change (enc_row (map quoting (f :: g :: row)))
        with (quote_field (needs_quotes f) f
              +:+ String delimiter (enc_row (map quoting (g :: row)))).
      rewrite is_empty_app. cbn [is_empty]. now rewrite andb_false_r.
    + rewrite map_map. apply map_id.
    + repeat split; try discriminate.
      apply Forall_map. eapply Forall_impl; [exact Hlen|].
      intros h Hh. now apply field_ok_quoting.
Qed.

Lemma scan_written (rows : list (list string)) :
  Forall (row_fits limit) rows ->
  scan limit parse_reset false false (concat_all (map writerow rows)) = Ok rows.
Proof.
  induction 1 as [|row rows [Hne Hlen] _ IH]; [reflexivity|].
  cbn [map concat_all].
  destruct (writerow_enc row Hne Hlen) as (qfs & -> & <- & Hok).
  rewrite sapp_assoc. unfold lineterminator. rewrite !sapp_cons.
  change ("" +:+ concat_all (map writerow rows))
    with (concat_all (map writerow rows)).
  rewrite scan_row by assumption. now rewrite IH.
Qed.

(** The reader gives back the rows the writer wrote, when each row has a
    field and no field is longer than the limit. *)
Lemma read_written (rows : list (list string)) :
  Forall (row_fits limit) rows ->
  read_records limit parse_reset (file_lines (concat_all (map writerow rows)))
  = Ok rows.
Proof. intros H. rewrite read_file_scan. now apply scan_written. Qed.

(** ** The reader on any text

    On the lines of a file the reader never meets a character after a line
    break outside quotes, and it fails only when a field outgrows the
    limit. *)









End Limit.

End CsvFacts.

(* ===================================================================== *)
(** * Store: properties *)
(* ===================================================================== *)

Module StoreFacts.
Import Text TextFacts Csv CsvScan CsvFacts.

Lemma write_insert (fs : files) (p : path) (x t : string) :
  write (<[p := x]> fs) p t = <[p := x +:+ t]> fs.
Proof. unfold write. now rewrite lookup_insert_eq, insert_insert_eq. Qed.

Lemma write_other (fs : files) (p q : path) (t : string) :
  q <> p -> write fs p t !! q = fs !! q.
Proof. intros H. unfold write. now rewrite lookup_insert_ne. Qed.

Lemma open_write (fs : files) (p : path) (t : string) :
  write (open_w fs p) p t = <[p := t]> fs.
Proof. unfold open_w. now rewrite write_insert. Qed.

Lemma ensure_db_present (fs : files) (p : path) (c : string) :
  fs !! p = Some c -> ensure_db fs p = fs.
Proof. intros H. unfold ensure_db. now rewrite H. Qed.

Lemma ensure_db_other (fs : files) (p q : path) :
  q <> p -> ensure_db fs p !! q = fs !! q.
Proof.
  intros H. unfold ensure_db. destruct (fs !! p); [reflexivity|].
  rewrite open_write. now rewrite lookup_insert_ne.
Qed.

Lemma dict_to_list_record (r : record) :
  dict_to_list FIELDS (to_dict r) = Ok (map PyStr (record_values r)).
Proof. destruct r. vm_compute. reflexivity. Qed.

Lemma cells_of_text (vs : list string) : map cell (map PyStr vs) = vs.
Proof. rewrite map_map. apply map_id. Qed.

(** Writing records that hold the seven fields fails only by a fault of
    the platform; when it does not fail, the rows stand at the end of the
    file. *)
Lemma writerows_records recs (fs : files) (p : path) (x : string) fault fs' :
  writerows (<[p := x]> fs) p (map to_dict recs) fault = (fs', Ok tt) ->
  fs' = <[p := x +:+ rows_text recs]> fs.
Proof.
  revert x fault. induction recs as [|r recs IH]; intros x fault H.
  - cbn in H. injection H as <-. unfold rows_text. cbn. now rewrite sapp_nil_r.
  - cbn [map writerows] in H. rewrite dict_to_list_record in H.
    destruct fault as [[|n]|]; [discriminate| |];
      rewrite cells_of_text, write_insert in H; apply IH in H; subst fs';
      unfold rows_text; cbn [map concat_all]; now rewrite sapp_assoc.
Qed.

Lemma writerows_records_sound recs (fs : files) (p : path) (x : string) :
  writerows (<[p := x]> fs) p (map to_dict recs) None
  = (<[p := x +:+ rows_text recs]> fs, Ok tt).
Proof.
  revert x. induction recs as [|r recs IH]; intros x.
  - unfold rows_text. cbn. now rewrite sapp_nil_r.
  - cbn [map writerows]. rewrite dict_to_list_record.
    cbn [fmap option_fmap option_map]. rewrite cells_of_text, write_insert, IH.
    unfold rows_text. cbn [map concat_all]. now rewrite sapp_assoc.
Qed.

(** Writing to one file leaves the others as they were. *)
Lemma writerows_other records (fs : files) (p q : path) fault :
  q <> p -> (writerows fs p records fault).1 !! q = fs !! q.
Proof.
  intros Hq. revert fs fault. induction records as [|d records IH]; intros fs fault.
  - reflexivity.
  - cbn [writerows]. destruct (dict_to_list FIELDS d); [|reflexivity].
    destruct fault as [[|n]|]; [reflexivity| |]; rewrite IH; now apply write_other.
Qed.

(** What a completed [save_records] leaves in the record file. *)
Lemma save_records_content env (fs : files) db recs fs' :
  save_records env fs db (map to_dict recs) = (fs', Ok tt) ->
  fs' !! db = Some (header_text +:+ rows_text recs).
Proof.
  unfold save_records. destruct (with_suffix db ".tmp") as [tmp|e]; [|discriminate].
  rewrite open_write.
  destruct (writerows _ tmp (map to_dict recs) (write_fault env)) as [fs1 [[]|e]] eqn:Hw;
    [|discriminate].
  apply writerows_records in Hw. subst fs1.
  destruct (replace_fails env).
  - rewrite open_write, writerows_records_sound. intros H. injection H as <-.
    apply lookup_insert_eq.
  - unfold os_replace. rewrite lookup_insert_eq. intros H. injection H as <-.
    apply lookup_insert_eq.
Qed.

Lemma row_dict_record (r : record) :
  row_dict FIELDS (record_values r) = to_dict r.
Proof. destruct r. reflexivity. Qed.

Lemma record_row_fits (r : record) :
  within field_size_limit r -> row_fits field_size_limit (record_values r).
Proof. intros H. split; [destruct r; discriminate | exact H]. Qed.

Lemma header_fits : row_fits field_size_limit FIELDS.
Proof.
  split; [discriminate|]. unfold FIELDS.
  repeat constructor; vm_compute; discriminate.
Qed.

Lemma dicts_of_rows (recs : list record) :
  map (row_dict FIELDS)
      (List.filter (fun row => negb (is_blank_row row)) (map record_values recs))
  = map to_dict recs.
Proof.
  induction recs as [|r recs IH]; [reflexivity|].
  cbn [map]. unfold record_values at 1. cbn [List.filter is_blank_row negb].
  fold (record_values r). cbn [map]. now rewrite IH, row_dict_record.
Qed.

(** The reader of dicts gives back the records the writer of dicts wrote
    under the header. *)
Lemma dict_reader_written (recs : list record) :
  Forall (within field_size_limit) recs ->
  dict_reader (header_text +:+ rows_text recs) = Ok (map to_dict recs).
Proof.
  intros Hfit. unfold dict_reader, reader_rows.
  assert (E : header_text +:+ rows_text recs
              = concat_all (map writerow (FIELDS :: map record_values recs))).
  { unfold rows_text. cbn [map concat_all]. now rewrite List.map_map. }
  rewrite E, read_written.
  - cbn [mbind res_bind]. f_equal. apply dicts_of_rows.
  - constructor; [apply header_fits|].
    apply Forall_map. eapply Forall_impl; [exact Hfit|].
    intros r Hr. now apply record_row_fits.
Qed.

(** ** Columns the header lacks *)




End StoreFacts.

(** C1, as stated, fails.  A record whose full name is 131073 characters
    long is saved ([save_records] completes), but the file cannot be loaded
    again: the csv reader refuses a field longer than its field size limit,
    131072 characters, and [load_records] raises instead of returning the
    record. *)
Lemma round_trip_fails_beyond_field_limit :
  (save_records no_fault ∅ DEFAULT_DB [to_dict long_name_record]).2 = Ok tt
  /\ (load_records
        (save_records no_fault ∅ DEFAULT_DB [to_dict long_name_record]).1
        DEFAULT_DB).2
     = Raise (CsvError FieldLargerThanLimit).
Proof. split; vm_compute; reflexivity. Qed.

(** C1, amended.  For every sequence of records no field of which is
    longer than the field size limit of the csv reader (131072 characters),
    whatever the fields hold otherwise, the delimiter, the quote character
    and line breaks included: once [save_records] has completed, by the
    replacement of the file or by the rewrite in place, [load_records]
    returns exactly the records saved, in the same order, and leaves the
    files as they are. *)
Theorem save_load_round_trip env (fs : files) DB_FILE recs (fs' : files) :
  Forall (within Csv.field_size_limit) recs ->
  save_records env fs DB_FILE (map to_dict recs) = (fs', Ok tt) ->
  load_records fs' DB_FILE = (fs', Ok (map to_dict recs)).
Proof.
  intros Hfit Hsave. apply StoreFacts.save_records_content in Hsave.
  unfold load_records. rewrite (StoreFacts.ensure_db_present _ _ _ Hsave), Hsave.
  cbn [from_option id]. now rewrite StoreFacts.dict_reader_written.
Qed.

(** A record with a comma, quotes, a CR LF, a lone LF and a lone CR in its
    fields, saved to an empty disk. *)
Lemma save_load_round_trip_witness :
  let fs' := (save_records no_fault ∅ DEFAULT_DB (map to_dict [tricky_record])).1 in
  load_records fs' DEFAULT_DB = (fs', Ok (map to_dict [tricky_record])).
Proof.
  apply (save_load_round_trip no_fault ∅ DEFAULT_DB [tricky_record]).
  - repeat constructor; vm_compute; discriminate.
  - rewrite (surjective_pairing (save_records _ _ _ _)) at 1.
    f_equal.
Defined.




(** C6: the code breaks the claim when the record file itself has the
    suffix [.tmp].  [DB_FILE.with_suffix('.tmp')] is then [DB_FILE], the
    temporary file is the record file, and opening it for writing cuts the
    saved records.  Here the file [records.tmp] holds Ann's record; saving
    Bob's record and a dict with a stray key fails at the second one with
    [ValueError], in the middle of the write to the temporary file, and
    the record file is left with the header and Bob's row: Ann's record is
    lost before any rename or rewrite step was reached. *)
Lemma save_failure_cuts_tmp_named_file :
  with_suffix tmp_named_db ".tmp" = Ok tmp_named_db
  /\ (save_records no_fault disk_with_ann tmp_named_db
        [to_dict bob; ann_with_nickname]).2 = Raise ValueError
  /\ (save_records no_fault disk_with_ann tmp_named_db
        [to_dict bob; ann_with_nickname]).1 !! tmp_named_db
     = Some (header_text +:+ Csv.writerow (record_values bob))
  /\ disk_with_ann !! tmp_named_db
     = Some (header_text +:+ Csv.writerow (record_values ann)).
Proof. repeat split; vm_compute; reflexivity. Qed.

Module AtomicityFacts.
Import StoreFacts.




End AtomicityFacts.

(* ===================================================================== *)
(** * The Save and Update buttons: properties *)
(* ===================================================================== *)

Module FormFacts.

Lemma truthy_nonempty (s : string) : Text.truthy s = true -> s <> "".
Proof. destruct s; [discriminate | discriminate]. Qed.

Lemma entry_record_well_derived (f : form) (r : record) :
  entry_record f = Some r -> well_derived r /\ from_form f r.
Proof.
  unfold entry_record. cbv zeta.
  destruct (Text.truthy (Text.strip (ent_full f))) eqn:Hfull; [|discriminate].
  destruct (Text.truthy (Text.strip (ent_pc f))) eqn:Hpc; [|discriminate].
  destruct (Text.truthy (Text.strip (ent_pass f))) eqn:Hpw; [|discriminate].
  cbn [andb negb]. intros H. injection H as <-.
  unfold well_derived, from_form. cbn.
  repeat split; auto using truthy_nonempty.
Qed.

End FormFacts.

(** C10.  Whenever Save or Update persists (the handler reaches
    [save_records] and it completes), the record it wrote (the first of the
    list for Save, the one at the selected index for Update) holds the
    stripped entries of the form, its full name, PC name and password are
    not empty, its user name is [make_username] of its full name and its
    e-mail is the user name followed by [@totalassist.co.uk]. *)
Theorem persisted_record_invariant :
  (forall env (fs : files) db f (fs' : files) recs,
     save_new env fs db f = (fs', Saved recs) ->
     exists r rest, recs = to_dict r :: rest
                    /\ well_derived r /\ from_form f r)
  /\ (forall env (fs : files) db idx f (fs' : files) recs,
        update_record env fs db idx f = (fs', Saved recs) ->
        exists i r, idx = Some i /\ 0 <= i
                    /\ recs !! Z.to_nat i = Some (to_dict r)
                    /\ well_derived r /\ from_form f r).
Proof.
  split.
  - intros env fs db f fs' recs. unfold save_new.
    destruct (entry_record f) as [r|] eqn:Hr; [|discriminate].
    destruct (load_records fs db) as [fs1 [old|e]]; [|discriminate].
    destruct (save_records env fs1 db (to_dict r :: old)) as [fs2 [[]|e]];
      [|discriminate].
    intros H. injection H as _ <-. exists r, old.
    split; [reflexivity | now apply FormFacts.entry_record_well_derived].
  - intros env fs db idx f fs' recs. unfold update_record.
    destruct idx as [i|]; [|discriminate].
    destruct (entry_record f) as [r|] eqn:Hr; [|discriminate].
    destruct (load_records fs db) as [fs1 [old|e]]; [|discriminate].
    destruct ((0 <=? i) && (i <? Z.of_nat (length old))) eqn:Hi; [|discriminate].
    destruct (save_records env fs1 db _) as [fs2 [[]|e]]; [|discriminate].
    intros H. injection H as _ <-.
    apply andb_true_iff in Hi as [Hlo Hhi].
    apply Z.leb_le in Hlo. apply Z.ltb_lt in Hhi.
    exists i, r. split; [reflexivity|]. split; [assumption|].
    split; [apply list_lookup_insert_eq; lia|].
    now apply FormFacts.entry_record_well_derived.
Qed.

(** Save on an empty disk, from a form typed with stray blanks. *)
Lemma persisted_record_invariant_witness :
  exists r rest,
    [to_dict (Record7 "ann   lee" "Ann.Lee" "Pw1!" "PC-01" "201" ""
                      "Ann.Lee@totalassist.co.uk")]
      = to_dict r :: rest
    /\ well_derived r
    /\ from_form (Form "  ann   lee " "PC-01 " " Pw1!" "201" "") r.
Proof.
  apply (proj1 persisted_record_invariant no_fault ∅ DEFAULT_DB
           (Form "  ann   lee " "PC-01 " " Pw1!" "201" "")
           (save_new no_fault ∅ DEFAULT_DB
              (Form "  ann   lee " "PC-01 " " Pw1!" "201" "")).1).
  vm_compute. reflexivity.
Defined.

(* ===================================================================== *)
(** * The CF_HTML container: properties *)
(* ===================================================================== *)

Module ClipFacts.
Import Text TextFacts Clip.

(** ** Pieces of a text *)

Lemma drop_app_length (x y : string) : drop (String.length x) (x +:+ y) = y.
Proof. induction x as [|c x IH]; simpl; [reflexivity | exact IH]. Qed.

Lemma take_app_length (x y : string) : take (String.length x) (x +:+ y) = x.
Proof. induction x as [|c x IH]; simpl; [reflexivity | now rewrite IH]. Qed.

Lemma drop_add (n m : nat) (s : string) : drop (n + m) s = drop m (drop n s).
Proof.
  revert s. induction n as [|n IH]; intros s; simpl; [reflexivity|].
  destruct s as [|c s]; [now destruct m | apply IH].
Qed.

Lemma take_all (s : string) : take (String.length s) s = s.
Proof. induction s as [|c s IH]; simpl; [reflexivity | now rewrite IH]. Qed.

Lemma length_replicate_char (n : nat) (c : ascii) (acc : string) :
  String.length (replicate_char n c acc) = (n + String.length acc)%nat.
Proof.
  revert acc. induction n as [|n IH]; intros acc; simpl; [reflexivity|].
  rewrite IH. simpl. lia.
Qed.

(** ** Decimal digits *)

Lemma code_chr (z : Z) : 0 <= z < 256 -> code (chr z) = z.
Proof.
  intros H. unfold code, chr. rewrite N_ascii_embedding.
  - now apply Z2N.id.
  - apply N2Z.inj_lt. rewrite Z2N.id by lia. now simpl.
Qed.

Lemma digits_length (fuel : nat) (n : Z) (acc : string) (k : Z) :
  1 <= k -> 0 <= n < 10 ^ k ->
  slen (digits fuel n acc) <= k + slen acc.
Proof.
  revert n acc k. induction fuel as [|fuel IH]; intros n acc k Hk Hn; simpl.
  - lia.
  - destruct (n / 10 =? 0) eqn:E.
    + rewrite TextFacts.slen_cons. lia.
    + apply Z.eqb_neq in E.
      assert (1 < k).
      { destruct (decide (k = 1)) as [->|]; [|lia].
        exfalso. apply E. apply Z.div_small. simpl in Hn. lia. }
      assert (Hn' : 0 <= n / 10 < 10 ^ (k - 1)).
      { split; [apply Z.div_pos; lia|].
        apply Z.div_lt_upper_bound; [lia|].
        replace (10 * 10 ^ (k - 1)) with (10 ^ k); [lia|].
        replace k with (Z.succ (k - 1)) at 1 by lia.
        rewrite Z.pow_succ_r by lia. reflexivity. }
      specialize (IH (n / 10) (String (chr (48 + n mod 10)) acc) (k - 1)).
      rewrite TextFacts.slen_cons in IH. lia.
Qed.

Lemma digits_number (fuel : nat) (n : Z) (acc : string) :
  0 <= n < 2 ^ Z.of_nat fuel ->
  exists k, 0 <= k /\ forall v,
    number v (digits fuel n acc) = number (v * 10 ^ k + n) acc.
Proof.
  revert n acc. induction fuel as [|fuel IH]; intros n acc Hn.
  - exists 0. split; [lia|]. intros v. simpl in *.
    replace n with 0 by lia. f_equal. lia.
  - assert (Hd : 0 <= n mod 10 < 10) by (apply Z.mod_pos_bound; lia).
    cbn [digits]. destruct (n / 10 =? 0) eqn:E.
    + apply Z.eqb_eq in E. exists 1. split; [lia|]. intros v.
      cbn [number]. rewrite code_chr by lia. f_equal.
      pose proof (Z.div_mod n 10). lia.
    + rewrite Nat2Z.inj_succ, Z.pow_succ_r in Hn by lia.
      destruct (IH (n / 10) (String (chr (48 + n mod 10)) acc)) as (k & Hk & Hv).
      { split; [apply Z.div_pos; lia|].
        apply Z.div_lt_upper_bound; lia. }
      exists (k + 1). split; [lia|]. intros v. rewrite Hv.
      cbn [number]. rewrite code_chr by lia. f_equal.
      rewrite Z.pow_add_r by lia. pose proof (Z.div_mod n 10). lia.
Qed.

Lemma number_decimal (n : Z) : 0 <= n -> number 0 (decimal n) = n.
Proof.
  intros Hn. unfold decimal.
  destruct (digits_number (S (Z.to_nat (Z.log2 n))) n "") as (k & Hk & Hv).
  { split; [assumption|].
    rewrite Nat2Z.inj_succ, Z2Nat.id by apply Z.log2_nonneg.
    destruct (decide (n = 0)) as [->|]; [reflexivity|].
    apply Z.log2_spec. lia. }
  rewrite Hv. simpl. reflexivity.
Qed.

Lemma number_zeros (k : nat) (d : string) :
  number 0 (replicate_char k "0" d) = number 0 d.
Proof.
  revert d. induction k as [|k IH]; intros d; simpl; [reflexivity|].
  now rewrite IH.
Qed.

(** Below ten to the eighth an offset is written with eight digits, and
    read back as it was. *)
Lemma fmt08_length (n : Z) :
  0 <= n < 10 ^ 8 -> String.length (fmt08 n) = 8%nat.
Proof.
  intros Hn. unfold fmt08. cbv zeta. rewrite length_replicate_char.
  assert (H := digits_length (S (Z.to_nat (Z.log2 n))) n "" 8).
  fold (decimal n) in H. unfold slen in H. simpl in H. lia.
Qed.

Lemma number_fmt08 (n : Z) : 0 <= n -> number 0 (fmt08 n) = n.
Proof.
  intros Hn. unfold fmt08. cbv zeta. rewrite number_zeros.
  now apply number_decimal.
Qed.

(** ** Where the markers stand *)

Lemma prefix_app (x y : string) : String.prefix x (x +:+ y) = true.
Proof.
  induction x as [|c x IH]; simpl; [now destruct y|].
  destruct (ascii_dec c c); [exact IH | congruence].
Qed.

(** A text that holds no [<] is no prefix of a longer text if it is not
    one of the text before the next [<]. *)
Lemma prefix_before_lt (w x rest : string) :
  no_lt w -> String.prefix w x = false ->
  String.prefix w (x +:+ String "<" rest) = false.
Proof.
  unfold no_lt. revert x. induction w as [|a w IH]; intros x Hw Hp.
  - now destruct x.
  - simpl in Hw. apply andb_true_iff in Hw as [Ha Hw].
    apply negb_true_iff, Ascii.eqb_neq in Ha.
    destruct x as [|b x]; simpl.
    + destruct (ascii_dec a "<"); [congruence | reflexivity].
    + simpl in Hp. destruct (ascii_dec a b); [now apply IH | reflexivity].
Qed.

Lemma find_index_here (sub s : string) :
  String.prefix sub s = true -> find_index sub s = Some O.
Proof. intros H. destruct s; cbn [find_index]; now rewrite H. Qed.

Lemma find_index_next (sub : string) (c : ascii) (s : string) :
  String.prefix sub (String c s) = false ->
  find_index sub (String c s) = S <$> find_index sub s.
Proof. intros H. cbn [find_index]. now rewrite H. Qed.

(** The end marker, put after a text that does not hold it, is first found
    where it was put. *)
Lemma find_index_end_marker (fb tail : string) :
  find_index end_fragment_marker fb = None ->
  find_index end_fragment_marker (fb +:+ end_fragment_marker +:+ tail)
  = Some (String.length fb).
Proof.
  induction fb as [|c fb IH]; intros Hnone.
  - apply find_index_here.
    change (String.prefix end_fragment_marker (end_fragment_marker +:+ tail) = true).
    apply prefix_app.
  - cbn [find_index] in Hnone.
    destruct (String.prefix end_fragment_marker (String c fb)) eqn:Hp;
      [discriminate|].
    destruct (find_index end_fragment_marker fb) eqn:Hf; [discriminate|].
    rewrite sapp_cons, find_index_next; [now rewrite IH|].
    unfold end_fragment_marker in *. cbn [String.prefix] in *.
    destruct (ascii_dec "<" c); [|reflexivity].
    change ("<!--EndFragment-->" +:+ tail)
      with (String "<" ("!--EndFragment-->" +:+ tail)).
    apply prefix_before_lt; [reflexivity | exact Hp].
Qed.

Ltac skip_char :=
  rewrite find_index_next by reflexivity.

Lemma find_end_marker (fb : string) :
  find fb end_fragment_marker = -1 ->
  find (html_body fb) end_fragment_marker = 32 + slen fb.
Proof.
  unfold find at 1. destruct (find_index end_fragment_marker fb) eqn:Hf; [lia|].
  intros _. unfold find, html_body, start_fragment_marker.
  cbn [String.append]. do 32 skip_char.
  rewrite (find_index_end_marker fb "</body></html>" Hf).
  cbn [fmap option_fmap option_map]. unfold slen. lia.
Qed.

Lemma find_start_marker (fb : string) :
  find (html_body fb) start_fragment_marker = 12.
Proof.
  unfold find, html_body. cbn [String.append].
  do 12 skip_char. rewrite find_index_here; [reflexivity|].
  apply (prefix_app start_fragment_marker).
Qed.

(** ** The layout of a container *)

Lemma drop_exact (n : nat) (x y : string) :
  String.length x = n -> drop n (x +:+ y) = y.
Proof. intros <-. apply drop_app_length. Qed.

Lemma take_exact (n : nat) (x y : string) :
  String.length x = n -> take n (x +:+ y) = x.
Proof. intros <-. apply take_app_length. Qed.

Lemma past_start_html (R : string) :
  drop 23 ("Version:0.9" +:+ CRLF +:+ "StartHTML:" +:+ R) = R.
Proof. reflexivity. Qed.

Lemma past_end_html (R : string) : drop 10 (CRLF +:+ "EndHTML:" +:+ R) = R.
Proof. reflexivity. Qed.

Lemma past_start_fragment (R : string) :
  drop 16 (CRLF +:+ "StartFragment:" +:+ R) = R.
Proof. reflexivity. Qed.

Lemma past_end_fragment (R : string) :
  drop 14 (CRLF +:+ "EndFragment:" +:+ R) = R.
Proof. reflexivity. Qed.

Lemma past_crlf (R : string) : drop 2 (CRLF +:+ R) = R.
Proof. reflexivity. Qed.

Section Layout.

Variables A B C D body : string.
Hypothesis HA : String.length A = 8%nat.
Hypothesis HB : String.length B = 8%nat.
Hypothesis HC : String.length C = 8%nat.
Hypothesis HD : String.length D = 8%nat.

Local Abbreviation laid := (laid_out A B C D body).

Lemma layout_start_html : take 8 (drop 23 laid) = A.
Proof.
  unfold laid_out. rewrite past_start_html. now apply take_exact.
Qed.

Lemma layout_end_html : take 8 (drop 41 laid) = B.
Proof.
  unfold laid_out. change 41%nat with (23 + (8 + 10))%nat.
  rewrite !drop_add, past_start_html, (drop_exact 8 A) by assumption.
  rewrite past_end_html. now apply take_exact.
Qed.

Lemma layout_start_fragment : take 8 (drop 65 laid) = C.
Proof.
  unfold laid_out. change 65%nat with (23 + (8 + (10 + (8 + 16))))%nat.
  rewrite !drop_add, past_start_html, (drop_exact 8 A) by assumption.
  rewrite past_end_html, (drop_exact 8 B) by assumption.
  rewrite past_start_fragment. now apply take_exact.
Qed.

Lemma layout_end_fragment : take 8 (drop 87 laid) = D.
Proof.
  unfold laid_out.
  change 87%nat with (23 + (8 + (10 + (8 + (16 + (8 + 14))))))%nat.
  rewrite !drop_add, past_start_html, (drop_exact 8 A) by assumption.
  rewrite past_end_html, (drop_exact 8 B) by assumption.
  rewrite past_start_fragment, (drop_exact 8 C) by assumption.
  rewrite past_end_fragment. now apply take_exact.
Qed.

Lemma layout_body : drop 97 laid = body.
Proof.
  unfold laid_out.
  change 97%nat with (23 + (8 + (10 + (8 + (16 + (8 + (14 + (8 + 2))))))))%nat.
  rewrite !drop_add, past_start_html, (drop_exact 8 A) by assumption.
  rewrite past_end_html, (drop_exact 8 B) by assumption.
  rewrite past_start_fragment, (drop_exact 8 C) by assumption.
  rewrite past_end_fragment, (drop_exact 8 D) by assumption.
  apply past_crlf.
Qed.

End Layout.

Lemma container_laid_out (a b c d : Z) (body : string) :
  header a b c d +:+ body = laid_out (fmt08 a) (fmt08 b) (fmt08 c) (fmt08 d) body.
Proof. unfold header, laid_out. now rewrite !sapp_assoc. Qed.

Lemma header_length (a b c d : Z) :
  0 <= a < 10 ^ 8 -> 0 <= b < 10 ^ 8 -> 0 <= c < 10 ^ 8 -> 0 <= d < 10 ^ 8 ->
  String.length (header a b c d) = 97%nat.
Proof.
  intros Ha Hb Hc Hd. unfold header. rewrite !slength_app.
  rewrite !fmt08_length by assumption. reflexivity.
Qed.

Lemma html_body_length (fb : string) :
  String.length (html_body fb) = (64 + String.length fb)%nat.
Proof.
  unfold html_body. rewrite !slength_app. simpl String.length. lia.
Qed.

Lemma html_body_fragment (fb : string) :
  drop 32 (html_body fb)
  = fb +:+ end_fragment_marker +:+ "</body></html>".
Proof. reflexivity. Qed.

(** The offsets the builder works out when the fragment does not hold the
    end marker. *)
Lemma body_offsets_plain (fb : string) :
  find fb end_fragment_marker = -1 ->
  body_offsets fb
  = Offsets 97 (97 + slen (html_body fb)) 129 (129 + slen fb).
Proof.
  intros H. unfold body_offsets. cbv zeta.
  rewrite find_start_marker, (find_end_marker fb H).
  change (slen (header 0 0 0 0)) with 97.
  change (slen start_fragment_marker) with 20. f_equal; lia.
Qed.

End ClipFacts.

(** C2, as stated, fails.  For the fragment [x<!--EndFragment-->y] the
    builder looks the end marker up with [find], which stops at the copy
    inside the fragment: the header states [EndFragment] = 130, and the
    bytes from [StartFragment] to [EndFragment] are the single byte [x], not
    the fragment. *)
Lemma cf_html_marker_inside_fragment :
  Clip.fragment_bytes (Clip.OfBytes Clip.marker_fragment) = Ok Clip.marker_fragment
  /\ Clip.header_offsets <$> Clip._make_cf_html_bytes (Clip.OfBytes Clip.marker_fragment)
     = Ok (Clip.Offsets 97 181 129 130)
  /\ (fun c => Clip.slice c (Clip.start_fragment (Clip.header_offsets c))
                             (Clip.end_fragment (Clip.header_offsets c)))
       <$> Clip._make_cf_html_bytes (Clip.OfBytes Clip.marker_fragment)
     = Ok "x".
Proof. repeat split; vm_compute; reflexivity. Qed.

(** C2, amended.  For every fragment, a [str] that can be encoded or
    [bytes], whose bytes do not hold the end marker [<!--EndFragment-->]
    and whose container is shorter than ten to the eighth bytes (so that
    each offset fits its eight digits): the four offsets read from the
    header of the container are 97, the length of the container, 129, and
    129 plus the number of bytes of the fragment; the bytes of the
    container from [StartHTML] to [EndHTML] are the document skeleton and
    those from [StartFragment] to [EndFragment] are the bytes of the
    fragment.  All offsets count bytes of the encoded body from the start
    of the container. *)
Theorem cf_html_offsets (fragment_html : Clip.fragment) (fb : string) :
  Clip.fragment_bytes fragment_html = Ok fb ->
  Clip.find fb Clip.end_fragment_marker = -1 ->
  97 + slen (Clip.html_body fb) < 10 ^ 8 ->
  exists container,
    Clip._make_cf_html_bytes fragment_html = Ok container
    /\ Clip.header_offsets container
       = Clip.Offsets 97 (slen container) 129 (129 + slen fb)
    /\ Clip.locates container fb.
Proof.
  intros Hfb Hfind Hsize. unfold Clip._make_cf_html_bytes.
  rewrite Hfb. cbn [mbind res_bind]. cbv zeta.
  rewrite (ClipFacts.body_offsets_plain fb Hfind).
  cbn [Clip.start_html Clip.end_html Clip.start_fragment Clip.end_fragment].
  eexists. split; [reflexivity|].
  pose proof (ClipFacts.html_body_length fb) as Hbody.
  assert (Hlen : slen (Clip.html_body fb) = 64 + slen fb)
    by (unfold slen; lia).
  pose proof (TextFacts.slen_nonneg fb) as Hnn.
  assert (H1 : 0 <= 97 < 10 ^ 8) by lia.
  assert (H2 : 0 <= 97 + slen (Clip.html_body fb) < 10 ^ 8) by lia.
  assert (H3 : 0 <= 129 < 10 ^ 8) by lia.
  assert (H4 : 0 <= 129 + slen fb < 10 ^ 8) by lia.
  pose proof (ClipFacts.fmt08_length _ H1) as L1.
  pose proof (ClipFacts.fmt08_length _ H2) as L2.
  pose proof (ClipFacts.fmt08_length _ H3) as L3.
  pose proof (ClipFacts.fmt08_length _ H4) as L4.
  assert (Hcont : slen (Clip.header 97 (97 + slen (Clip.html_body fb)) 129
                          (129 + slen fb) +:+ Clip.html_body fb)
                  = 97 + slen (Clip.html_body fb)).
  { rewrite TextFacts.slen_app. unfold slen at 1.
    rewrite ClipFacts.header_length by assumption. lia. }
  assert (Hoff : Clip.header_offsets
            (Clip.header 97 (97 + slen (Clip.html_body fb)) 129 (129 + slen fb)
             +:+ Clip.html_body fb)
          = Clip.Offsets 97 (97 + slen (Clip.html_body fb)) 129 (129 + slen fb)).
  { unfold Clip.header_offsets, Clip.offset_at.
    rewrite ClipFacts.container_laid_out.
    rewrite ClipFacts.layout_start_html, ClipFacts.layout_end_html,
      ClipFacts.layout_start_fragment, ClipFacts.layout_end_fragment
      by assumption.
    rewrite !ClipFacts.number_fmt08 by lia. reflexivity. }
  split; [now rewrite Hoff, Hcont|].
  unfold Clip.locates. rewrite Hoff.
  cbn [Clip.start_html Clip.end_html Clip.start_fragment Clip.end_fragment].
  unfold Clip.slice. rewrite ClipFacts.container_laid_out. split.
  - replace (Z.to_nat 97) with 97%nat by reflexivity.
    rewrite ClipFacts.layout_body by assumption.
    replace (Z.to_nat (97 + slen (Clip.html_body fb) - 97))
      with (String.length (Clip.html_body fb)) by (unfold slen; lia).
    apply ClipFacts.take_all.
  - replace (Z.to_nat 129) with (97 + 32)%nat by reflexivity.
    rewrite ClipFacts.drop_add, ClipFacts.layout_body by assumption.
    rewrite ClipFacts.html_body_fragment.
    replace (Z.to_nat (129 + slen fb - 129)) with (String.length fb)
      by (unfold slen; lia).
    apply ClipFacts.take_app_length.
Qed.

(** A fragment of ten characters and sixteen bytes: the fragment offsets
    are sixteen apart. *)
Lemma cf_html_offsets_witness :
  exists container,
    Clip._make_cf_html_bytes (Clip.OfStr Clip.accented_fragment) = Ok container
    /\ Clip.header_offsets container
       = Clip.Offsets 97 (slen container) 129 (129 + slen Clip.accented_bytes)
    /\ Clip.locates container Clip.accented_bytes.
Proof.
  apply (cf_html_offsets (Clip.OfStr Clip.accented_fragment) Clip.accented_bytes).
  - vm_compute. reflexivity.
  - vm_compute. reflexivity.
  - vm_compute. reflexivity.
Defined.

(* ===================================================================== *)
(** * The clipboard transaction: properties *)
(* ===================================================================== *)

Module WinFacts.
Import Clip Win.

(** Whatever the guarded block does, the clipboard is closed after
    [finally: CloseClipboard()]. *)
Lemma finally_close {A} (m : M A) (w : world) :
  clipboard_open (finally m close_clipboard w).2 = false.
Proof. unfold finally. destruct (m w) as [r w']. reflexivity. Qed.

(** The last call made after [finally: CloseClipboard()] is that call. *)
Lemma finally_close_last {A} (m : M A) (w : world) :
  head (calls (finally m close_clipboard w).2) = Some CloseClipboard.
Proof. unfold finally. destruct (m w) as [r w']. reflexivity. Qed.

(** The transaction through [ctypes] releases the clipboard on every path:
    started with the clipboard free, it ends with the clipboard free,
    whichever calls fail. *)
Lemma win32_transaction_releases (html_fragment : list Z)
    (plain_text : option (list Z)) (w : world) :
  clipboard_open w = false ->
  clipboard_open (_set_clipboard_html_win32 html_fragment plain_text w).2 = false.
Proof.
  intros Hfree. unfold _set_clipboard_html_win32. cbv zeta.
  unfold mbind at 1, M_bind, lift.
  destruct (_make_cf_html_bytes (OfStr html_fragment)) as [data|e]; [|exact Hfree].
  unfold mbind at 1, M_bind.
  destruct (encode_utf16le _) as [text|e]; [|exact Hfree].
  unfold mbind at 1, M_bind, api_. unfold mbind at 1, M_bind.
  unfold open_clipboard, mbind at 1, M_bind, api.
  cbn [answers calls clipboard_open].
  destruct (answers w) as [|[] rest]; cbn [negb]; try apply finally_close.
  cbn. exact Hfree.
Qed.

(** The allocation of the block for the text fails: the transaction raises
    [RuntimeError], and the clipboard, which it had opened, is closed. *)
Lemma win32_transaction_releases_witness :
  (_set_clipboard_html_win32 bold_fragment None text_alloc_fails).1
  = Raise RuntimeError
  /\ clipboard_open
       (_set_clipboard_html_win32 bold_fragment None text_alloc_fails).2
     = false.
Proof.
  split; [vm_compute; reflexivity|].
  apply (win32_transaction_releases bold_fragment None text_alloc_fails).
  reflexivity.
Defined.

End WinFacts.

(** C8: the code breaks the claim on the path through [win32clipboard].
    That branch has no [finally]: when a step after [OpenClipboard()]
    raises, [CloseClipboard()] is skipped.  Here the fragment holds a lone
    surrogate; every call of the platform succeeds.  The branch opens the
    clipboard and empties it, then [_make_cf_html_bytes] raises; the
    [ctypes] attempt raises on the same encoding before it opens anything;
    the Tk fallback runs.  The function returns without the program having
    called [CloseClipboard]: the clipboard it opened is still open. *)
Lemma clipboard_left_open :
  let w := (Win.set_html_clipboard_fragment true true Win.surrogate_fragment
              (Some (Clip.codepoints "Hi")) Win.calm).2 in
  Win.clipboard_open w = true
  /\ Win.calls w
     = [Win.TkAppend [72; 105]; Win.TkClear; Win.RegisterClipboardFormat;
        Win.EmptyClipboard; Win.OpenClipboard].
Proof. split; vm_compute; reflexivity. Qed.
(* ===================================================================== *)
(** * The record list: properties *)
(* ===================================================================== *)

Module HandlerFacts.
Import Text TextFacts Csv CsvScan CsvFacts StoreFacts.

Lemma with_suffix_named (db : path) :
  name db <> "" -> exists tmp, with_suffix db ".tmp" = Ok tmp.
Proof.
  intros Hn. unfold with_suffix. destruct (name db); [congruence|].
  cbn [is_empty]. destruct (is_empty _); eauto.
Qed.

(** Where the platform puts in no write fault, a save of records of text
    to a named file completes, by the replacement or by the rewrite in
    place. *)
Lemma save_records_completes env (fs : files) db recs (text : string) :
  fs !! db = Some text -> name db <> "" -> write_fault env = None ->
  exists fs', save_records env fs db (map to_dict recs) = (fs', Ok tt)
              /\ fs' !! db = Some (header_text +:+ rows_text recs).
Proof.
  intros Hdb Hn Hw.
  assert (E : (save_records env fs db (map to_dict recs)).2 = Ok tt).
  { unfold save_records. rewrite (ensure_db_present _ _ _ Hdb).
    destruct (with_suffix_named db Hn) as [tmp ->].
    rewrite open_write, Hw, writerows_records_sound.
    destruct (replace_fails env); [|reflexivity].
    now rewrite open_write, writerows_records_sound. }
  destruct (save_records env fs db (map to_dict recs)) as [fs' r] eqn:Hs.
  cbn in E. subst r. exists fs'. split; [reflexivity|].
  now apply (save_records_content env fs db recs).
Qed.

Lemma load_records_present (fs : files) db (text : string) :
  fs !! db = Some text ->
  load_records fs db = (fs, dict_reader text).
Proof.
  intros H. unfold load_records. rewrite (ensure_db_present _ _ _ H), H.
  reflexivity.
Qed.

Lemma load_records_written (fs : files) db recs :
  fs !! db = Some (header_text +:+ rows_text recs) ->
  Forall (within field_size_limit) recs ->
  load_records fs db = (fs, Ok (map to_dict recs)).
Proof.
  intros H Hfit. rewrite (load_records_present _ _ _ H).
  now rewrite dict_reader_written.
Qed.

Lemma map_to_dict_delete (i : nat) (recs : list record) :
  delete i (map to_dict recs) = map to_dict (delete i recs).
Proof.
  revert i. induction recs as [|r recs IH]; intros [|i]; cbn; try reflexivity.
  f_equal. apply IH.
Qed.

Lemma map_to_dict_insert (i : nat) (r : record) (recs : list record) :
  <[i := to_dict r]> (map to_dict recs) = map to_dict (<[i := r]> recs).
Proof. symmetry. apply (list_fmap_insert to_dict). Qed.

Lemma header_loads_nothing : dict_reader header_text = Ok [].
Proof. vm_compute. reflexivity. Qed.

End HandlerFacts.

(** The first start.  [load_records] changes the disk in one case only:
    the record file is missing, and it is created with the header line
    alone; the load then returns no record.  A record file that exists is
    left as it is, whatever it holds, and no other file is touched. *)
Theorem load_records_creates_header_only (fs : files) (DB_FILE : path) :
  (fs !! DB_FILE = None ->
   load_records fs DB_FILE = (<[DB_FILE := header_text]> fs, Ok [])
   /\ header_text
      = "full_name,username,password,pc_name,ext,ddi,email" +:+ Csv.lineterminator)
  /\ (forall text, fs !! DB_FILE = Some text -> (load_records fs DB_FILE).1 = fs)
  /\ (forall q, q <> DB_FILE -> (load_records fs DB_FILE).1 !! q = fs !! q).
Proof.
  split; [|split].
  - intros H. split; [|reflexivity]. unfold load_records, ensure_db. rewrite H.
    rewrite StoreFacts.open_write, lookup_insert_eq. cbn [from_option id].
    now rewrite HandlerFacts.header_loads_nothing.
  - intros text H. now rewrite (HandlerFacts.load_records_present _ _ _ H).
  - intros q Hq. unfold load_records. cbn [fst].
    now apply StoreFacts.ensure_db_other.
Qed.

Lemma load_records_creates_header_only_witness :
  load_records ∅ DEFAULT_DB = (<[DEFAULT_DB := header_text]> ∅, Ok [])
  /\ header_text
     = "full_name,username,password,pc_name,ext,ddi,email" +:+ Csv.lineterminator.
Proof.
  apply (proj1 (load_records_creates_header_only ∅ DEFAULT_DB)).
  reflexivity.
Defined.

(** Save puts the new record first and keeps the others.  Where the
    record file loads as the records [recs], the file has a name and the
    platform puts in no write fault, Save with a form that has its three
    required entries completes; the file then holds the header, the row of
    the form's record and the rows of [recs] in their order, and, no field
    being longer than the field size limit, loads as the new record
    followed by [recs]. *)
Theorem save_new_prepends env (fs : files) (DB_FILE : path) (f : form)
    (r : record) (recs : list record) :
  loads_as fs DB_FILE (map to_dict recs) ->
  name DB_FILE <> "" -> write_fault env = None ->
  entry_record f = Some r ->
  exists fs',
    save_new env fs DB_FILE f = (fs', Saved (map to_dict (r :: recs)))
    /\ fs' !! DB_FILE = Some (header_text +:+ rows_text (r :: recs))
    /\ (Forall (within Csv.field_size_limit) (r :: recs) ->
        load_records fs' DB_FILE = (fs', Ok (map to_dict (r :: recs)))).
Proof.
  intros (text & Hdb & Hload) Hn Hw Hr.
  destruct (HandlerFacts.save_records_completes env fs DB_FILE (r :: recs) text
              Hdb Hn Hw) as (fs' & Hsave & Hc).
  exists fs'. unfold save_new. rewrite Hr.
  rewrite (HandlerFacts.load_records_present _ _ _ Hdb), Hload.
  change (to_dict r :: map to_dict recs) with (map to_dict (r :: recs)).
  rewrite Hsave. split; [reflexivity|]. split; [exact Hc|].
  intros Hfit. now apply HandlerFacts.load_records_written.
Qed.

Lemma save_new_prepends_witness :
  exists fs',
    save_new no_fault default_disk_with_ann DEFAULT_DB
      (Form " bob ray" "PC-02" "Pw2!" "202" "01234 567202")
    = (fs', Saved (map to_dict [bob_typed; ann]))
    /\ fs' !! DEFAULT_DB = Some (header_text +:+ rows_text [bob_typed; ann])
    /\ (Forall (within Csv.field_size_limit) [bob_typed; ann] ->
        load_records fs' DEFAULT_DB = (fs', Ok (map to_dict [bob_typed; ann]))).
Proof.
  apply (save_new_prepends no_fault default_disk_with_ann DEFAULT_DB
           (Form " bob ray" "PC-02" "Pw2!" "202" "01234 567202") bob_typed [ann]).
  - eexists. split; [reflexivity|]. vm_compute. reflexivity.
  - vm_compute. discriminate.
  - reflexivity.
  - vm_compute. reflexivity.
Defined.

(** Update replaces one record and keeps the others.  Under the same
    conditions, with a selected index inside the list, Update completes
    and the file then holds [recs] with the record at that index replaced
    by the form's record, every other record in its place. *)
Theorem update_record_replaces env (fs : files) (DB_FILE : path) (f : form)
    (r : record) (recs : list record) (i : Z) :
  loads_as fs DB_FILE (map to_dict recs) ->
  name DB_FILE <> "" -> write_fault env = None ->
  entry_record f = Some r ->
  0 <= i < Z.of_nat (length recs) ->
  exists fs',
    update_record env fs DB_FILE (Some i) f
    = (fs', Saved (map to_dict (<[Z.to_nat i := r]> recs)))
    /\ fs' !! DB_FILE
       = Some (header_text +:+ rows_text (<[Z.to_nat i := r]> recs))
    /\ (Forall (within Csv.field_size_limit) (<[Z.to_nat i := r]> recs) ->
        load_records fs' DB_FILE
        = (fs', Ok (map to_dict (<[Z.to_nat i := r]> recs)))).
Proof.
  intros (text & Hdb & Hload) Hn Hw Hr Hi.
  destruct (HandlerFacts.save_records_completes env fs DB_FILE
              (<[Z.to_nat i := r]> recs) text Hdb Hn Hw) as (fs' & Hsave & Hc).
  exists fs'. unfold update_record. rewrite Hr.
  rewrite (HandlerFacts.load_records_present _ _ _ Hdb), Hload.
  rewrite length_map.
  replace ((0 <=? i) && (i <? Z.of_nat (length recs))) with true
    by (symmetry; apply andb_true_iff; split;
        [apply Z.leb_le | apply Z.ltb_lt]; lia).
  cbv zeta. rewrite HandlerFacts.map_to_dict_insert, Hsave.
  split; [reflexivity|]. split; [exact Hc|].
  intros Hfit. now apply HandlerFacts.load_records_written.
Qed.

Lemma update_record_replaces_witness :
  exists fs',
    update_record no_fault disk_with_bob_ann DEFAULT_DB (Some 1)
      (Form "ann lee-ray" "PC-09" "Pw9!" "" "")
    = (fs', Saved (map to_dict [bob; ann_married]))
    /\ fs' !! DEFAULT_DB = Some (header_text +:+ rows_text [bob; ann_married])
    /\ (Forall (within Csv.field_size_limit) [bob; ann_married] ->
        load_records fs' DEFAULT_DB
        = (fs', Ok (map to_dict [bob; ann_married]))).
Proof.
  apply (update_record_replaces no_fault disk_with_bob_ann DEFAULT_DB
           (Form "ann lee-ray" "PC-09" "Pw9!" "" "") ann_married [bob; ann] 1).
  - eexists. split; [reflexivity|]. vm_compute. reflexivity.
  - vm_compute. discriminate.
  - reflexivity.
  - vm_compute. reflexivity.
  - cbn. lia.
Defined.

(** Delete removes the record at the number of the selected row and keeps
    the others in their order; with a number outside the list it writes
    nothing.  Without a selection, or when the question is answered no, no
    file is read or written. *)
Theorem delete_record_removes env (fs : files) (DB_FILE : path)
    (recs : list record) :
  loads_as fs DB_FILE (map to_dict recs) ->
  name DB_FILE <> "" -> write_fault env = None ->
  (forall idx, 0 <= idx < Z.of_nat (length recs) ->
     exists fs',
       delete_record env fs DB_FILE (Some idx) true
       = (fs', Deleted (map to_dict (delete (Z.to_nat idx) recs)))
       /\ fs' !! DB_FILE
          = Some (header_text +:+ rows_text (delete (Z.to_nat idx) recs))
       /\ (Forall (within Csv.field_size_limit) recs ->
           load_records fs' DB_FILE
           = (fs', Ok (map to_dict (delete (Z.to_nat idx) recs)))))
  /\ (forall idx, ~ 0 <= idx < Z.of_nat (length recs) ->
        delete_record env fs DB_FILE (Some idx) true = (fs, OutOfRange))
  /\ (forall idx, delete_record env fs DB_FILE (Some idx) false = (fs, Declined))
  /\ (forall confirmed,
        delete_record env fs DB_FILE None confirmed = (fs, NoSelection)).
Proof.
  intros (text & Hdb & Hload) Hn Hw. split; [|split; [|split]].
  - intros idx Hi.
    destruct (HandlerFacts.save_records_completes env fs DB_FILE
                (delete (Z.to_nat idx) recs) text Hdb Hn Hw) as (fs' & Hsave & Hc).
    exists fs'. unfold delete_record. cbn [negb].
    rewrite (HandlerFacts.load_records_present _ _ _ Hdb), Hload.
    rewrite length_map.
    replace ((0 <=? idx) && (idx <? Z.of_nat (length recs))) with true
      by (symmetry; apply andb_true_iff; split;
          [apply Z.leb_le | apply Z.ltb_lt]; lia).
    cbv zeta. rewrite HandlerFacts.map_to_dict_delete, Hsave.
    split; [reflexivity|]. split; [exact Hc|].
    intros Hfit. apply HandlerFacts.load_records_written; [exact Hc|].
    apply Forall_delete, Hfit.
  - intros idx Hi. unfold delete_record. cbn [negb].
    rewrite (HandlerFacts.load_records_present _ _ _ Hdb), Hload.
    rewrite length_map.
    replace ((0 <=? idx) && (idx <? Z.of_nat (length recs))) with false;
      [reflexivity|].
    symmetry. apply andb_false_iff.
    destruct (Z.leb_spec 0 idx); [right; apply Z.ltb_ge; lia | now left].
  - reflexivity.
  - reflexivity.
Qed.

Lemma delete_record_removes_witness :
  exists fs',
    delete_record no_fault disk_with_bob_ann DEFAULT_DB (Some 0) true
    = (fs', Deleted (map to_dict [ann]))
    /\ fs' !! DEFAULT_DB = Some (header_text +:+ rows_text [ann])
    /\ (Forall (within Csv.field_size_limit) [bob; ann] ->
        load_records fs' DEFAULT_DB = (fs', Ok (map to_dict [ann]))).
Proof.
  apply (proj1 (delete_record_removes no_fault disk_with_bob_ann DEFAULT_DB
                  [bob; ann]
                  (ex_intro _ _ (conj eq_refl eq_refl))
                  ltac:(vm_compute; discriminate) eq_refl) 0).
  cbn. lia.
Defined.

(* ===================================================================== *)
(** * Find: properties *)
(* ===================================================================== *)

Module SearchFacts.
Import Text TextFacts.

Lemma prefix_refl (s : string) : String.prefix s s = true.
Proof.
  induction s as [|c s IH]; [reflexivity|].
  simpl. destruct (ascii_dec c c); [exact IH | congruence].
Qed.

Lemma contains_refl (s : string) : contains s s = true.
Proof. destruct s; cbn [contains]; now rewrite prefix_refl. Qed.

Lemma prefix_of_empty (q : string) : String.prefix q "" = true -> q = "".
Proof. destruct q; [reflexivity | discriminate]. Qed.

Lemma contains_empty (q : string) : contains q "" = true -> q = "".
Proof.
  cbn [contains]. rewrite orb_false_r. apply prefix_of_empty.
Qed.

Lemma filter_sublist {A} (f : A -> bool) (l : list A) :
  sublist (List.filter f l) l.
Proof.
  induction l as [|a l IH]; cbn [List.filter]; [constructor|].
  destruct (f a); now constructor.
Qed.

Lemma elem_of_filter {A} (f : A -> bool) (l : list A) (a : A) :
  a ∈ List.filter f l <-> a ∈ l /\ f a = true.
Proof. rewrite !list_elem_of_In. apply filter_In. Qed.

Lemma populate_tree_lookup (shown : list pydict) (i : nat) row :
  populate_tree shown !! i = Some row ->
  exists d, shown !! i = Some d /\ row = (i, tree_values d).
Proof.
  unfold populate_tree. rewrite list_lookup_imap.
  destruct (shown !! i) as [d|]; [|discriminate].
  cbn. intros H. injection H as <-. eauto.
Qed.

Lemma search_sublist (query : string) (ds : list pydict) :
  sublist (search query ds) ds.
Proof.
  unfold search. cbv zeta. destruct (truthy _); [apply filter_sublist | reflexivity].
Qed.

Lemma lowered_text (d : pydict) (k v : string) :
  named d !! k = Some (PyStr v) ->
  lowered (dict_get d k PyNone) = map_chars lower v.
Proof.
  intros H. unfold lowered, dict_get. rewrite H. cbn.
  unfold truthy. destruct v; reflexivity.
Qed.

Lemma truthy_false_empty (s : string) : truthy s = false -> s = "".
Proof. destruct s; [reflexivity | discriminate]. Qed.

End SearchFacts.

(** Find.  Where the record file loads, whatever the records hold (a
    record of a short row holds [None] under its last keys), Find does not
    raise and leaves the disk as it is.  The rows it shows are records of
    the file in their order in the file, numbered from 0 in the order
    shown.  A blank query shows every record.  Otherwise a record is shown
    exactly when the query, stripped and lower-cased, occurs in its
    lower-cased full name, user name or PC name; so a query that is one of
    these three values, typed in any letter case and with blanks around
    it, shows the record. *)
Theorem do_search_shows (fs : files) (DB_FILE : path) (ds : list pydict)
    (query : string) :
  loads_as fs DB_FILE ds ->
  let q := Text.map_chars Text.lower (Text.strip query) in
  exists shown,
    do_search fs DB_FILE query = (fs, Ok (populate_tree shown))
    /\ sublist shown ds
    /\ (forall i row, populate_tree shown !! i = Some row ->
          exists d, shown !! i = Some d /\ row = (i, tree_values d))
    /\ (q = "" -> shown = ds)
    /\ (forall d, d ∈ shown <-> d ∈ ds /\ (q = "" \/ hit q d = true))
    /\ (forall d k v,
          d ∈ ds -> k ∈ ["full_name"; "username"; "pc_name"] ->
          named d !! k = Some (PyStr v) ->
          contains q (Text.map_chars Text.lower v) = true -> d ∈ shown)
    /\ (forall d k v,
          d ∈ ds -> k ∈ ["full_name"; "username"; "pc_name"] ->
          named d !! k = Some (PyStr v) ->
          Text.map_chars Text.lower v = q -> d ∈ shown).
Proof.
  intros (text & Hdb & Hload) q. exists (search query ds).
  assert (Hmem : forall d, d ∈ search query ds
                           <-> d ∈ ds /\ (q = "" \/ hit q d = true)).
  { intros d. unfold search. cbv zeta. fold q.
    destruct (Text.truthy q) eqn:Hq.
    - rewrite SearchFacts.elem_of_filter. split; [intros [? ?]; auto|].
      intros [? [->|?]]; [discriminate | auto].
    - apply SearchFacts.truthy_false_empty in Hq. split; [auto|tauto]. }
  assert (Hfind : forall d k v,
            d ∈ ds -> k ∈ ["full_name"; "username"; "pc_name"] ->
            named d !! k = Some (PyStr v) ->
            contains q (Text.map_chars Text.lower v) = true ->
            d ∈ search query ds).
  { intros d k v Hd Hk Hv Hc. apply Hmem. split; [exact Hd|].
    rewrite <- (SearchFacts.lowered_text d k v Hv) in Hc.
    right. unfold hit.
    repeat (apply elem_of_cons in Hk as [->|Hk];
            [rewrite Hc, ?orb_true_r; reflexivity|]).
    now apply elem_of_nil in Hk. }
  split; [|split; [|split; [|split; [|split; [|split]]]]].
  - unfold do_search. rewrite (HandlerFacts.load_records_present _ _ _ Hdb), Hload.
    reflexivity.
  - apply SearchFacts.search_sublist.
  - apply SearchFacts.populate_tree_lookup.
  - intros Hq. unfold search. cbv zeta. fold q. now rewrite Hq.
  - exact Hmem.
  - exact Hfind.
  - intros d k v Hd Hk Hv Hq. apply (Hfind d k v Hd Hk Hv).
    rewrite Hq. apply SearchFacts.contains_refl.
Qed.

(** The file holds Bob's record and Ann's; the query [  RAY ] shows a
    record whose full name, lower-cased, holds [ray]: Bob's. *)
Lemma do_search_shows_witness :
  exists shown,
    do_search disk_with_bob_ann DEFAULT_DB "  RAY "
    = (disk_with_bob_ann, Ok (populate_tree shown))
    /\ sublist shown (map to_dict [bob; ann])
    /\ (forall d, d ∈ shown
                  <-> d ∈ map to_dict [bob; ann] /\ ("ray" = "" \/ hit "ray" d = true)).
Proof.
  destruct (do_search_shows disk_with_bob_ann DEFAULT_DB
              (map to_dict [bob; ann]) "  RAY "
              (ex_intro _ _ (conj eq_refl eq_refl)))
    as (shown & H1 & H2 & _ & _ & H5 & _).
  exists shown. split; [exact H1|]. split; [exact H2|]. exact H5.
Defined.

(** Delete after Find goes by the row number.  The rows of a filtered list
    are numbered from 0 in the order shown, and Delete takes the number of
    the selected row as an index into the whole file.  So where the first
    row shown is not the first record of the file, deleting that row
    removes the first record of the file, which the row did not show, and
    the record the row showed stays in the file. *)
Theorem delete_after_search_goes_by_row_number env (fs : files)
    (DB_FILE : path) (r0 : record) (rest : list record) (query : string)
    (d : pydict) (more : list pydict) :
  loads_as fs DB_FILE (map to_dict (r0 :: rest)) ->
  name DB_FILE <> "" -> write_fault env = None ->
  search query (map to_dict (r0 :: rest)) = d :: more ->
  d <> to_dict r0 ->
  do_search fs DB_FILE query
  = (fs, Ok ((0%nat, tree_values d) :: imap (fun i r => (S i, tree_values r)) more))
  /\ d ∈ map to_dict rest
  /\ exists fs',
       delete_record env fs DB_FILE (Some 0) true
       = (fs', Deleted (map to_dict rest))
       /\ fs' !! DB_FILE = Some (header_text +:+ rows_text rest).
Proof.
  intros Hloads Hn Hw Hs Hd. split; [|split].
  - destruct Hloads as (text & Hdb & Hload). unfold do_search.
    rewrite (HandlerFacts.load_records_present _ _ _ Hdb), Hload, Hs.
    reflexivity.
  - pose proof (SearchFacts.search_sublist query (map to_dict (r0 :: rest))) as Hsub.
    rewrite Hs in Hsub.
    assert (Hin : d ∈ map to_dict (r0 :: rest)).
    { eapply elem_of_sublist; [|exact Hsub]. apply elem_of_cons. now left. }
    cbn [map] in Hin. apply elem_of_cons in Hin as [Hin|Hin]; [contradiction|exact Hin].
  - destruct Hloads as (text & Hdb & Hload).
    destruct (HandlerFacts.save_records_completes env fs DB_FILE rest text
                Hdb Hn Hw) as (fs' & Hsave & Hc).
    exists fs'. unfold delete_record. cbn [negb].
    rewrite (HandlerFacts.load_records_present _ _ _ Hdb), Hload.
    cbn [map length]. rewrite Nat2Z.inj_succ.
    replace ((0 <=? 0) && (0 <? Z.succ (Z.of_nat (length (map to_dict rest)))))
      with true by (symmetry; apply andb_true_iff; split;
                    [apply Z.leb_le | apply Z.ltb_lt]; lia).
    cbv zeta. change (Z.to_nat 0) with 0%nat. cbn [delete list_delete].
    rewrite Hsave. split; [reflexivity | exact Hc].
Qed.

(** The file holds Bob's record and Ann's; Find [ann] shows Ann's record
    in row 0; Delete on that row removes Bob's record. *)
Lemma delete_after_search_goes_by_row_number_witness :
  do_search disk_with_bob_ann DEFAULT_DB "ann"
  = (disk_with_bob_ann, Ok [(0%nat, tree_values (to_dict ann))])
  /\ to_dict ann ∈ map to_dict [ann]
  /\ exists fs',
       delete_record no_fault disk_with_bob_ann DEFAULT_DB (Some 0) true
       = (fs', Deleted (map to_dict [ann]))
       /\ fs' !! DEFAULT_DB = Some (header_text +:+ rows_text [ann]).
Proof.
  apply (delete_after_search_goes_by_row_number no_fault disk_with_bob_ann
           DEFAULT_DB bob [ann] "ann" (to_dict ann) []).
  - eexists. split; [reflexivity|]. vm_compute. reflexivity.
  - vm_compute. discriminate.
  - reflexivity.
  - vm_compute. reflexivity.
  - intros H. apply (f_equal (fun d => field d "full_name")) in H.
    vm_compute in H. discriminate.
Defined.

(* ===================================================================== *)
(** * The derived user name and its labels: properties *)
(* ===================================================================== *)

Module UsernameFacts.
Import Text TextFacts.

Lemma make_username_join (x : string) :
  make_username x = join "." (map capitalize (split x)).
Proof.
  unfold make_username. rewrite split_strip.
  rewrite filter_truthy_tokens by apply split_tokens.
  destruct (split x); reflexivity.
Qed.

Lemma nonspace_upper (c : ascii) : nonspace (upper c) = nonspace c.
Proof. destruct c as [[] [] [] [] [] [] [] []]; vm_compute; reflexivity. Qed.

Lemma nonspace_lower (c : ascii) : nonspace (lower c) = nonspace c.
Proof. destruct c as [[] [] [] [] [] [] [] []]; vm_compute; reflexivity. Qed.

Lemma nonspace_map_lower (s : string) :
  all_chars nonspace (map_chars lower s) = all_chars nonspace s.
Proof.
  induction s as [|c s IH]; simpl; [reflexivity|].
  now rewrite nonspace_lower, IH.
Qed.

Lemma capitalize_token (t : string) :
  is_token t = true -> is_token (capitalize t) = true.
Proof.
  unfold is_token. destruct t as [|c t]; [discriminate|]. simpl.
  now rewrite nonspace_upper, nonspace_map_lower.
Qed.

Lemma join_tokens_nonspace (l : list string) :
  Forall (fun t => is_token t = true) l ->
  all_chars nonspace (join "." l) = true.
Proof.
  unfold join. induction 1 as [|t l Ht Hl IH]; [reflexivity|].
  unfold is_token in Ht. apply andb_true_iff in Ht as [_ Ht].
  destruct l as [|t' l]; [exact Ht|].
  change (String.concat "." (t :: t' :: l))
    with (t +:+ "." +:+ String.concat "." (t' :: l)).
  rewrite !all_chars_app, Ht, IH. reflexivity.
Qed.

Lemma make_username_nonspace (x : string) :
  all_chars nonspace (make_username x) = true.
Proof.
  rewrite make_username_join. apply join_tokens_nonspace.
  apply Forall_map. eapply Forall_impl; [apply split_tokens|].
  intros t. apply capitalize_token.
Qed.

Lemma lstrip_nonspace (s : string) :
  all_chars nonspace s = true -> lstrip s = s.
Proof.
  destruct s as [|c s]; [reflexivity|]. simpl. unfold nonspace at 1.
  intros H. apply andb_true_iff in H as [Hc _].
  apply negb_true_iff in Hc. now rewrite Hc.
Qed.

Lemma rstrip_nonspace (s : string) :
  all_chars nonspace s = true -> rstrip s = s.
Proof.
  induction s as [|c s IH]; [reflexivity|]. simpl. unfold nonspace at 1.
  intros H. apply andb_true_iff in H as [Hc Hs].
  apply negb_true_iff in Hc. rewrite IH, Hc by assumption.
  now rewrite andb_false_r.
Qed.

Lemma strip_nonspace (s : string) :
  all_chars nonspace s = true -> strip s = s.
Proof.
  intros H. unfold strip. now rewrite lstrip_nonspace, rstrip_nonspace.
Qed.

Lemma lstrip_spaces (s : string) :
  filter_chars nonspace s = "" -> lstrip s = "".
Proof.
  induction s as [|c s IH]; [reflexivity|]. simpl. unfold nonspace at 1.
  destruct (isspace c); simpl; [exact IH | discriminate].
Qed.

Lemma join_cons_nonempty (t : string) (l : list string) :
  t <> "" -> join "." (t :: l) <> "".
Proof.
  intros Ht. unfold join. destruct l; simpl.
  - exact Ht.
  - destruct t; [congruence | discriminate].
Qed.

Lemma make_username_empty (x : string) :
  make_username x = "" <-> strip x = "".
Proof.
  split.
  - rewrite make_username_join. intros H.
    assert (Hs : split x = []).
    { pose proof (split_tokens x) as Htok.
      destruct (split x) as [|t l]; [reflexivity|]. exfalso.
      cbn [map] in H. revert H. apply join_cons_nonempty.
      apply Forall_cons in Htok as [Ht _]. unfold is_token in Ht.
      destruct t; [discriminate | discriminate]. }
    pose proof (split_from_chars x "") as Hc. fold (split x) in Hc.
    rewrite Hs in Hc. cbn in Hc. symmetry in Hc.
    unfold strip. now rewrite (lstrip_spaces x Hc).
  - intros H. unfold make_username. now rewrite H.
Qed.

Lemma after_colon_username (u : string) :
  label_value ("Username: " +:+ u) = strip u.
Proof. reflexivity. Qed.

Lemma after_colon_email (m : string) :
  label_value ("Email: " +:+ m) = strip m.
Proof. reflexivity. Qed.

End UsernameFacts.

(** The derived user name holds no white space, so stripping leaves it as
    it is; it is empty exactly when the full name is blank (empty or white
    space only); and white space around the full name does not change
    it. *)
Theorem make_username_no_white_space (full_name : string) :
  Text.all_chars Text.nonspace (make_username full_name) = true
  /\ Text.strip (make_username full_name) = make_username full_name
  /\ (make_username full_name = "" <-> Text.strip full_name = "")
  /\ make_username (Text.strip full_name) = make_username full_name.
Proof.
  split; [apply UsernameFacts.make_username_nonspace|].
  split; [apply UsernameFacts.strip_nonspace, UsernameFacts.make_username_nonspace|].
  split; [apply UsernameFacts.make_username_empty|].
  now rewrite !UsernameFacts.make_username_join, TextFacts.split_strip.
Qed.

(** The copy buttons of the two labels.  After [update_derived] the text
    that the copy button of the user name label copies is the derived user
    name of the full name typed, and the one of the e-mail label is that
    user name followed by [@totalassist.co.uk]; both are empty when the
    full name is blank.  A colon inside the user name does no harm: the
    label text is cut at its first colon only. *)
Theorem label_copy_gives_derived_value (ent_full : string) :
  label_value (update_derived ent_full).1 = make_username ent_full
  /\ label_value (update_derived ent_full).2
     = (if Text.truthy (Text.strip ent_full)
        then make_username ent_full +:+ "@totalassist.co.uk"
        else "").
Proof.
  unfold update_derived. cbv zeta.
  assert (Hu : make_username (Text.strip ent_full) = make_username ent_full).
  { now rewrite !UsernameFacts.make_username_join, TextFacts.split_strip. }
  destruct (Text.truthy (Text.strip ent_full)) eqn:Hfull; cbn [fst snd].
  - rewrite Hu, UsernameFacts.after_colon_username, UsernameFacts.after_colon_email.
    split.
    + apply UsernameFacts.strip_nonspace, UsernameFacts.make_username_nonspace.
    + apply UsernameFacts.strip_nonspace.
      rewrite TextFacts.all_chars_app, UsernameFacts.make_username_nonspace.
      reflexivity.
  - split; [|reflexivity].
    apply SearchFacts.truthy_false_empty in Hfull.
    symmetry. apply UsernameFacts.make_username_empty. exact Hfull.
Qed.

(* ===================================================================== *)
(** * The fragments the program builds: properties *)
(* ===================================================================== *)

Module FragmentFacts.
Import Text TextFacts EncoderFacts Clip ClipFacts.

Lemma escape_char_quiet (c : ascii) (rest : string) :
  all_chars quiet_char (escape_char c +:+ rest) = all_chars quiet_char rest.
Proof. destruct c as [[] [] [] [] [] [] [] []]; reflexivity. Qed.

Lemma escape_text_quiet (s : string) : quiet (escape_text s).
Proof.
  unfold quiet. induction s as [|c s IH]; [reflexivity|].
  cbn [escape_text]. now rewrite escape_char_quiet.
Qed.

Lemma format_fragment_pieces (lines : list string) :
  format_html_lines_for_fragment lines
  = concat_all (map (fun raw => encode_line (rstrip_nl raw)) lines).
Proof.
  unfold format_html_lines_for_fragment. cbv zeta.
  now rewrite join_empty_sep, fold_fragment_step.
Qed.

(** ** Texts that cannot hold the start of a comment *)

Lemma first_bang_app (a b : string) :
  first_bang (a +:+ b) = if is_empty a then first_bang b else first_bang a.
Proof. destruct a; reflexivity. Qed.

Lemma tame_app (a b : string) : tame a -> tame b -> tame (a +:+ b).
Proof.
  unfold tame. intros [Ha Ea] [Hb Eb].
  induction a as [|c a IH]; [now split|].
  destruct a as [|d a].
  - cbn in Ea. cbn [String.append no_lt_bang]. rewrite Ea, Hb. cbn.
    split; [reflexivity|]. destruct b; [exact Ea | exact Eb].
  - cbn [no_lt_bang] in Ha. apply andb_true_iff in Ha as [Hc Ha].
    destruct (IH Ha Ea) as [H1 H2].
    rewrite sapp_cons. split.
    + cbn [no_lt_bang]. rewrite H1, andb_true_r.
      rewrite first_bang_app. exact Hc.
    + exact H2.
Qed.

Lemma tame_concat (l : list string) : Forall tame l -> tame (concat_all l).
Proof.
  induction 1 as [|s l Hs _ IH]; [now split|].
  cbn [concat_all]. now apply tame_app.
Qed.

Lemma quiet_tame (s : string) : quiet s -> tame s.
Proof.
  unfold quiet, tame. induction s as [|c s IH]; [now split|].
  cbn [all_chars]. intros H. apply andb_true_iff in H as [Hc Hs].
  destruct (IH Hs) as [H1 H2].
  assert (Hlt : Ascii.eqb c "<" = false).
  { unfold quiet_char in Hc. apply negb_true_iff in Hc.
    now repeat (apply orb_false_iff in Hc as [Hc _]). }
  split.
  - cbn [no_lt_bang]. now rewrite Hlt, H1.
  - destruct s; [exact Hlt | exact H2].
Qed.

Lemma encode_line_tame (line : string) : tame (encode_line line).
Proof.
  unfold encode_line. pose proof (quiet_tame _ (escape_text_quiet line)) as Hq.
  destruct (is_empty line); [now split|].
  destruct (is_heading line).
  - apply (tame_app "<b><u>"); [now split|].
    apply tame_app; [exact Hq|]. now split.
  - apply tame_app; [exact Hq | now split].
Qed.

Lemma format_fragment_tame (lines : list string) :
  tame (format_html_lines_for_fragment lines).
Proof.
  rewrite format_fragment_pieces. apply tame_concat, Forall_map, Forall_forall.
  intros raw _. apply encode_line_tame.
Qed.

(** ** The bytes of a text *)

Lemma utf8_char_byte (c : ascii) : utf8_char (code c) = Ok (utf8_byte c).
Proof. destruct c as [[] [] [] [] [] [] [] []]; vm_compute; reflexivity. Qed.

Lemma encode_utf8_text (s : string) :
  encode_utf8 (codepoints s) = Ok (utf8_text s).
Proof.
  induction s as [|c s IH]; [reflexivity|].
  cbn [codepoints encode_utf8]. rewrite utf8_char_byte, IH. reflexivity.
Qed.

(** The bytes of a character: the character itself, or two bytes that are
    neither [<] nor [!]. *)
Lemma utf8_byte_cases (c : ascii) :
  utf8_byte c = String c ""
  \/ exists b1 b2,
       utf8_byte c = String b1 (String b2 "")
       /\ Ascii.eqb c "<" = false /\ Ascii.eqb c "!" = false
       /\ Ascii.eqb b1 "<" = false /\ Ascii.eqb b2 "<" = false
       /\ Ascii.eqb b1 "!" = false.
Proof.
  destruct c as [[] [] [] [] [] [] [] []];
    first [ left; reflexivity
          | right; eexists _, _; repeat split; reflexivity ].
Qed.

Lemma first_bang_utf8 (s : string) : first_bang (utf8_text s) = first_bang s.
Proof.
  destruct s as [|c s]; [reflexivity|].
  unfold utf8_text. cbn [expand].
  destruct (utf8_byte_cases c) as [->|(b1 & b2 & -> & Hc & Hb & H1 & H2 & H3)].
  - reflexivity.
  - cbn. now rewrite H3, Hb.
Qed.

Lemma no_lt_bang_utf8 (s : string) : no_lt_bang (utf8_text s) = no_lt_bang s.
Proof.
  induction s as [|c s IH]; [reflexivity|].
  unfold utf8_text. cbn [expand]. fold (utf8_text s).
  destruct (utf8_byte_cases c) as [->|(b1 & b2 & -> & Hc & Hb & H1 & H2 & H3)].
  - cbn [String.append no_lt_bang]. now rewrite first_bang_utf8, IH.
  - cbn [String.append no_lt_bang]. rewrite H1, H2, Hc, IH. reflexivity.
Qed.

Lemma marker_not_here (c : ascii) (s : string) :
  Ascii.eqb c "<" && first_bang s = false ->
  String.prefix end_fragment_marker (String c s) = false.
Proof.
  intros H. unfold end_fragment_marker. cbn [String.prefix].
  destruct (ascii_dec "<" c) as [<-|]; [|reflexivity].
  cbn in H. destruct s as [|d s]; [reflexivity|].
  cbn [String.prefix]. destruct (ascii_dec "!" d) as [<-|]; [discriminate|reflexivity].
Qed.

(** A text that holds no [<!] does not hold the end marker. *)
Lemma no_marker (s : string) :
  no_lt_bang s = true -> find s end_fragment_marker = -1.
Proof.
  intros H. unfold find.
  assert (E : find_index end_fragment_marker s = None).
  { induction s as [|c s IH]; [reflexivity|].
    cbn [no_lt_bang] in H. apply andb_true_iff in H as [Hc Hs].
    apply negb_true_iff in Hc.
    rewrite find_index_next by now apply marker_not_here.
    now rewrite IH. }
  now rewrite E.
Qed.

(** The container of bytes that do not hold the end marker. *)
Lemma container_located (fb : string) :
  find fb end_fragment_marker = -1 ->
  97 + slen (html_body fb) < 10 ^ 8 ->
  let o := body_offsets fb in
  let container :=
    header (start_html o) (end_html o) (start_fragment o) (end_fragment o)
    +:+ html_body fb in
  header_offsets container = Offsets 97 (slen container) 129 (129 + slen fb)
  /\ locates container fb.
Proof.
  intros Hfind Hsize. cbv zeta.
  rewrite (body_offsets_plain fb Hfind).
  cbn [start_html end_html start_fragment end_fragment].
  pose proof (html_body_length fb) as Hbody.
  assert (Hlen : slen (html_body fb) = 64 + slen fb) by (unfold slen; lia).
  pose proof (slen_nonneg fb) as Hnn.
  assert (H1 : 0 <= 97 < 10 ^ 8) by lia.
  assert (H2 : 0 <= 97 + slen (html_body fb) < 10 ^ 8) by lia.
  assert (H3 : 0 <= 129 < 10 ^ 8) by lia.
  assert (H4 : 0 <= 129 + slen fb < 10 ^ 8) by lia.
  pose proof (fmt08_length _ H1) as L1.
  pose proof (fmt08_length _ H2) as L2.
  pose proof (fmt08_length _ H3) as L3.
  pose proof (fmt08_length _ H4) as L4.
  assert (Hcont : slen (header 97 (97 + slen (html_body fb)) 129
                          (129 + slen fb) +:+ html_body fb)
                  = 97 + slen (html_body fb)).
  { rewrite slen_app. unfold slen at 1.
    rewrite header_length by assumption. lia. }
  assert (Hoff : header_offsets
            (header 97 (97 + slen (html_body fb)) 129 (129 + slen fb)
             +:+ html_body fb)
          = Offsets 97 (97 + slen (html_body fb)) 129 (129 + slen fb)).
  { unfold header_offsets, offset_at.
    rewrite container_laid_out.
    rewrite layout_start_html, layout_end_html,
      layout_start_fragment, layout_end_fragment by assumption.
    rewrite !number_fmt08 by lia. reflexivity. }
  split; [now rewrite Hoff, Hcont|].
  unfold locates. rewrite Hoff.
  cbn [start_html end_html start_fragment end_fragment].
  unfold slice. rewrite container_laid_out. split.
  - replace (Z.to_nat 97) with 97%nat by reflexivity.
    rewrite layout_body by assumption.
    replace (Z.to_nat (97 + slen (html_body fb) - 97))
      with (String.length (html_body fb)) by (unfold slen; lia).
    apply take_all.
  - replace (Z.to_nat 129) with (97 + 32)%nat by reflexivity.
    rewrite drop_add, layout_body by assumption.
    rewrite html_body_fragment.
    replace (Z.to_nat (129 + slen fb - 129)) with (String.length fb)
      by (unfold slen; lia).
    apply take_app_length.
Qed.

(** The container of a text of the 8-bit alphabet that holds no [<!]. *)
Lemma tame_text_located (frag : string) :
  tame frag ->
  fragment_bytes (OfStr (codepoints frag)) = Ok (utf8_text frag)
  /\ find (utf8_text frag) end_fragment_marker = -1
  /\ (97 + slen (html_body (utf8_text frag)) < 10 ^ 8 ->
      exists container,
        _make_cf_html_bytes (OfStr (codepoints frag)) = Ok container
        /\ header_offsets container
           = Offsets 97 (slen container) 129 (129 + slen (utf8_text frag))
        /\ locates container (utf8_text frag)).
Proof.
  intros [Ht _].
  assert (Hfind : find (utf8_text frag) end_fragment_marker = -1).
  { apply no_marker. now rewrite no_lt_bang_utf8. }
  split; [apply encode_utf8_text|]. split; [exact Hfind|].
  intros Hsize. unfold _make_cf_html_bytes.
  cbn [fragment_bytes]. rewrite encode_utf8_text. cbn [mbind res_bind].
  eexists. split; [reflexivity|].
  apply (container_located _ Hfind Hsize).
Qed.

End FragmentFacts.

(** The encoder lets no markup of the lines through.  The escaped text of
    a line holds no angle bracket and no quote, whatever the line holds;
    and the fragment of any lines never holds [<!]: a [<] of the fragment
    is followed by what the encoder itself wrote after it. *)
Theorem escape_html_leaves_no_markup (s : string) (lines : list string) :
  quiet (escape_html s)
  /\ no_lt_bang (format_html_lines_for_fragment lines) = true.
Proof.
  split.
  - unfold escape_html. rewrite EncoderFacts.html_escape_pointwise.
    apply FragmentFacts.escape_text_quiet.
  - apply FragmentFacts.format_fragment_tame.
Qed.

(** The fragments the program hands to the container builder are always
    located right.  Whatever text is copied (the preview, a selection of
    it, or the document of a record), the fragment the handler builds from
    it, encoded, does not hold the end marker, because the encoder escapes
    every [<] of the text; so the builder's first-occurrence search finds
    the marker it wrote itself, and, the container being shorter than ten
    to the eighth bytes, the offsets of the header give back the document
    skeleton and exactly the bytes of the fragment. *)
Theorem copied_fragments_are_located (txt : string) (sel : option string) :
  forall frag,
    frag = html_fragment (div_request txt)
    \/ frag = html_fragment (copy_preview_action txt)
    \/ frag = html_fragment (preview_copy_handler sel txt) ->
    Clip.fragment_bytes (Clip.OfStr (Clip.codepoints frag)) = Ok (utf8_text frag)
    /\ Clip.find (utf8_text frag) Clip.end_fragment_marker = -1
    /\ (97 + slen (Clip.html_body (utf8_text frag)) < 10 ^ 8 ->
        exists container,
          Clip._make_cf_html_bytes (Clip.OfStr (Clip.codepoints frag))
          = Ok container
          /\ Clip.header_offsets container
             = Clip.Offsets 97 (slen container) 129 (129 + slen (utf8_text frag))
          /\ Clip.locates container (utf8_text frag)).
Proof.
  intros frag H. apply FragmentFacts.tame_text_located.
  assert (Hdiv : forall t, tame (html_fragment (div_request t))).
  { intros t. unfold div_request. cbn [html_fragment].
    apply (FragmentFacts.tame_app "<div>"); [now split|].
    apply FragmentFacts.tame_app;
      [apply FragmentFacts.format_fragment_tame | now split]. }
  destruct H as [-> | [-> | ->]].
  - apply Hdiv.
  - apply Hdiv.
  - unfold preview_copy_handler. cbn [html_fragment].
    apply FragmentFacts.format_fragment_tame.
Qed.

(** A text that itself holds the end marker: the fragment built from it
    holds the marker escaped, and its container is located right. *)
Lemma copied_fragments_are_located_witness :
  let frag := html_fragment (div_request "a<!--EndFragment-->b") in
  frag = "<div>a&lt;!--EndFragment--&gt;b<br/></div>"
  /\ Clip.find (utf8_text frag) Clip.end_fragment_marker = -1
  /\ exists container,
       Clip._make_cf_html_bytes (Clip.OfStr (Clip.codepoints frag)) = Ok container
       /\ Clip.header_offsets container
          = Clip.Offsets 97 (slen container) 129 (129 + slen (utf8_text frag))
       /\ Clip.locates container (utf8_text frag).
Proof.
  cbv zeta. split; [vm_compute; reflexivity|].
  destruct (copied_fragments_are_located "a<!--EndFragment-->b" None
              (html_fragment (div_request "a<!--EndFragment-->b"))
              (or_introl eq_refl)) as (_ & H2 & H3).
  split; [exact H2|]. apply H3. vm_compute. reflexivity.
Defined.

(* ===================================================================== *)
(** * From a record to the request for the clipboard: properties *)
(* ===================================================================== *)

Module CopyFacts.
Import Text TextFacts EncoderFacts.

Lemma splitlines_from_line (k : bool) (l cur rest : string) :
  no_linebreak l ->
  splitlines_from k cur (l +:+ String "010" rest)
  = (cur +:+ l +:+ (if k then nl else "")) :: splitlines_from k "" rest.
Proof.
  unfold no_linebreak. revert cur. induction l as [|c l IH]; intros cur Hl.
  - cbn [String.append splitlines_from].
    change (is_linebreak "010") with true. cbv iota.
    destruct rest as [|c' rest'].
    + destruct k; reflexivity.
    + change (Ascii.eqb "010" "013") with false. cbn [andb].
      destruct k; reflexivity.
  - cbn [all_chars] in Hl. apply andb_true_iff in Hl as [Hc Hl].
    apply negb_true_iff in Hc.
    rewrite sapp_cons. cbn [splitlines_from]. rewrite Hc.
    rewrite (IH _ Hl). now rewrite !sapp_assoc.
Qed.

(** The lines of a text, each with its ending, make up the text. *)
Lemma splitlines_from_keepends (n : nat) (s cur : string) :
  (String.length s <= n)%nat ->
  concat_all (splitlines_from true cur s) = cur +:+ s.
Proof.
  revert s cur. induction n as [|n IH]; intros s cur Hn.
  - destruct s; [|cbn in Hn; lia]. cbn [splitlines_from].
    destruct cur; cbn; now rewrite ?sapp_nil_r.
  - destruct s as [|c s].
    + cbn [splitlines_from]. destruct cur; cbn; now rewrite ?sapp_nil_r.
    + cbn [String.length] in Hn. cbn [splitlines_from].
      destruct (is_linebreak c).
      * destruct s as [|c' s'].
        -- cbn [concat_all]. now rewrite sapp_nil_r.
        -- cbn [String.length] in Hn.
           destruct (Ascii.eqb c "013" && Ascii.eqb c' "010");
             cbn [concat_all]; rewrite IH by (cbn [String.length]; lia);
             now rewrite !sapp_assoc.
      * rewrite IH by lia. now rewrite sapp_assoc.
Qed.

Lemma splitlines_keepends (s : string) :
  concat_all (splitlines true s) = s.
Proof. apply (splitlines_from_keepends (String.length s)). lia. Qed.

(** The lines of a text made of lines. *)
Lemma splitlines_unlines (ls : list string) :
  Forall no_linebreak ls ->
  splitlines true (unlines ls) = map (fun l => l +:+ nl) ls.
Proof.
  unfold splitlines, unlines.
  induction 1 as [|l ls Hl _ IH]; [reflexivity|].
  cbn [map concat_all]. rewrite sapp_assoc.
  change (nl +:+ concat_all (map (fun l0 => l0 +:+ nl) ls))
    with (String "010" (concat_all (map (fun l0 => l0 +:+ nl) ls))).
  rewrite (splitlines_from_line true l "" _ Hl), IH. reflexivity.
Qed.

Lemma rstrip_nl_app_nl (l : string) : rstrip_nl (l +:+ nl) = rstrip_nl l.
Proof.
  induction l as [|c l IH]; [reflexivity|].
  rewrite sapp_cons. cbn [rstrip_nl]. now rewrite IH.
Qed.

Lemma rstrip_nl_no_linebreak (l : string) : no_linebreak l -> rstrip_nl l = l.
Proof.
  unfold no_linebreak. induction l as [|c l IH]; [reflexivity|].
  cbn [all_chars rstrip_nl]. intros H. apply andb_true_iff in H as [Hc Hl].
  rewrite (IH Hl).
  destruct (Ascii.eqb_spec c "010") as [->|]; [discriminate|].
  now rewrite andb_false_r.
Qed.

(** The fragment of a text made of lines is the encoding of the lines. *)
Lemma fragment_of_lines (ls : list string) :
  Forall no_linebreak ls ->
  format_html_lines_for_fragment (splitlines true (unlines ls)) = encode ls.
Proof.
  intros H. rewrite (splitlines_unlines ls H).
  unfold format_html_lines_for_fragment, encode. cbv zeta.
  rewrite join_empty_sep, fold_fragment_step. cbn [app]. rewrite map_map.
  f_equal. apply map_ext_Forall. eapply Forall_impl; [exact H|].
  intros l Hl. cbn beta. now rewrite rstrip_nl_app_nl, rstrip_nl_no_linebreak.
Qed.

Lemma linebreak_is_space (c : ascii) :
  nonspace c = true -> negb (is_linebreak c) = true.
Proof. destruct c as [[] [] [] [] [] [] [] []]; vm_compute; congruence. Qed.

Lemma nonspace_no_linebreak (s : string) :
  all_chars nonspace s = true -> no_linebreak s.
Proof.
  unfold no_linebreak. induction s as [|c s IH]; [reflexivity|].
  cbn [all_chars]. intros H. apply andb_true_iff in H as [Hc Hs].
  now rewrite (linebreak_is_space c Hc), IH.
Qed.

Lemma no_linebreak_app (a b : string) :
  no_linebreak a -> no_linebreak b -> no_linebreak (a +:+ b).
Proof. unfold no_linebreak. intros Ha Hb. now rewrite all_chars_app, Ha, Hb. Qed.

Lemma shown_username_no_linebreak (rec : pydict) :
  no_linebreak (field rec "username") -> no_linebreak (shown_username rec).
Proof.
  intros H. unfold shown_username. destruct (truthy _); [exact H|].
  apply nonspace_no_linebreak, UsernameFacts.make_username_nonspace.
Qed.

Lemma document_lines_no_linebreak (rec : pydict) :
  one_line_fields rec -> Forall no_linebreak (document_lines rec).
Proof.
  unfold one_line_fields, FORMAT_KEYS. intros H.
  repeat (apply Forall_cons in H as [? H]).
  pose proof (shown_username_no_linebreak rec ltac:(assumption)).
  unfold document_lines.
  repeat (apply Forall_cons; split;
          [repeat (apply no_linebreak_app; try assumption); reflexivity|]).
  constructor.
Qed.

Lemma format_email_text_document (rec : pydict) :
  text_record rec -> format_email_text rec = Ok (unlines (document_lines rec)).
Proof.
  intros Htext. unfold text_record, FORMAT_KEYS in Htext. simpl in Htext.
  repeat (apply andb_true_iff in Htext as [? Htext]).
  unfold format_email_text.
  rewrite FormatterFacts.username_choice by assumption. simpl.
  unfold document_lines. f_equal.
  apply FormatterFacts.template_lines.
Qed.

End CopyFacts.

(** A double click on a row copies the document of the record at the
    number of the row.  Where the record file loads, the record at that
    number is a record of text and none of its fields holds a line break,
    the plain text handed on is the document of the formatter and the
    fragment is the encoding of its eighteen lines between [<div>] and
    [</div>]: the three headings in bold and underline, every field
    escaped.  Without a selection, or with a number outside the list,
    nothing is copied. *)
Theorem on_tree_double_copies_document (fs : files) (DB_FILE : path)
    (ds : list pydict) :
  loads_as fs DB_FILE ds ->
  (forall idx rec,
      0 <= idx -> ds !! Z.to_nat idx = Some rec ->
      text_record rec -> one_line_fields rec ->
      on_tree_double fs DB_FILE (Some idx)
      = (fs, Ok (Some (ClipRequest
                         ("<div>" +:+ encode (document_lines rec) +:+ "</div>")
                         (unlines (document_lines rec))))))
  /\ (forall idx, ~ 0 <= idx < Z.of_nat (length ds) ->
        on_tree_double fs DB_FILE (Some idx) = (fs, Ok None))
  /\ on_tree_double fs DB_FILE None = (fs, Ok None).
Proof.
  intros (text & Hdb & Hload). split; [|split].
  - intros idx rec Hidx Hrec Htext Hone. unfold on_tree_double.
    rewrite (HandlerFacts.load_records_present _ _ _ Hdb), Hload.
    pose proof (lookup_lt_Some _ _ _ Hrec) as Hlt.
    replace ((0 <=? idx) && (idx <? Z.of_nat (length ds))) with true
      by (symmetry; apply andb_true_iff; split;
          [apply Z.leb_le | apply Z.ltb_lt]; lia).
    rewrite Hrec, (CopyFacts.format_email_text_document rec Htext).
    cbn [mbind res_bind]. unfold div_request. cbv zeta.
    rewrite CopyFacts.fragment_of_lines
      by now apply CopyFacts.document_lines_no_linebreak.
    reflexivity.
  - intros idx Hi. unfold on_tree_double.
    rewrite (HandlerFacts.load_records_present _ _ _ Hdb), Hload.
    replace ((0 <=? idx) && (idx <? Z.of_nat (length ds))) with false;
      [reflexivity|].
    symmetry. apply andb_false_iff.
    destruct (Z.leb_spec 0 idx); [right; apply Z.ltb_ge; lia | now left].
  - reflexivity.
Qed.

(** The file holds Bob's record and Ann's; a double click on the second
    row copies Ann's document. *)
Lemma on_tree_double_copies_document_witness :
  on_tree_double disk_with_bob_ann DEFAULT_DB (Some 1)
  = (disk_with_bob_ann,
     Ok (Some (ClipRequest
                 ("<div>" +:+ encode (document_lines (to_dict ann)) +:+ "</div>")
                 (unlines (document_lines (to_dict ann)))))).
Proof.
  apply (proj1 (on_tree_double_copies_document disk_with_bob_ann DEFAULT_DB
                  (map to_dict [bob; ann])
                  (ex_intro _ _ (conj eq_refl eq_refl))) 1 (to_dict ann)).
  - lia.
  - reflexivity.
  - reflexivity.
  - unfold one_line_fields. repeat constructor.
Defined.

(* ===================================================================== *)
(** * The clipboard transaction: what it calls *)
(* ===================================================================== *)

Module TransactionFacts.
Import Clip Win.

Lemma catch_returns {A} (m h : M A) (w : world) :
  (forall w', exists a, (h w').1 = Ok a) -> exists a, (catch m h w).1 = Ok a.
Proof.
  intros Hh. unfold catch. destruct (m w) as [[a|e] w']; [now exists a|].
  apply Hh.
Qed.

Lemma tk_fallback_returns (html_fragment : list Z) plain_text (w : world) :
  (tk_fallback html_fragment plain_text w).1 = Ok tt.
Proof.
  unfold tk_fallback, catch.
  destruct ((_ ← tk TkClear; tk (TkAppend _)) w) as [[[]|e] w']; reflexivity.
Qed.

End TransactionFacts.

(** [set_html_clipboard_fragment] never raises: whatever the platform,
    whether [win32clipboard] can be imported, whatever the fragment and
    the plain text, and whichever calls fail, it returns. *)
Theorem set_html_clipboard_fragment_returns (is_windows have_pywin32 : bool)
    (html_fragment : list Z) (plain_text : option (list Z)) (w : Win.world) :
  (Win.set_html_clipboard_fragment is_windows have_pywin32 html_fragment
     plain_text w).1 = Ok tt.
Proof.
  unfold Win.set_html_clipboard_fragment.
  unfold mbind at 1, Win.M_bind.
  destruct is_windows.
  - unfold Win.catch at 1.
    destruct ((_ ← Win.pywin32_branch have_pywin32 html_fragment plain_text;
               mret true) w) as [[b|e] w1].
    + destruct b; [reflexivity | apply TransactionFacts.tk_fallback_returns].
    + unfold Win.catch at 1.
      destruct ((_ ← Win._set_clipboard_html_win32 html_fragment plain_text;
                 mret true) w1) as [[b|e'] w2].
      * destruct b; [reflexivity | apply TransactionFacts.tk_fallback_returns].
      * cbn. apply TransactionFacts.tk_fallback_returns.
  - cbn. apply TransactionFacts.tk_fallback_returns.
Qed.

(** The transaction through [ctypes], when it returns normally, has made
    exactly these calls, in this order, whatever the answers of the
    platform were: the format is registered, the clipboard opened and
    emptied; a block of the length of the container plus one is allocated,
    locked, filled, unlocked and handed over as HTML; a block of the length
    of the UTF-16 text plus two is allocated, locked, filled with the text
    and two zero bytes, unlocked and handed over as text; the clipboard is
    closed.  No block is freed by the program on that path.  Where every
    call succeeds and both payloads can be encoded, the transaction does
    return normally. *)
Theorem win32_transaction_calls (html_fragment : list Z)
    (plain_text : option (list Z)) (data text : string) :
  Clip._make_cf_html_bytes (Clip.OfStr html_fragment) = Ok data ->
  Win.encode_utf16le (default (Win.strip_tags html_fragment) plain_text)
  = Ok text ->
  (forall answers w',
      Win._set_clipboard_html_win32 html_fragment plain_text
        (Win.World false [] answers) = (Ok tt, w') ->
      Win.clipboard_open w' = false
      /\ rev (Win.calls w')
         = [Win.RegisterClipboardFormat; Win.OpenClipboard; Win.EmptyClipboard;
            Win.GlobalAlloc (slen data + 1); Win.GlobalLock; Win.Memmove data;
            Win.GlobalUnlock; Win.SetClipboardData true;
            Win.GlobalAlloc (slen text + 2); Win.GlobalLock; Win.Memmove text;
            Win.Memmove (String "000" (String "000" EmptyString));
            Win.GlobalUnlock; Win.SetClipboardData false; Win.CloseClipboard])
  /\ (Win._set_clipboard_html_win32 html_fragment plain_text Win.calm).1 = Ok tt.
Proof.
  intros Hdata Htext. split.
  - intros answers w'. unfold Win._set_clipboard_html_win32. cbv zeta.
    rewrite Hdata, Htext.
    cbv [mbind Win.M_bind Win.lift Win.api_ Win.api Win.open_clipboard
         Win.close_clipboard Win.finally Win.put_payload Win.memmoves
         Win.set_open Win.raise mret Win.M_ret].
    cbn [Win.answers Win.calls Win.clipboard_open].
    repeat (destruct answers as [|[] answers]; cbn -[slen Z.add];
            try (intros H; first [discriminate
                                 | injection H as <-; split; reflexivity])).
  - unfold Win._set_clipboard_html_win32. cbv zeta.
    rewrite Hdata, Htext. reflexivity.
Qed.

(** The fragment [<b>Hi</b>] in a world where every call succeeds. *)
Lemma win32_transaction_calls_witness :
  (Win._set_clipboard_html_win32 Win.bold_fragment None Win.calm).1 = Ok tt.
Proof.
  refine (proj2 (win32_transaction_calls Win.bold_fragment None _ _ _ _)).
  - vm_compute. reflexivity.
  - vm_compute. reflexivity.
Defined.

(** Which route a copy takes.  On a platform other than Windows the
    clipboard of the platform is never called: the Tk clipboard is
    cleared and, unless that fails, given the plain text (the text handed
    in, or the fragment with its tags stripped when none is).  On Windows,
    where every call succeeds: with [win32clipboard] importable and a
    fragment that can be encoded, the clipboard is opened, emptied, given
    the container and the text and closed, and neither [ctypes] nor Tk is
    used; without [win32clipboard], the transaction through [ctypes] does
    the work and Tk is not used. *)
Theorem clipboard_route_taken (html_fragment : list Z)
    (plain_text : option (list Z)) :
  let plain := default (Win.strip_tags html_fragment) plain_text in
  (forall have_pywin32 o answers,
      let w := (Win.set_html_clipboard_fragment false have_pywin32
                  html_fragment plain_text (Win.World o [] answers)).2 in
      Win.clipboard_open w = o
      /\ (Win.calls w = [Win.TkAppend plain; Win.TkClear]
          \/ Win.calls w = [Win.TkClear]))
  /\ (forall data,
        Clip._make_cf_html_bytes (Clip.OfStr html_fragment) = Ok data ->
        Win.set_html_clipboard_fragment true true html_fragment plain_text
          Win.calm
        = (Ok tt,
           Win.World false
             (rev [Win.OpenClipboard; Win.EmptyClipboard;
                   Win.RegisterClipboardFormat; Win.SetClipboardData true;
                   Win.SetClipboardData false; Win.CloseClipboard]) []))
  /\ (forall data text,
        Clip._make_cf_html_bytes (Clip.OfStr html_fragment) = Ok data ->
        Win.encode_utf16le plain = Ok text ->
        Win.set_html_clipboard_fragment true false html_fragment plain_text
          Win.calm
        = (Ok tt,
           Win.World false
             (rev [Win.RegisterClipboardFormat; Win.OpenClipboard;
                   Win.EmptyClipboard;
                   Win.GlobalAlloc (slen data + 1); Win.GlobalLock;
                   Win.Memmove data; Win.GlobalUnlock;
                   Win.SetClipboardData true;
                   Win.GlobalAlloc (slen text + 2); Win.GlobalLock;
                   Win.Memmove text;
                   Win.Memmove (String "000" (String "000" EmptyString));
                   Win.GlobalUnlock; Win.SetClipboardData false;
                   Win.CloseClipboard]) [])).
Proof.
  cbv zeta. split; [|split].
  - intros have_pywin32 o answers.
    unfold Win.set_html_clipboard_fragment, Win.tk_fallback, Win.catch, Win.tk.
    cbv [mbind Win.M_bind Win.api mret Win.M_ret Win.raise].
    cbn [Win.answers Win.calls Win.clipboard_open].
    destruct answers as [|[] [|[] answers]]; cbn; auto.
  - intros data Hdata.
    unfold Win.set_html_clipboard_fragment, Win.catch, Win.pywin32_branch.
    cbn [negb]. unfold Win.pywin.
    cbv [mbind Win.M_bind Win.api mret Win.M_ret Win.raise Win.set_open Win.lift
         Win.calm].
    cbn [Win.answers Win.calls Win.clipboard_open]. rewrite Hdata. reflexivity.
  - intros data text Hdata Htext.
    unfold Win.set_html_clipboard_fragment, Win.catch, Win.pywin32_branch.
    cbn [negb].
    unfold Win._set_clipboard_html_win32. cbv zeta.
    cbv [mbind Win.M_bind Win.lift Win.api_ Win.api Win.open_clipboard
         Win.close_clipboard Win.finally Win.put_payload Win.memmoves
         Win.set_open Win.raise mret Win.M_ret Win.calm].
    cbn [Win.answers Win.calls Win.clipboard_open].
    rewrite Hdata, Htext. reflexivity.
Qed.

(** The fragment [<b>Hi</b>] on Windows with [win32clipboard]. *)
Lemma clipboard_route_taken_witness :
  Win.set_html_clipboard_fragment true true Win.bold_fragment None Win.calm
  = (Ok tt,
     Win.World false
       (rev [Win.OpenClipboard; Win.EmptyClipboard;
             Win.RegisterClipboardFormat; Win.SetClipboardData true;
             Win.SetClipboardData false; Win.CloseClipboard]) []).
Proof.
  refine (proj1 (proj2 (clipboard_route_taken Win.bold_fragment None)) _ _).
  vm_compute. reflexivity.
Defined.

(* ===================================================================== *)
(** * The settings store written and read again: properties *)
(* ===================================================================== *)

Module PathFacts.
Import Text TextFacts.

Lemma components_run (t cur rest : string) :
  slash_free t -> components cur (t +:+ rest) = components (cur +:+ t) rest.
Proof.
  unfold slash_free. revert cur. induction t as [|c t IH]; intros cur Ht.
  - now rewrite sapp_nil_r.
  - cbn [all_chars] in Ht. apply andb_true_iff in Ht as [Hc Ht].
    apply negb_true_iff in Hc. rewrite sapp_cons. cbn [components].
    rewrite Hc, (IH _ Ht). now rewrite sapp_assoc.
Qed.

Lemma components_slash_free (s cur : string) :
  slash_free cur -> Forall slash_free (components cur s).
Proof.
  revert cur. induction s as [|c s IH]; intros cur Hcur; cbn [components].
  - now constructor.
  - destruct (Ascii.eqb c "/") eqn:Hc.
    + constructor; [exact Hcur | now apply IH].
    + apply IH. unfold slash_free in *.
      rewrite all_chars_app, Hcur. cbn. now rewrite Hc.
Qed.

Lemma join_cons2 (t t' : string) (l : list string) :
  join "/" (t :: t' :: l) = t +:+ String "/" (join "/" (t' :: l)).
Proof. reflexivity. Qed.

Lemma components_join (t : string) (l : list string) (cur : string) :
  Forall slash_free (t :: l) ->
  components cur (join "/" (t :: l)) = (cur +:+ t) :: l.
Proof.
  revert t cur. induction l as [|t' l IH]; intros t cur H.
  - apply Forall_cons in H as [Ht _]. cbn [join String.concat].
    rewrite <- (sapp_nil_r t) at 1. now rewrite components_run.
  - apply Forall_cons in H as [Ht H]. rewrite join_cons2.
    rewrite (components_run t cur _ Ht). cbn [components].
    change (Ascii.eqb "/" "/") with true. cbv iota.
    now rewrite (IH t' "" H).
Qed.

Lemma join_snoc (bs : list string) (last : string) :
  join "/" (bs ++ [last])
  = match bs with
    | [] => last
    | _ => join "/" bs +:+ String "/" last
    end.
Proof.
  induction bs as [|b bs IH]; [reflexivity|].
  destruct bs as [|b' bs]; [reflexivity|].
  cbn [app] in IH |- *. rewrite join_cons2, IH, join_cons2.
  rewrite sapp_assoc. reflexivity.
Qed.

Lemma filter_keeps (f : string -> bool) (l : list string) :
  Forall (fun x => f x = true) l -> filter f l = l.
Proof.
  induction 1 as [|x l Hx _ IH]; [reflexivity|].
  rewrite filter_cons, IH.
  destruct (decide (f x)) as [|n]; [reflexivity|].
  exfalso. apply n. now rewrite Hx.
Qed.

Lemma filter_kept (f : string -> bool) (l : list string) :
  Forall (fun x => f x = true) (filter f l).
Proof.
  induction l as [|x l IH]; [constructor|].
  rewrite filter_cons. destruct (decide (f x)) as [y|n]; [|exact IH].
  constructor; [|exact IH]. now apply Is_true_true.
Qed.

Lemma filter_Forall (f : string -> bool) (Q : string -> Prop) (l : list string) :
  Forall Q l -> Forall Q (filter f l).
Proof.
  induction 1 as [|x l Hx _ IH]; [constructor|].
  rewrite filter_cons. destruct (decide (f x)); [now constructor | exact IH].
Qed.

Lemma root_of_is_root (p : string) : is_root (root_of p).
Proof.
  unfold root_of. destruct (leading_slashes p) as [|[|[|n]]]; constructor.
Qed.

Lemma part_ok_head (t : string) :
  part_ok t = true -> slash_free t ->
  exists c rest, t = String c rest /\ Ascii.eqb c "/" = false.
Proof.
  unfold slash_free. destruct t as [|c rest]; [discriminate|].
  intros _ H. cbn [all_chars] in H. apply andb_true_iff in H as [Hc _].
  apply negb_true_iff in Hc. eauto.
Qed.

Lemma root_of_app (r t rest : string) :
  is_root r -> part_ok t = true -> slash_free t ->
  root_of (r +:+ t +:+ rest) = r.
Proof.
  intros Hr Ht Hs. destruct (part_ok_head t Ht Hs) as (c & t' & -> & Hc).
  unfold root_of. destruct Hr; cbn [String.append leading_slashes];
    change (Ascii.eqb "/" "/") with true; cbv iota; now rewrite Hc.
Qed.

Lemma components_root (r X : string) :
  is_root r ->
  filter part_ok (components "" (r +:+ X)) = filter part_ok (components "" X).
Proof. intros Hr. destruct Hr; reflexivity. Qed.

Lemma join_head (t : string) (l : list string) :
  exists rest, join "/" (t :: l) = t +:+ rest.
Proof.
  destruct l as [|t' l].
  - exists "". cbn. now rewrite sapp_nil_r.
  - eexists. apply join_cons2.
Qed.

(** The path of a root and components that [pathlib] keeps. *)
Lemma Path_build (r : string) (bs : list string) (last : string) :
  is_root r ->
  Forall slash_free (bs ++ [last]) ->
  Forall (fun x => part_ok x = true) (bs ++ [last]) ->
  Path (r +:+ join "/" (bs ++ [last])) = MkPath (r +:+ join "/" bs) last.
Proof.
  intros Hr Hs Hok. unfold Path. cbv zeta.
  change (filter _ (components "" (r +:+ join "/" (bs ++ [last]))))
    with (filter part_ok (components "" (r +:+ join "/" (bs ++ [last])))).
  rewrite (components_root r _ Hr).
  destruct (bs ++ [last]) as [|t l] eqn:E; [now destruct bs|].
  rewrite (components_join t l "" Hs). cbn [String.append].
  rewrite (filter_keeps part_ok (t :: l) Hok).
  rewrite <- E, rev_unit, rev_involutive.
  f_equal. rewrite E.
  destruct (join_head t l) as [rest ->].
  apply Forall_cons in Hs as [Hst _]. apply Forall_cons in Hok as [Hot _].
  f_equal. now apply root_of_app.
Qed.

Lemma Path_rootonly (r : string) :
  is_root r -> Path (if is_empty r then "." else r) = MkPath r "".
Proof. intros Hr. destruct Hr; reflexivity. Qed.

(** What a path is made of. *)
Lemma Path_shape (s : string) :
  exists r, is_root r
    /\ (Path s = MkPath r ""
        \/ exists bs last,
             Forall slash_free (bs ++ [last])
             /\ Forall (fun x => part_ok x = true) (bs ++ [last])
             /\ Path s = MkPath (r +:+ join "/" bs) last).
Proof.
  exists (root_of s). split; [apply root_of_is_root|].
  unfold Path. cbv zeta.
  change (filter _ (components "" s)) with (filter part_ok (components "" s)).
  pose proof (filter_kept part_ok (components "" s)) as Hok.
  pose proof (filter_Forall part_ok slash_free (components "" s)
                (components_slash_free s "" eq_refl)) as Hs.
  destruct (rev (filter part_ok (components "" s))) as [|last before] eqn:E.
  - now left.
  - right. exists (rev before), last.
    assert (E' : filter part_ok (components "" s) = rev before ++ [last]).
    { rewrite <- (rev_involutive (filter _ _)), E. reflexivity. }
    rewrite <- E'. split; [exact Hs|]. split; [exact Hok|]. reflexivity.
Qed.

Lemma eqb_app_self (r c : _) (J : string) :
  is_root r -> String.eqb (r +:+ String c J) r = false.
Proof. intros Hr. destruct Hr; cbn; rewrite ?Ascii.eqb_refl; reflexivity. Qed.

Lemma path_str_build (r : string) (bs : list string) (last : string) :
  is_root r ->
  Forall slash_free (bs ++ [last]) ->
  Forall (fun x => part_ok x = true) (bs ++ [last]) ->
  path_str (MkPath (r +:+ join "/" bs) last) = r +:+ join "/" (bs ++ [last]).
Proof.
  intros Hr Hs Hok. unfold path_str. cbn [name parent].
  assert (Hlast : is_empty last = false).
  { apply Forall_app in Hok as [_ Hl]. apply Forall_cons in Hl as [Hl _].
    unfold part_ok in Hl. destruct last; [discriminate | reflexivity]. }
  rewrite Hlast, join_snoc. destruct bs as [|b bs].
  - cbn [join String.concat]. rewrite sapp_nil_r.
    destruct Hr; reflexivity.
  - cbn [app] in Hs, Hok.
    apply Forall_cons in Hs as [Hsb _]. apply Forall_cons in Hok as [Hob _].
    destruct (part_ok_head b Hob Hsb) as (c & b' & -> & Hc).
    destruct (join_head (String c b') bs) as [rest Hj]. rewrite Hj.
    rewrite sapp_cons, is_empty_app. cbn [is_empty andb]. rewrite andb_false_r.
    assert (Hroot : root_of (r +:+ String c (b' +:+ rest)) = r).
    { rewrite <- sapp_cons. apply root_of_app; try assumption. }
    rewrite Hroot, (eqb_app_self r c _ Hr).
    now rewrite !sapp_assoc.
Qed.

(** A path written as text and read again is the same path. *)
Lemma Path_str_round_trip (s : string) : Path (path_str (Path s)) = Path s.
Proof.
  destruct (Path_shape s) as (r & Hr & [E|(bs & last & Hs & Hok & E)]);
    rewrite E.
  - unfold path_str. cbn [name parent is_empty]. now apply Path_rootonly.
  - rewrite (path_str_build r bs last Hr Hs Hok). now apply Path_build.
Qed.

Lemma path_str_truthy (p : path) : truthy (path_str p) = true.
Proof.
  unfold path_str, truthy.
  destruct (is_empty (name p)) eqn:Hn.
  - destruct (is_empty (parent p)) eqn:Hp; [reflexivity | now rewrite Hp].
  - destruct (is_empty (parent p)) eqn:Hp; [now rewrite Hn|].
    destruct (String.eqb _ _); rewrite !is_empty_app, Hp; reflexivity.
Qed.

Lemma load_config_saved (s : string) (cfg : settings)
    (exists_ : path -> res bool) (db : path) (found : bool) :
  exists_ (Path s) = Ok found ->
  load_config (save_config true cfg (Path s)) exists_ db = Path s.
Proof.
  intros He.
  unfold save_config, load_config, load_config_try.
  cbn [json_get last_member String.eqb Ascii.eqb Bool.eqb default from_option id
       mbind res_bind json_truthy json_path].
  rewrite path_str_truthy.
  cbn [mbind res_bind]. rewrite Path_str_round_trip, He.
  cbn [mbind res_bind]. now destruct found.
Qed.

End PathFacts.

(** A settings store that was written is read back.  After [save_config]
    has written the store for a record file, [load_config], at the next
    start, selects that same record file, whether or not a file exists
    there; [str] and [pathlib.Path] undo each other on every path. *)
Theorem saved_config_is_loaded (s : string) (cfg : settings)
    (exists_ : path -> res bool) (db : path) (found : bool) :
  exists_ (Path s) = Ok found ->
  Path (path_str (Path s)) = Path s
  /\ load_config (save_config true cfg (Path s)) exists_ db = Path s.
Proof.
  intros He. split.
  - apply PathFacts.Path_str_round_trip.
  - now apply (PathFacts.load_config_saved s cfg exists_ db found).
Qed.

(** The record file [/srv/otm/team records.csv], not yet created. *)
Lemma saved_config_is_loaded_witness :
  load_config (save_config true NoFile (Path "/srv/otm/./team records.csv"))
              (fun _ => Ok false) DEFAULT_DB
  = Path "/srv/otm/team records.csv".
Proof.
  exact (proj2 (saved_config_is_loaded "/srv/otm/./team records.csv" NoFile
                  (fun _ => Ok false) DEFAULT_DB false eq_refl)).
Defined.

(** Locate CSV.  With a file chosen, the record file becomes the path of
    the choice and the settings store names it, so that the next start
    selects it.  A chosen file that holds anything is left as it is, byte
    for byte; a chosen file that is missing or empty is given the header
    line alone and then loads as no record; no other file is touched.  A
    cancelled dialog changes nothing. *)
Theorem locate_csv_keeps_data (fs : files) (cfg : settings) (DB_FILE : path)
    (p : string) :
  p <> "" ->
  let out := locate_csv true fs cfg DB_FILE p in
  out.2 = Path p
  /\ (forall exists_ db found,
        exists_ (Path p) = Ok found -> load_config out.1.2 exists_ db = Path p)
  /\ (forall text, fs !! Path p = Some text -> text <> "" -> out.1.1 = fs)
  /\ (fs !! Path p = None \/ fs !! Path p = Some "" ->
      out.1.1 = <[Path p := header_text]> fs
      /\ load_records out.1.1 (Path p) = (out.1.1, Ok []))
  /\ (forall q, q <> Path p -> out.1.1 !! q = fs !! q)
  /\ locate_csv true fs cfg DB_FILE "" = (fs, cfg, DB_FILE).
Proof.
  intros Hp. cbv zeta. unfold locate_csv.
  destruct p as [|c p]; [congruence|]. cbn [Text.truthy Text.is_empty negb].
  cbv zeta. set (np := Path (String c p)).
  cbn [fst snd]. split; [reflexivity|].
  split.
  { intros exists_ db found He.
    exact (PathFacts.load_config_saved (String c p) cfg exists_ db found He). }
  split.
  { intros text Hf Hne. rewrite Hf.
    destruct text as [|d text]; [congruence|].
    replace (slen (String d text) =? 0) with false
      by (symmetry; apply Z.eqb_neq; rewrite TextFacts.slen_cons;
          pose proof (TextFacts.slen_nonneg text); lia).
    now apply (StoreFacts.ensure_db_present _ _ (String d text)). }
  assert (Hnew : ensure_db (write (open_w fs np) np header_text) np
                 = <[np := header_text]> fs).
  { rewrite StoreFacts.open_write.
    apply (StoreFacts.ensure_db_present _ _ header_text), lookup_insert_eq. }
  split.
  { intros Hf.
    assert (E : ensure_db
                  match fs !! np with
                  | Some text =>
                      if slen text =? 0
                      then write (open_w fs np) np header_text else fs
                  | None => write (open_w fs np) np header_text
                  end np = <[np := header_text]> fs).
    { destruct Hf as [-> | ->]; exact Hnew. }
    rewrite E. split; [reflexivity|].
    rewrite (HandlerFacts.load_records_present _ _ header_text)
      by apply lookup_insert_eq.
    now rewrite HandlerFacts.header_loads_nothing. }
  split; [|reflexivity].
  intros q Hq. rewrite StoreFacts.ensure_db_other by exact Hq.
  destruct (fs !! np) as [text|] eqn:Hf.
  - destruct (slen text =? 0); [|reflexivity].
    rewrite StoreFacts.open_write. now apply lookup_insert_ne.
  - rewrite StoreFacts.open_write. now apply lookup_insert_ne.
Qed.

(** The chosen file holds Bob's record and Ann's. *)
Lemma locate_csv_keeps_data_witness :
  (locate_csv true disk_with_bob_ann NoFile (Path "other.csv")
     "onboarding_db.csv").2 = Path "onboarding_db.csv"
  /\ (locate_csv true disk_with_bob_ann NoFile (Path "other.csv")
        "onboarding_db.csv").1.1 = disk_with_bob_ann.
Proof.
  destruct (locate_csv_keeps_data disk_with_bob_ann NoFile (Path "other.csv")
              "onboarding_db.csv" ltac:(discriminate))
    as (H1 & _ & H3 & _).
  split; [exact H1|].
  apply (H3 (header_text +:+ rows_text [bob; ann])); [reflexivity|].
  vm_compute. discriminate.
Defined.

(* ===================================================================== *)
(** * Saving: what is touched *)
(* ===================================================================== *)

Module FootprintFacts.
Import Text TextFacts StoreFacts.

Lemma writerows_keeps_file records (fs : files) (p : path) fault :
  is_Some (fs !! p) -> is_Some ((writerows fs p records fault).1 !! p).
Proof.
  revert fs fault. induction records as [|d records IH]; intros fs fault H.
  - exact H.
  - cbn [writerows]. destruct (Csv.dict_to_list FIELDS d); [|exact H].
    destruct fault as [[|n]|]; [exact H| |];
      apply IH; unfold write; rewrite lookup_insert_eq; eauto.
Qed.

End FootprintFacts.

(** [save_records] touches two files at most: the record file and the
    temporary file beside it.  Whatever the records and whatever fails,
    every other file is as it was.  When the save completes by the
    replacement, the temporary file is gone. *)
Theorem save_records_footprint env (fs : files) (DB_FILE : path)
    (records : list pydict) :
  (forall tmp q,
      with_suffix DB_FILE ".tmp" = Ok tmp -> q <> DB_FILE -> q <> tmp ->
      (save_records env fs DB_FILE records).1 !! q = fs !! q)
  /\ (forall tmp,
        with_suffix DB_FILE ".tmp" = Ok tmp -> tmp <> DB_FILE ->
        replace_fails env = false ->
        (save_records env fs DB_FILE records).2 = Ok tt ->
        (save_records env fs DB_FILE records).1 !! tmp = None).
Proof.
  split.
  - intros tmp q Htmp Hdb Hq. unfold save_records. rewrite Htmp.
    rewrite StoreFacts.open_write.
    destruct (writerows (<[tmp := header_text]> (ensure_db fs DB_FILE)) tmp
                records (write_fault env)) as [fs1 r] eqn:Hw.
    assert (H1 : fs1 !! q = fs !! q).
    { replace fs1 with (writerows (<[tmp := header_text]> (ensure_db fs DB_FILE))
                          tmp records (write_fault env)).1 by now rewrite Hw.
      rewrite StoreFacts.writerows_other by exact Hq.
      rewrite lookup_insert_ne by congruence.
      now apply StoreFacts.ensure_db_other. }
    destruct r as [[]|e]; [|exact H1].
    destruct (replace_fails env).
    + rewrite StoreFacts.open_write, StoreFacts.writerows_other by exact Hdb.
      rewrite lookup_insert_ne by congruence. exact H1.
    + cbn [fst]. unfold os_replace. destruct (fs1 !! tmp); [|exact H1].
      rewrite lookup_insert_ne by congruence.
      rewrite lookup_delete_ne by congruence. exact H1.
  - intros tmp Htmp Hne Hrep. unfold save_records. rewrite Htmp, Hrep.
    rewrite StoreFacts.open_write.
    pose proof (FootprintFacts.writerows_keeps_file records
                  (<[tmp := header_text]> (ensure_db fs DB_FILE)) tmp
                  (write_fault env)) as Hk.
    destruct (writerows (<[tmp := header_text]> (ensure_db fs DB_FILE)) tmp
                records (write_fault env)) as [fs1 r] eqn:Hw.
    destruct r as [[]|e]; [|discriminate]. intros _. cbn [fst] in *.
    destruct Hk as [text Hk]; [rewrite lookup_insert_eq; eauto|].
    unfold os_replace. rewrite Hk.
    rewrite lookup_insert_ne by congruence. apply lookup_delete_eq.
Qed.

(** Bob's record is saved beside a file of notes: the notes are as they
    were and no temporary file is left. *)
Lemma save_records_footprint_witness :
  (save_records no_fault disk_with_notes DEFAULT_DB [to_dict bob]).1
    !! Path "notes.txt" = Some "call Ann"
  /\ (save_records no_fault disk_with_notes DEFAULT_DB [to_dict bob]).1
       !! Path "onboarding_db.tmp" = None.
Proof.
  destruct (save_records_footprint no_fault disk_with_notes DEFAULT_DB
              [to_dict bob]) as (H1 & H2).
  split.
  - rewrite (H1 (Path "onboarding_db.tmp") (Path "notes.txt")).
    + reflexivity.
    + vm_compute. reflexivity.
    + vm_compute. discriminate.
    + vm_compute. discriminate.
  - apply H2.
    + vm_compute. reflexivity.
    + vm_compute. discriminate.
    + reflexivity.
    + vm_compute. reflexivity.
Defined.

(* ===================================================================== *)
(** * The formatter on any record, and the preview *)
(* ===================================================================== *)

(** The formatter raises in one case only.  For every record dict,
    whatever its keys and values, [format_email_text] returns a text
    unless no user name is stored (the key is missing or holds nothing)
    and the full name holds [None]; then, and only then, it raises, and
    the error is [AttributeError]. *)
Theorem format_email_text_raises_iff (rec : pydict) :
  let no_user := negb (value_truthy (dict_get rec "username" PyNone)) in
  let no_name := bool_decide (named rec !! "full_name" = Some PyNone) in
  (no_user && no_name = true -> format_email_text rec = Raise AttributeError)
  /\ (no_user && no_name = false -> exists txt, format_email_text rec = Ok txt).
Proof.
  cbv zeta. unfold format_email_text.
  destruct (value_truthy (dict_get rec "username" PyNone)) eqn:Hu; cbn [negb andb].
  - split; [discriminate|]. intros _. cbn [mbind res_bind]. eauto.
  - destruct (named rec !! "full_name") as [[|full]|] eqn:Hf.
    + assert (Hg : dict_get rec "full_name" (PyStr "") = PyNone)
        by (unfold dict_get; now rewrite Hf).
      rewrite Hg. split; [reflexivity|].
      rewrite bool_decide_eq_true_2 by reflexivity. discriminate.
    + assert (Hg : dict_get rec "full_name" (PyStr "") = PyStr full)
        by (unfold dict_get; now rewrite Hf).
      rewrite Hg.
      split; [rewrite bool_decide_eq_false_2 by congruence; discriminate|].
      intros _. cbn [mbind res_bind]. eauto.
    + assert (Hg : dict_get rec "full_name" (PyStr "") = PyStr "")
        by (unfold dict_get; now rewrite Hf).
      rewrite Hg.
      split; [rewrite bool_decide_eq_false_2 by congruence; discriminate|].
      intros _. cbn [mbind res_bind]. eauto.
Qed.

Lemma format_email_text_raises_iff_witness :
  format_email_text
    (PyDict (dict_of_pairs [("pc_name", PyStr "PC-01"); ("full_name", PyNone)]) None)
  = Raise AttributeError.
Proof.
  apply (proj1 (format_email_text_raises_iff
                  (PyDict (dict_of_pairs [("pc_name", PyStr "PC-01");
                                          ("full_name", PyNone)]) None))).
  reflexivity.
Defined.

(** The preview shows what Save stores.  [show_preview] never raises, and
    putting the text in line by line loses nothing of it.  With the three
    required entries filled in, the preview holds the document of the
    record that Save builds from the same form: the eighteen lines of the
    template with the stripped entries and the derived user name.  With a
    blank full name it holds the document of the sample record, or
    nothing. *)
Theorem show_preview_matches_saved_record (f : form) (b : bool) :
  (exists txt, show_preview f b = Ok txt)
  /\ (forall r, entry_record f = Some r ->
        show_preview f b = format_email_text (to_dict r)
        /\ show_preview f b = Ok (unlines (document_lines (to_dict r)))
        /\ shown_username (to_dict r) = make_username (ent_full f))
  /\ (Text.strip (ent_full f) = "" ->
      show_preview f true = format_email_text sample
      /\ show_preview f false = Ok "").
Proof.
  assert (Hkeep : forall d, text_record d ->
            (txt ← format_email_text d;
             Ok (Text.concat_all (splitlines true txt)))
            = format_email_text d
            /\ format_email_text d = Ok (unlines (document_lines d))).
  { intros d Hd. rewrite (CopyFacts.format_email_text_document d Hd).
    cbn [mbind res_bind]. now rewrite CopyFacts.splitlines_keepends. }
  split; [|split].
  - unfold show_preview. cbv zeta.
    destruct (negb (Text.truthy (Text.strip (ent_full f)))).
    + destruct b; [|cbn; eauto].
      destruct (Hkeep sample eq_refl) as [-> ->]. eauto.
    + destruct (Hkeep (preview_record f) eq_refl) as [-> ->]. eauto.
  - intros r Hr. unfold entry_record in Hr. cbv zeta in Hr.
    destruct (Text.truthy (Text.strip (ent_full f))) eqn:Hfull; [|discriminate].
    destruct (negb _) eqn:Hreq in Hr; [discriminate|].
    injection Hr as <-.
    set (r := {| full_name := Text.strip (ent_full f);
                 username := make_username (Text.strip (ent_full f));
                 password := Text.strip (ent_pass f);
                 pc_name := Text.strip (ent_pc f);
                 ext := Text.strip (ent_ext f);
                 ddi := Text.strip (ent_ddi f);
                 email := make_username (Text.strip (ent_full f))
                          +:+ "@totalassist.co.uk" |}).
    destruct (Hkeep (to_dict r) eq_refl) as [E1 E2].
    assert (E : show_preview f b = format_email_text (to_dict r)).
    { unfold show_preview. cbv zeta. rewrite Hfull. cbn [negb]. exact E1. }
    split; [exact E|]. split; [now rewrite E|].
    unfold shown_username.
    change (field (to_dict r) "username")
      with (make_username (Text.strip (ent_full f))).
    change (field (to_dict r) "full_name") with (Text.strip (ent_full f)).
    rewrite !UsernameFacts.make_username_join, TextFacts.split_strip.
    destruct (Text.truthy (Text.join _ _)); reflexivity.
  - intros H. unfold show_preview. cbv zeta. rewrite H. cbn [Text.truthy Text.is_empty negb].
    split; [|reflexivity]. exact (proj1 (Hkeep sample eq_refl)).
Qed.

Lemma show_preview_matches_saved_record_witness :
  show_preview (Form " bob ray" "PC-02" "Pw2!" "202" "01234 567202") true
  = Ok (unlines (document_lines (to_dict bob_typed))).
Proof.
  apply (proj1 (proj2 (show_preview_matches_saved_record
                         (Form " bob ray" "PC-02" "Pw2!" "202" "01234 567202")
                         true)) bob_typed).
  vm_compute. reflexivity.
Defined.

(** A blank required entry stops Save and Update before the disk is
    touched.  The form has a record exactly when its full name, PC name
    and password are not blank (an entry of white space only is blank);
    without one, both handlers warn and leave the files as they are, the
    record file is not even created. *)
Theorem blank_required_entry_writes_nothing env (fs : files)
    (DB_FILE : path) (f : form) :
  (entry_record f = None
   <-> Text.strip (ent_full f) = "" \/ Text.strip (ent_pc f) = ""
       \/ Text.strip (ent_pass f) = "")
  /\ (entry_record f = None ->
      save_new env fs DB_FILE f = (fs, Warned "Missing fields")
      /\ forall i, update_record env fs DB_FILE (Some i) f
                   = (fs, Warned "Missing fields")).
Proof.
  split.
  - unfold entry_record. cbv zeta. unfold Text.truthy.
    destruct (Text.strip (ent_full f)), (Text.strip (ent_pc f)),
      (Text.strip (ent_pass f)); cbn; split; intros H;
      try discriminate; try tauto;
      destruct H as [H|[H|H]]; discriminate.
  - intros H. unfold save_new, update_record. rewrite H. now split.
Qed.

Lemma blank_required_entry_writes_nothing_witness :
  save_new no_fault ∅ DEFAULT_DB (Form "Ann Lee" "PC-01" "   " "" "")
  = (∅, Warned "Missing fields").
Proof.
  apply (proj2 (blank_required_entry_writes_nothing no_fault ∅ DEFAULT_DB
                  (Form "Ann Lee" "PC-01" "   " "" ""))).
  reflexivity.
Defined.

(* ===================================================================== *)
(** * [strip_tags]: properties *)
(* ===================================================================== *)

Module StripFacts.
Import Text TextFacts EncoderFacts Clip Win.

(** ** Fuel *)

Lemma skip_spaces_length (s : list Z) :
  (length (skip_spaces s) <= length s)%nat.
Proof.
  induction s as [|cp s IH]; [reflexivity|]. cbn [skip_spaces].
  destruct (re_space cp); cbn [length]; lia.
Qed.

Lemma match_br_other (cp : Z) (s : list Z) :
  (cp =? 60) = false -> match_br (cp :: s) = None.
Proof.
  intros H. unfold match_br. destruct cp as [|p|p]; try reflexivity.
  do 6 (destruct p as [p|p|]; try reflexivity). discriminate.
Qed.

Lemma match_br_shorter (s rest : list Z) :
  match_br s = Some rest -> (length rest < length s)%nat.
Proof.
  destruct s as [|c0 s0]; [discriminate|].
  destruct (c0 =? 60) eqn:Hc;
    [|intros H; rewrite (match_br_other c0 s0 Hc) in H; discriminate].
  apply Z.eqb_eq in Hc. subst c0.
  destruct s0 as [|b [|r s1]]; try discriminate.
  cbn [match_br].
  destruct (((b =? 98) || (b =? 66)) && ((r =? 114) || (r =? 82)));
    [|discriminate].
  pose proof (skip_spaces_length s1) as Hl.
  destruct (skip_spaces s1) as [|x l]; [discriminate|].
  intros H. cbn [length] in *.
  destruct x as [|p|p]; try discriminate.
  do 6 (destruct p as [p|p|]; try discriminate);
    first [ injection H as <-; lia
          | destruct l as [|y l]; [discriminate|];
            destruct y as [|p|p]; try discriminate;
            do 6 (destruct p as [p|p|]; try discriminate);
            injection H as <-; cbn [length] in *; lia ].
Qed.

Lemma sub_br_fuel (f1 f2 : nat) (s : list Z) :
  (length s <= f1)%nat -> (length s <= f2)%nat -> sub_br f1 s = sub_br f2 s.
Proof.
  revert f2 s. induction f1 as [|f1 IH]; intros f2 s H1 H2.
  - destruct s; [|cbn in H1; lia]. destruct f2; reflexivity.
  - destruct f2 as [|f2].
    + destruct s; [reflexivity | cbn in H2; lia].
    + cbn [sub_br]. destruct (match_br s) as [rest|] eqn:Hm.
      * apply match_br_shorter in Hm. f_equal. apply IH; lia.
      * destruct s as [|cp s']; [reflexivity|]. cbn [length] in *.
        f_equal. apply IH; lia.
Qed.

Lemma after_gt_shorter (s rest : list Z) (n : nat) :
  after_gt s = Some (n, rest) -> (length rest < length s)%nat.
Proof.
  revert n. induction s as [|cp s IH]; intros n; [discriminate|].
  cbn [after_gt length]. destruct (cp =? 62).
  - intros H. injection H as _ <-. lia.
  - destruct (after_gt s) as [[m r]|]; [|discriminate].
    intros H. injection H as _ <-. specialize (IH m eq_refl). lia.
Qed.

Lemma sub_tags_fuel (f1 f2 : nat) (s : list Z) :
  (length s <= f1)%nat -> (length s <= f2)%nat -> sub_tags f1 s = sub_tags f2 s.
Proof.
  revert f2 s. induction f1 as [|f1 IH]; intros f2 s H1 H2.
  - destruct s; [|cbn in H1; lia]. destruct f2; reflexivity.
  - destruct f2 as [|f2].
    + destruct s; [reflexivity | cbn in H2; lia].
    + cbn [sub_tags]. destruct s as [|cp s']; [reflexivity|].
      cbn [length] in *.
      destruct (cp =? 60).
      * destruct (after_gt s') as [[[|n] rest]|] eqn:Ha.
        -- f_equal. apply IH; lia.
        -- apply after_gt_shorter in Ha. apply IH; lia.
        -- f_equal. apply IH; lia.
      * f_equal. apply IH; lia.
Qed.

(** ** One step *)

Lemma br_step (s rest : list Z) :
  match_br s = Some rest ->
  sub_br (length s) s = 10 :: sub_br (length rest) rest.
Proof.
  intros Hm. pose proof (match_br_shorter _ _ Hm) as Hl.
  destruct (length s) as [|n] eqn:E; [lia|].
  cbn [sub_br]. rewrite Hm. f_equal. apply sub_br_fuel; lia.
Qed.

Lemma br_copy (cp : Z) (s : list Z) :
  match_br (cp :: s) = None ->
  sub_br (length (cp :: s)) (cp :: s) = cp :: sub_br (length s) s.
Proof. intros Hm. cbn [length sub_br]. now rewrite Hm. Qed.

Lemma tags_copy (cp : Z) (s : list Z) :
  (cp =? 60) = false ->
  sub_tags (length (cp :: s)) (cp :: s) = cp :: sub_tags (length s) s.
Proof. intros H. cbn [length sub_tags]. now rewrite H. Qed.

Lemma tags_cut (s rest : list Z) (n : nat) :
  after_gt s = Some (S n, rest) ->
  sub_tags (length (60 :: s)) (60 :: s) = sub_tags (length rest) rest.
Proof.
  intros Ha. pose proof (after_gt_shorter _ _ _ Ha) as Hl.
  cbn [length sub_tags]. change (60 =? 60) with true. cbv iota.
  rewrite Ha. apply sub_tags_fuel; lia.
Qed.

(** ** Runs without [<] *)

Lemma br_run (q rest : list Z) :
  Forall (fun cp => (cp =? 60) = false) q ->
  sub_br (length (q ++ rest)) (q ++ rest)
  = q ++ sub_br (length rest) rest.
Proof.
  induction 1 as [|cp q Hcp _ IH]; [reflexivity|].
  cbn [app]. rewrite br_copy by now apply match_br_other.
  now rewrite IH.
Qed.

Lemma tags_run (q rest : list Z) :
  Forall (fun cp => (cp =? 60) = false) q ->
  sub_tags (length (q ++ rest)) (q ++ rest)
  = q ++ sub_tags (length rest) rest.
Proof.
  induction 1 as [|cp q Hcp _ IH]; [reflexivity|].
  cbn [app]. rewrite tags_copy by exact Hcp. now rewrite IH.
Qed.

(** A text that holds no [<] is left as it is. *)
Lemma strip_tags_plain (s : list Z) :
  Forall (fun cp => (cp =? 60) = false) s -> strip_tags s = s.
Proof.
  intros H. unfold strip_tags.
  assert (E : sub_br (length s) s = s).
  { rewrite <- (List.app_nil_r s) at 1 2. rewrite (br_run s [] H).
    cbn. now rewrite List.app_nil_r. }
  rewrite E. rewrite <- (List.app_nil_r s) at 1 2. rewrite (tags_run s [] H).
  cbn. now rewrite List.app_nil_r.
Qed.

(** ** The pieces of a fragment *)

Lemma codepoints_app (a b : string) :
  codepoints (a +:+ b) = codepoints a ++ codepoints b.
Proof. induction a as [|c a IH]; [reflexivity|]. cbn. now rewrite IH. Qed.

Lemma quiet_char_code (c : ascii) :
  quiet_char c = true -> (code c =? 60) = false.
Proof. destruct c as [[] [] [] [] [] [] [] []]; vm_compute; congruence. Qed.

Lemma quiet_codepoints (q : string) :
  quiet q -> Forall (fun cp => (cp =? 60) = false) (codepoints q).
Proof.
  unfold quiet. induction q as [|c q IH]; [constructor|].
  cbn [all_chars codepoints]. intros H. apply andb_true_iff in H as [Hc Hq].
  constructor; [now apply quiet_char_code | now apply IH].
Qed.

Lemma encode_line_form (line : string) :
  encode_line line
  = (if is_heading line
     then "<b><u>" +:+ escape_text line +:+ "</u></b>"
     else escape_text line) +:+ "<br/>".
Proof.
  unfold encode_line. destruct line as [|c line]; [reflexivity|].
  cbn [is_empty]. destruct (is_heading _); [|reflexivity].
  now rewrite !sapp_assoc.
Qed.

Ltac br_tag :=
  repeat (rewrite <- app_comm_cons);
  rewrite br_copy by reflexivity;
  repeat (rewrite br_copy by (apply match_br_other; reflexivity)).

Lemma br_of_line (line : string) (rest : list Z) :
  sub_br (length (codepoints (encode_line line) ++ rest))
         (codepoints (encode_line line) ++ rest)
  = br_line line ++ sub_br (length rest) rest.
Proof.
  pose proof (quiet_codepoints _ (FragmentFacts.escape_text_quiet line)) as Hq.
  rewrite encode_line_form. unfold br_line.
  assert (Hbr : forall R,
            sub_br (length (codepoints "<br/>" ++ R)) (codepoints "<br/>" ++ R)
            = 10 :: sub_br (length R) R).
  { intros R. apply br_step. reflexivity. }
  destruct (is_heading line).
  - rewrite !codepoints_app, <- !List.app_assoc.
    change (codepoints "<b><u>") with [60; 98; 62; 60; 117; 62].
    change (codepoints "</u></b>") with [60; 47; 117; 62; 60; 47; 98; 62].
    cbn [app]. br_tag. br_tag. rewrite (br_run _ _ Hq).
    br_tag. br_tag. rewrite Hbr. reflexivity.
  - rewrite !codepoints_app, <- !List.app_assoc.
    rewrite (br_run _ _ Hq). f_equal. apply Hbr.
Qed.

Lemma br_of_lines (ls : list string) (rest : list Z) :
  sub_br (length (codepoints (concat_all (map encode_line ls)) ++ rest))
         (codepoints (concat_all (map encode_line ls)) ++ rest)
  = concat (map br_line ls) ++ sub_br (length rest) rest.
Proof.
  induction ls as [|l ls IH]; [reflexivity|].
  cbn [map concat_all concat]. rewrite codepoints_app, <- !List.app_assoc.
  now rewrite br_of_line, IH.
Qed.

Ltac cut_tag := erewrite tags_cut by reflexivity.

Lemma tags_of_line (line : string) (rest : list Z) :
  sub_tags (length (br_line line ++ rest)) (br_line line ++ rest)
  = codepoints (escape_text line) ++ 10 :: sub_tags (length rest) rest.
Proof.
  pose proof (quiet_codepoints _ (FragmentFacts.escape_text_quiet line)) as Hq.
  unfold br_line. destruct (is_heading line).
  - change (codepoints "<b><u>") with [60; 98; 62; 60; 117; 62].
    change (codepoints "</u></b>") with [60; 47; 117; 62; 60; 47; 98; 62].
    rewrite <- !List.app_assoc. cbn [app].
    cut_tag. cut_tag. rewrite (tags_run _ _ Hq). f_equal.
    cut_tag. cut_tag. now rewrite tags_copy by reflexivity.
  - rewrite <- !List.app_assoc. rewrite (tags_run _ _ Hq). reflexivity.
Qed.

Lemma tags_of_lines (ls : list string) (rest : list Z) :
  sub_tags (length (concat (map br_line ls) ++ rest))
           (concat (map br_line ls) ++ rest)
  = codepoints (unlines (map escape_text ls)) ++ sub_tags (length rest) rest.
Proof.
  induction ls as [|l ls IH]; [reflexivity|].
  cbn [map concat]. rewrite <- !List.app_assoc. rewrite tags_of_line, IH.
  unfold unlines. cbn [map concat_all].
  rewrite !codepoints_app, <- !List.app_assoc. reflexivity.
Qed.

Lemma strip_tags_pieces (ls : list string) :
  strip_tags (codepoints (concat_all (map encode_line ls)))
  = codepoints (unlines (map escape_text ls))
  /\ strip_tags (codepoints ("<div>" +:+ concat_all (map encode_line ls)
                              +:+ "</div>"))
     = codepoints (unlines (map escape_text ls)).
Proof.
  split.
  - assert (E : sub_br (length (codepoints (concat_all (map encode_line ls))))
                       (codepoints (concat_all (map encode_line ls)))
                = concat (map br_line ls) ++ []).
    { rewrite <- (List.app_nil_r (codepoints _)) at 1 2.
      now rewrite br_of_lines. }
    unfold strip_tags. cbv zeta. rewrite !E.
    rewrite tags_of_lines. cbn [length sub_tags]. now rewrite List.app_nil_r.
  - assert (E : sub_br
                  (length (codepoints ("<div>" +:+ concat_all (map encode_line ls)
                                       +:+ "</div>")))
                  (codepoints ("<div>" +:+ concat_all (map encode_line ls)
                               +:+ "</div>"))
                = [60; 100; 105; 118; 62]
                  ++ concat (map br_line ls) ++ [60; 47; 100; 105; 118; 62]).
    { rewrite !codepoints_app.
      change (codepoints "<div>") with [60; 100; 105; 118; 62].
      change (codepoints "</div>") with [60; 47; 100; 105; 118; 62].
      cbn [app]. br_tag. rewrite br_of_lines. br_tag. reflexivity. }
    unfold strip_tags. cbv zeta. rewrite !E. cbn [app].
    cut_tag. rewrite tags_of_lines. cut_tag.
    cbn [length sub_tags]. now rewrite List.app_nil_r.
Qed.

End StripFacts.

(** [strip_tags].  A text that holds no [<] is returned as it is.  Of a
    fragment the encoder built, with or without the [div] around it,
    [strip_tags] returns the escaped lines, each ended by a line feed: the
    tags are gone and every line break marker is a line feed again, but
    the entities stay ([&amp;] is not turned back into [&]), so this is
    the text of the lines only where they hold none of the five escaped
    characters. *)
Theorem strip_tags_of_fragment (lines : list string) :
  let escaped :=
    unlines (map (fun raw => escape_html (Text.rstrip_nl raw)) lines) in
  Win.strip_tags (Clip.codepoints (format_html_lines_for_fragment lines))
  = Clip.codepoints escaped
  /\ Win.strip_tags
       (Clip.codepoints
          ("<div>" +:+ format_html_lines_for_fragment lines +:+ "</div>"))
     = Clip.codepoints escaped
  /\ (forall s, Forall (fun cp => (cp =? 60) = false) s -> Win.strip_tags s = s)
  /\ Win.strip_tags (Clip.codepoints (format_html_lines_for_fragment ["a&b"]))
     = Clip.codepoints ("a&amp;b" +:+ nl).
Proof.
  cbv zeta.
  assert (E : map (fun raw => escape_html (Text.rstrip_nl raw)) lines
              = map escape_text (map Text.rstrip_nl lines)).
  { rewrite map_map. apply map_ext. intros raw. unfold escape_html.
    apply EncoderFacts.html_escape_pointwise. }
  rewrite E, FragmentFacts.format_fragment_pieces.
  rewrite <- (map_map Text.rstrip_nl encode_line).
  destruct (StripFacts.strip_tags_pieces (map Text.rstrip_nl lines)) as [H1 H2].
  split; [exact H1|]. split; [exact H2|].
  split; [apply StripFacts.strip_tags_plain | vm_compute; reflexivity].
Qed.

(** The text [Hi there] holds no tag. *)
Lemma strip_tags_of_fragment_witness :
  Win.strip_tags (Clip.codepoints "Hi there") = Clip.codepoints "Hi there".
Proof.
  apply (proj1 (proj2 (proj2 (strip_tags_of_fragment [])))).
  repeat constructor.
Defined.

(* ===================================================================== *)
(** * Escaping loses nothing; a foreign column stops every save *)
(* ===================================================================== *)

Module EscapeFacts.
Import Text TextFacts.

Lemma escape_char_cases (c : ascii) :
  c = "&"%char \/ c = "<"%char \/ c = ">"%char \/ c = dquote \/ c = "'"%char
  \/ (escape_char c = String c "" /\ c <> "&"%char).
Proof.
  unfold escape_char.
  destruct (Ascii.eqb_spec c "&"); [auto|].
  destruct (Ascii.eqb_spec c "<"); [auto|].
  destruct (Ascii.eqb_spec c ">"); [auto|].
  destruct (Ascii.eqb_spec c dquote); [auto 6|].
  destruct (Ascii.eqb_spec c "'"); [auto 6|].
  do 5 right. now split.
Qed.

Lemma escape_char_head (c d : ascii) (X Y : string) :
  escape_char c +:+ X = escape_char d +:+ Y -> c = d /\ X = Y.
Proof.
  destruct (escape_char_cases c) as [->|[->|[->|[->|[->|[Ec Hc]]]]]];
    destruct (escape_char_cases d) as [->|[->|[->|[->|[->|[Ed Hd]]]]]];
    rewrite ?Ec, ?Ed; cbn; intros H;
    first [ discriminate
          | injection H as H; split; congruence
          | injection H as H1 H2; split; congruence
          | exfalso; injection H as H1 H2; congruence ].
Qed.

Lemma escape_text_injective (a b : string) :
  escape_text a = escape_text b -> a = b.
Proof.
  revert b. induction a as [|c a IH]; intros b H.
  - destruct b as [|d b]; [reflexivity|]. exfalso. cbn [escape_text] in H.
    destruct (escape_char_cases d) as [->|[->|[->|[->|[->|[Ed _]]]]]];
      rewrite ?Ed in H; discriminate.
  - destruct b as [|d b].
    + exfalso. cbn [escape_text] in H.
      destruct (escape_char_cases c) as [->|[->|[->|[->|[->|[Ec _]]]]]];
        rewrite ?Ec in H; discriminate.
    + cbn [escape_text] in H. apply escape_char_head in H as [-> H].
      f_equal. now apply IH.
Qed.

End EscapeFacts.

(** Escaping loses nothing: different texts have different escaped
    texts, so a text can be told from its escaped form; in particular a
    text that already looks escaped is escaped again. *)
Theorem escape_html_injective (a b : string) :
  a <> b -> escape_html a <> escape_html b.
Proof.
  intros Hne H. apply Hne. unfold escape_html in H.
  rewrite !EncoderFacts.html_escape_pointwise in H.
  now apply EscapeFacts.escape_text_injective.
Qed.

(** The texts [<] and [&lt;]. *)
Lemma escape_html_injective_witness : escape_html "<" <> escape_html "&lt;".
Proof. apply (escape_html_injective "<" "&lt;"). discriminate. Defined.

Module ForeignFacts.
Import Text TextFacts StoreFacts.

Lemma dict_to_list_value_error (d : pydict) e :
  Csv.dict_to_list FIELDS d = Raise e -> e = ValueError.
Proof.
  unfold Csv.dict_to_list. destruct (_ && _); [discriminate|].
  intros H. now injection H as <-.
Qed.

Lemma foreign_key_raises (d : pydict) (k : string) (v : pyval) :
  named d !! k = Some v -> k ∉ FIELDS ->
  Csv.dict_to_list FIELDS d = Raise ValueError.
Proof.
  intros Hk Hn. unfold Csv.dict_to_list.
  rewrite (bool_decide_eq_false_2 (map_Forall _ _)).
  - now rewrite andb_false_r.
  - intros H. apply Hn. exact (H k v Hk).
Qed.

Lemma writerows_raises (records : list pydict) (fs : files) (p : path) :
  Exists (fun d => Csv.dict_to_list FIELDS d = Raise ValueError) records ->
  (writerows fs p records None).2 = Raise ValueError.
Proof.
  intros H. revert fs. induction H as [d l Hd | d l _ IH]; intros fs.
  - cbn [writerows]. now rewrite Hd.
  - cbn [writerows].
    destruct (Csv.dict_to_list FIELDS d) as [row|e] eqn:Hd.
    + apply IH.
    + now rewrite (dict_to_list_value_error d e Hd).
Qed.

Lemma save_records_blocked env (fs : files) db tmp (records : list pydict)
    (text : string) :
  fs !! db = Some text ->
  with_suffix db ".tmp" = Ok tmp -> tmp <> db -> write_fault env = None ->
  Exists (fun d => Csv.dict_to_list FIELDS d = Raise ValueError) records ->
  (save_records env fs db records).2 = Raise ValueError
  /\ (save_records env fs db records).1 !! db = Some text.
Proof.
  intros Hdb Htmp Hne Hw Hbad. unfold save_records.
  rewrite (ensure_db_present _ _ _ Hdb), Htmp, open_write, Hw.
  pose proof (writerows_raises records (<[tmp := header_text]> fs) tmp Hbad) as Hr.
  pose proof (writerows_other records (<[tmp := header_text]> fs) tmp db None)
    as Ho.
  destruct (writerows (<[tmp := header_text]> fs) tmp records None)
    as [fs1 r]. cbn [fst snd] in *. subst r. split; [reflexivity|].
  cbn [fst]. rewrite Ho by congruence.
  rewrite lookup_insert_ne by assumption. exact Hdb.
Qed.

End ForeignFacts.

(** A foreign column stops every save.  Where the record file loads and
    one of its records has a key outside the seven field names (the file
    has a column of another name), [save_records] with any list that
    holds this record raises [ValueError] and leaves the record file as
    it was; so Save, which puts the new record before the records it
    loaded, fails for every form and stores nothing. *)
Theorem foreign_column_blocks_saving env (fs : files) (DB_FILE tmp : path)
    (ds : list pydict) (d : pydict) (k : string) (v : pyval) :
  loads_as fs DB_FILE ds ->
  d ∈ ds -> named d !! k = Some v -> k ∉ FIELDS ->
  with_suffix DB_FILE ".tmp" = Ok tmp -> tmp <> DB_FILE ->
  write_fault env = None ->
  (forall records,
      d ∈ records ->
      (save_records env fs DB_FILE records).2 = Raise ValueError
      /\ (save_records env fs DB_FILE records).1 !! DB_FILE = fs !! DB_FILE)
  /\ (forall f r,
        entry_record f = Some r ->
        exists fs', save_new env fs DB_FILE f = (fs', Failed ValueError)
                    /\ fs' !! DB_FILE = fs !! DB_FILE).
Proof.
  intros (text & Hdb & Hload) Hd Hk Hn Htmp Hne Hw.
  assert (Hbad : forall records, d ∈ records ->
            Exists (fun d => Csv.dict_to_list FIELDS d = Raise ValueError) records).
  { intros records Hin. apply Exists_exists. exists d. split; [exact Hin|].
    now apply (ForeignFacts.foreign_key_raises d k v). }
  split.
  - intros records Hin. rewrite Hdb.
    apply (ForeignFacts.save_records_blocked env fs DB_FILE tmp records text);
      auto.
  - intros f r Hr. unfold save_new. rewrite Hr.
    rewrite (HandlerFacts.load_records_present _ _ _ Hdb), Hload.
    destruct (ForeignFacts.save_records_blocked env fs DB_FILE tmp
                (to_dict r :: ds) text Hdb Htmp Hne Hw) as [H1 H2].
    { apply Hbad. apply elem_of_cons. now right. }
    destruct (save_records env fs DB_FILE (to_dict r :: ds)) as [fs' res].
    cbn [fst snd] in *. subst res. exists fs'. split; [reflexivity|].
    now rewrite H2, Hdb.
Qed.

(** A record file with a column [nickname]: Save with Bob's form fails
    and the file is as it was. *)
Lemma foreign_column_blocks_saving_witness :
  exists fs',
    save_new no_fault disk_with_nickname DEFAULT_DB
      (Form " bob ray" "PC-02" "Pw2!" "202" "01234 567202")
    = (fs', Failed ValueError)
    /\ fs' !! DEFAULT_DB = disk_with_nickname !! DEFAULT_DB.
Proof.
  destruct (foreign_column_blocks_saving no_fault disk_with_nickname
              DEFAULT_DB (Path "onboarding_db.tmp") [ann_with_nickname]
              ann_with_nickname "nickname" (PyStr "Annie")) as [_ H].
  - eexists. split; [reflexivity|]. vm_compute. reflexivity.
  - apply elem_of_cons. now left.
  - vm_compute. reflexivity.
  - intros H. repeat (apply elem_of_cons in H as [H|H]; [discriminate|]).
    now apply elem_of_nil in H.
  - vm_compute. reflexivity.
  - vm_compute. discriminate.
  - reflexivity.
  - apply (H (Form " bob ray" "PC-02" "Pw2!" "202" "01234 567202") bob_typed).
    vm_compute. reflexivity.
Defined.

(* ===================================================================== *)
(** * What a save makes of the records it is given *)
(* ===================================================================== *)

Module NormaliseFacts.
Import Text TextFacts StoreFacts.

Lemma dict_to_list_writable (d : pydict) :
  writable d ->
  Csv.dict_to_list FIELDS d
  = Ok (map (fun k => dict_get d k (PyStr "")) FIELDS).
Proof.
  intros [He Hk]. unfold Csv.dict_to_list.
  rewrite (bool_decide_eq_true_2 _ He), (bool_decide_eq_true_2 _ Hk).
  reflexivity.
Qed.

Lemma writerows_normal (ds : list pydict) (fs : files) (p : path) fault :
  Forall writable ds ->
  writerows fs p ds fault
  = writerows fs p (map to_dict (map record_of ds)) fault.
Proof.
  intros H. revert fs fault. induction H as [|d ds Hd _ IH]; intros fs fault.
  - reflexivity.
  - cbn [map writerows].
    rewrite (dict_to_list_writable d Hd), dict_to_list_record, cells_of_text.
    change (map Csv.cell (map (fun k => dict_get d k (PyStr "")) FIELDS))
      with (record_values (record_of d)).
    destruct fault as [[|n]|]; [reflexivity| |]; apply IH.
Qed.

Lemma save_records_normal env (fs : files) db (ds : list pydict) :
  Forall writable ds ->
  save_records env fs db ds
  = save_records env fs db (map to_dict (map record_of ds)).
Proof.
  intros H. unfold save_records.
  destruct (with_suffix db ".tmp") as [tmp|e]; [|reflexivity].
  rewrite (writerows_normal ds _ tmp _ H).
  destruct (writerows _ tmp _ _) as [fs1 [[]|e]]; [|reflexivity].
  destruct (replace_fails env); [|reflexivity].
  apply writerows_normal, H.
Qed.

Lemma writable_of_row (d : pydict) (row : list pyval) :
  Csv.dict_to_list FIELDS d = Ok row -> writable d.
Proof.
  unfold Csv.dict_to_list, writable.
  destruct (bool_decide (extra d = None)) eqn:He; [|discriminate].
  destruct (bool_decide (map_Forall (fun k _ => k ∈ FIELDS) (named d))) eqn:Hk;
    [|discriminate].
  intros _. split.
  - now apply bool_decide_eq_true_1 in He.
  - now apply bool_decide_eq_true_1 in Hk.
Qed.

Lemma record_of_to_dict (r : record) : record_of (to_dict r) = r.
Proof. destruct r. reflexivity. Qed.

End NormaliseFacts.

(** What a save makes of the records.  [save_records] takes every list of
    dicts whose keys are field names, whatever their values: where the
    record file exists, its path has a name and the platform puts in no
    write fault, the save completes and the file holds the header and one
    row for each dict, a missing field and a field that holds [None]
    written as the empty text.  So the file loads (no field being longer
    than the field size limit) as the same records with the empty text in
    these places; a record of seven texts is written as it is. *)
Theorem save_records_writes_none_as_empty env (fs : files) (DB_FILE : path)
    (ds : list pydict) (text : string) :
  fs !! DB_FILE = Some text -> name DB_FILE <> "" ->
  write_fault env = None -> Forall writable ds ->
  (exists fs',
      save_records env fs DB_FILE ds = (fs', Ok tt)
      /\ fs' !! DB_FILE = Some (header_text +:+ rows_text (map record_of ds))
      /\ (Forall (within Csv.field_size_limit) (map record_of ds) ->
          load_records fs' DB_FILE
          = (fs', Ok (map to_dict (map record_of ds)))))
  /\ (forall r, writable (to_dict r) /\ record_of (to_dict r) = r).
Proof.
  intros Hdb Hn Hw Hds. split.
  - rewrite (NormaliseFacts.save_records_normal env fs DB_FILE ds Hds).
    destruct (HandlerFacts.save_records_completes env fs DB_FILE
                (map record_of ds) text Hdb Hn Hw) as (fs' & Hsave & Hc).
    exists fs'. split; [exact Hsave|]. split; [exact Hc|].
    intros Hfit. now apply HandlerFacts.load_records_written.
  - intros r. split; [|apply NormaliseFacts.record_of_to_dict].
    apply (NormaliseFacts.writable_of_row _ (map PyStr (record_values r))).
    apply StoreFacts.dict_to_list_record.
Qed.

(** The record of a short row, with [None] under its last three keys, is
    saved over Ann's file: the file then holds the row with three empty
    fields. *)
Lemma save_records_writes_none_as_empty_witness :
  exists fs',
    save_records no_fault default_disk_with_ann DEFAULT_DB [short_row_record]
    = (fs', Ok tt)
    /\ fs' !! DEFAULT_DB
       = Some (header_text +:+ "Ann Lee,Ann.Lee,Pw1!,PC-01,,," +:+ Csv.lineterminator).
Proof.
  destruct (save_records_writes_none_as_empty no_fault default_disk_with_ann
              DEFAULT_DB [short_row_record]
              (header_text +:+ Csv.writerow (record_values ann)))
    as [(fs' & H1 & H2 & _) _].
  - reflexivity.
  - vm_compute. discriminate.
  - reflexivity.
  - constructor; [|constructor].
    eapply NormaliseFacts.writable_of_row. vm_compute. reflexivity.
  - exists fs'. split; [exact H1|]. rewrite H2. reflexivity.
Defined.

